(** * pokitpeng/ai: the chat-response protocol handler of package [models]

    A shallow embedding of [openai.go] (the OpenAI-compatible client: request
    construction, status gating, the single-shot decoder, the server-sent-event
    stream decoder, and the [OpenAIModel] entry points), of the option
    functions of package [models], and of the part of the Go standard library the
    code stands on:

    - [strings.HasPrefix], [strings.HasSuffix], [strings.TrimPrefix];
    - [io.Reader] and [io.ReadAll];
    - [bufio.Scanner] with its default split function [bufio.ScanLines] and its
      default token limit [bufio.MaxScanTokenSize];
    - [encoding/json] decoding into the two response structs.

    Go strings are byte sequences; they are embedded as [string], whose
    characters are the 256 bytes.  Text outside ASCII appears as its UTF-8
    bytes, exactly as in the Go program.

    Not modelled: the echo of each fragment to standard output
    ([fmt.Print] in the decode loop), which does not influence what the
    functions return; cancellation and the 60 second timeout of the HTTP
    client, which reach the code as a failed round trip. *)

From Stdlib Require Import String Ascii List ZArith NArith Bool Lia PrimFloat.
Import ListNotations.

Open Scope string_scope.

(** ** Byte strings *)

Definition LF : ascii := "010"%char.
Definition CR : ascii := "013"%char.

(** The double quote, and a way to write JSON text in this file: [jq]
    turns every apostrophe of its argument into a double quote. *)
Definition DQ : ascii := "034"%char.

Fixpoint jq (s : string) : string :=
match s with
| EmptyString => EmptyString
| String c s' => String (if Ascii.eqb c "'"%char then DQ else c) (jq s')
end.

Definition len (s : string) : N := N.of_nat (String.length s).

Fixpoint take (n : nat) (s : string) : string :=
match n, s with
| S n', String c s' => String c (take n' s')
| _, _ => EmptyString
end.

Fixpoint drop (n : nat) (s : string) : string :=
match n, s with
| S n', String _ s' => drop n' s'
| _, _ => s
end.

Fixpoint last_byte (s : string) : option ascii :=
match s with
| EmptyString => None
| String c EmptyString => Some c
| String _ s' => last_byte s'
end.

Fixpoint has_byte (c : ascii) (s : string) : bool :=
match s with
| EmptyString => false
| String c' s' => Ascii.eqb c' c || has_byte c s'
end.

Fixpoint repeat_byte (c : ascii) (n : nat) : string :=
match n with
| O => EmptyString
| S n' => String c (repeat_byte c n')
end.

Fixpoint concat_all (l : list string) : string :=
match l with
| [] => EmptyString
| s :: l' => s ++ concat_all l'
end.

(** Package [strings]. *)
Module strings.

(** [len(s) >= len(prefix) && s[:len(prefix)] == prefix] *)
Definition HasPrefix (s prefix : string) : bool :=
  (String.length prefix <=? String.length s)%nat
  && String.eqb (take (String.length prefix) s) prefix.

(** [len(s) >= len(suffix) && s[len(s)-len(suffix):] == suffix] *)
Definition HasSuffix (s suffix : string) : bool :=
  (String.length suffix <=? String.length s)%nat
  && String.eqb (drop (String.length s - String.length suffix) s) suffix.

(** [if HasPrefix(s, prefix) { return s[len(prefix):] }; return s] *)
Definition TrimPrefix (s prefix : string) : string :=
  if HasPrefix s prefix then drop (String.length prefix) s else s.

End strings.

(** ** Errors

    The errors the package returns, kept as values.  The first group are
    the errors of the standard library that reach the code; the second group
    are the ones [openai.go] builds with [fmt.Errorf], each named after its
    format string, with the wrapped cause ([%w]) or the formatted arguments
    as fields. *)
Inductive error : Type :=
| io_EOF
| io_ErrUnexpectedEOF
| io_failure (msg : string)                (* any other error of a Read call *)
| bufio_ErrTooLong
| json_SyntaxError
| json_UnmarshalTypeError
| json_UnsupportedValueError
| http_failure (msg : string)              (* an error of net/http *)
| ErrSerializeRequest (cause : error)      (* "failed to serialize request: %w" *)
| ErrCreateRequest (cause : error)         (* "failed to create HTTP request: %w" *)
| ErrSendRequest (cause : error)           (* "failed to send request: %w" *)
| ErrAPIRequestFailed (statusCode : Z) (body : string)
                        (* "API request failed, status code: %d, response: %s" *)
| ErrParseResponse (cause : error)         (* "failed to parse response: %w" *)
| ErrEmptyResponse                         (* "API returned empty response" *)
| ErrScanStream (cause : error).           (* "error scanning stream response: %w" *)

Inductive result (A : Type) : Type :=
| Ok (a : A)
| Fail (e : error).
Arguments Ok {A} a.
Arguments Fail {A} e.

(** ** Package [io]

    A reader is described by what it delivers: the bytes it hands out, and
    how it ends, with [io.EOF] or with a failure.  The end is reported by a
    [Read] call of its own that carries no bytes, as [strings.Reader] and the
    test suite's [errorReader] do. *)
Module io.

Record Reader : Type := { data : string; ending : error }.

(** [strings.NewReader] *)
Definition NewReader (s : string) : Reader := {| data := s; ending := io_EOF |}.

(** [io.ReadAll]: everything read before the end; [io.EOF] is not an
    error for the caller. *)
Definition ReadAll (r : Reader) : string * option error :=
  (data r, match ending r with io_EOF => None | e => Some e end).

End io.

(** ** Package [bufio]: [Scanner] with [ScanLines] *)
Module bufio.

Definition MaxScanTokenSize : N := 64 * 1024.

(** [dropCR] *)
Definition dropCR (line : string) : string :=
  match last_byte line with
  | Some c => if Ascii.eqb c CR then take (String.length line - 1) line else line
  | None => line
  end.

(** The bytes before the first newline, and the bytes after it
    ([bytes.IndexByte(data, '\n')] in [ScanLines]). *)
Fixpoint cut_line (s : string) : option (string * string) :=
match s with
| EmptyString => None
| String c s' =>
    if Ascii.eqb c LF then Some (EmptyString, s')
    else match cut_line s' with
         | Some (l, r) => Some (String c l, r)
         | None => None
         end
end.

(** [src]: input not yet turned into tokens; [src_end]: how the reader
    ends; [tok]: the last token; [err]: the scanner's sticky error, which is
    [io.EOF] once the reader is exhausted. *)
Record Scanner : Type := {
  src : string;
  src_end : error;
  tok : string;
  err : option error
}.

Definition NewScanner (r : io.Reader) : Scanner :=
  {| src := io.data r; src_end := io.ending r; tok := EmptyString; err := None |}.

(** [Scan].  A line is delivered when its newline is found in the buffer,
    which holds at most [MaxScanTokenSize] bytes; a buffer that is full
    without a newline ends the scan with [ErrTooLong].  When the reader ends,
    what is left is delivered as a last, unterminated line.  The reader is
    only asked for more when the buffer holds no complete line, so its end
    is not seen before that.  The decoder never calls [Scan] again once it
    has returned [false]; the first case below matters only after the last,
    unterminated line, when nothing is left. *)
Definition Scan (s : Scanner) : bool * Scanner :=
  let stop e := {| src := src s; src_end := src_end s; tok := EmptyString; err := Some e |} in
  match err s with
  | Some _ => (false, {| src := src s; src_end := src_end s; tok := EmptyString; err := err s |})
  | None =>
      match cut_line (src s) with
      | Some (l, r) =>
          if (len l <? MaxScanTokenSize)%N
          then (true, {| src := r; src_end := src_end s; tok := dropCR l; err := None |})
          else (false, stop bufio_ErrTooLong)
      | None =>
          if (len (src s) <? MaxScanTokenSize)%N
          then match src s with
               | EmptyString => (false, stop (src_end s))
               | _ => (true, {| src := EmptyString; src_end := src_end s;
                                tok := dropCR (src s); err := Some (src_end s) |})
               end
          else (false, stop bufio_ErrTooLong)
      end
  end.

Definition Text (s : Scanner) : string := tok s.

(** [Err]: the first error met, [io.EOF] excepted. *)
Definition Err (s : Scanner) : option error :=
  match err s with
  | Some io_EOF => None
  | e => e
  end.

End bufio.

(** ** Wire types (openai.go, lines 15-52 and 183-196) *)

Module Message.
Record t : Type := { Role : string; Content : string }.
Definition zero : t := {| Role := EmptyString; Content := EmptyString |}.
End Message.

Module Choice.
Record t : Type := { Index : Z; Message : Message.t; FinishReason : string }.
Definition zero : t :=
  {| Index := 0; Message := Message.zero; FinishReason := EmptyString |}.
End Choice.

Module Usage.
Record t : Type := { PromptTokens : Z; CompletionTokens : Z; TotalTokens : Z }.
Definition zero : t := {| PromptTokens := 0; CompletionTokens := 0; TotalTokens := 0 |}.
End Usage.

Module OpenAIResponse.
Record t : Type := {
  ID : string;
  Object : string;
  Created : Z;
  Model : string;
  Choices : list Choice.t;
  Usage : Usage.t
}.
Definition zero : t :=
  {| ID := EmptyString; Object := EmptyString; Created := 0; Model := EmptyString;
     Choices := []; Usage := Usage.zero |}.
End OpenAIResponse.

Module OpenAIRequest.
Record t : Type := {
  Model : string;
  Messages : list Message.t;
  Temperature : float;
  MaxTokens : Z;
  Stream : bool
}.
End OpenAIRequest.

(** The anonymous struct [chunk] declared inside [handleStreamResponse]. *)
Module StreamChunk.
Record Delta : Type := { Role : string; Content : string }.
Record Choice : Type := { Index : Z; Delta_ : Delta; FinishReason : option string }.
Record t : Type := {
  ID : string;
  Object : string;
  Created : Z;
  Model : string;
  Choices : list Choice
}.
Definition zeroDelta : Delta := {| Role := EmptyString; Content := EmptyString |}.
Definition zeroChoice : Choice :=
  {| Index := 0; Delta_ := zeroDelta; FinishReason := None |}.
Definition zero : t :=
  {| ID := EmptyString; Object := EmptyString; Created := 0; Model := EmptyString;
     Choices := [] |}.
End StreamChunk.

(** Package [models]: [ChatOptions], [ModelConfig], the option functions. *)
Module ChatOptions.
Record t : Type := {
  Temperature : float;
  MaxTokens : Z;
  Stream : bool;
  History : list Message.t
}.
End ChatOptions.

Module ModelConfig.
Record t : Type := {
  Name : string;
  URL : string;
  APIKey : string;
  DefaultEnabled : bool;
  DefaultChatOptions : option ChatOptions.t
}.
End ModelConfig.

(** A [ChatOption] updates the options it is given. *)
Definition ChatOption : Type := ChatOptions.t -> ChatOptions.t.

Definition WithTemperature (temp : float) : ChatOption :=
  fun o => {| ChatOptions.Temperature := temp;
              ChatOptions.MaxTokens := ChatOptions.MaxTokens o;
              ChatOptions.Stream := ChatOptions.Stream o;
              ChatOptions.History := ChatOptions.History o |}.

Definition WithMaxTokens (tokens : Z) : ChatOption :=
  fun o => {| ChatOptions.Temperature := ChatOptions.Temperature o;
              ChatOptions.MaxTokens := tokens;
              ChatOptions.Stream := ChatOptions.Stream o;
              ChatOptions.History := ChatOptions.History o |}.

Definition WithStream (stream : bool) : ChatOption :=
  fun o => {| ChatOptions.Temperature := ChatOptions.Temperature o;
              ChatOptions.MaxTokens := ChatOptions.MaxTokens o;
              ChatOptions.Stream := stream;
              ChatOptions.History := ChatOptions.History o |}.

Definition WithHistory (messages : list Message.t) : ChatOption :=
  fun o => {| ChatOptions.Temperature := ChatOptions.Temperature o;
              ChatOptions.MaxTokens := ChatOptions.MaxTokens o;
              ChatOptions.Stream := ChatOptions.Stream o;
              ChatOptions.History := messages |}.

Definition DefaultChatOptions : ChatOptions.t :=
  {| ChatOptions.Temperature := 0x1.999999999999ap-3%float;  (* 0.2 *)
     ChatOptions.MaxTokens := 4096;
     ChatOptions.Stream := true;
     ChatOptions.History := [] |}.

(** [for _, option := range options { option(opts) }] *)
Definition applyOptions (options : list ChatOption) (opts : ChatOptions.t) : ChatOptions.t :=
  fold_left (fun o option => option o) options opts.

(** ** Package [encoding/json], decoding side

    The decoder reads JSON text (RFC 8259, as Go's scanner accepts it, with
    its limit of 10000 nested arrays and objects) into a tree and stores the
    tree into a struct the way [Unmarshal] does: object keys are matched to
    field tags exactly or else case-insensitively, unknown keys are skipped,
    [null] leaves a field as it is (and empties a slice or a pointer), a value
    of the wrong kind is an [UnmarshalTypeError], strings are unquoted and
    coerced to valid UTF-8.  A key that occurs twice is stored twice, into the
    same field; when that field is a slice, elements it already holds are
    decoded into, and further elements start from zero. *)
Module json.

Unset Elimination Schemes.
Inductive value : Type :=
| Null
| Bool (b : bool)
| Number (literal : string)
| Str (s : string)
| Array (elems : list value)
| Object (members : list (string * value)).
Set Elimination Schemes.

(** What reading a value off the front of the input gives: the value and
    the rest, or a byte that cannot continue a value, or the end of the input
    in the middle of a value. *)
Inductive parsed (A : Type) : Type :=
| Parsed (a : A) (rest : string)
| Invalid
| Incomplete.
Arguments Parsed {A} a rest.
Arguments Invalid {A}.
Arguments Incomplete {A}.

Definition pmap {A B : Type} (f : A -> B) (p : parsed A) : parsed B :=
  match p with
  | Parsed a r => Parsed (f a) r
  | Invalid => Invalid
  | Incomplete => Incomplete
  end.

Definition code (c : ascii) : N := N_of_ascii c.
Definition byte (n : N) : ascii := ascii_of_N n.

Definition between (lo hi : N) (c : ascii) : bool :=
  ((lo <=? code c) && (code c <=? hi))%N.

Definition isDigit (c : ascii) : bool := between 48 57 c.

(** [isSpace]: space, tab, carriage return, newline. *)
Definition isSpace (c : ascii) : bool :=
  (code c =? 32)%N || (code c =? 9)%N || (code c =? 13)%N || (code c =? 10)%N.

Fixpoint skipSpace (s : string) : string :=
match s with
| EmptyString => EmptyString
| String c s' => if isSpace c then skipSpace s' else s
end.

Definition isEmpty (s : string) : bool :=
  match s with EmptyString => true | _ => false end.

(** *** Strings *)

Definition hexval (c : ascii) : option N :=
  if between 48 57 c then Some (code c - 48)%N
  else if between 97 102 c then Some (code c - 87)%N
  else if between 65 70 c then Some (code c - 55)%N
  else None.

Definition hex4 (a b c d : ascii) : option N :=
  match hexval a, hexval b, hexval c, hexval d with
  | Some x, Some y, Some z, Some w => Some (((x * 16 + y) * 16 + z) * 16 + w)%N
  | _, _, _, _ => None
  end.

Fixpoint all_hex (s : string) : bool :=
match s with
| EmptyString => true
| String c s' => match hexval c with Some _ => all_hex s' | None => false end
end.

Definition ReplacementChar : string :=
  String (byte 239) (String (byte 191) (String (byte 189) EmptyString)).

(** [utf8.EncodeRune] *)
Definition EncodeRune (r : N) : string :=
  (if r <? 128 then String (byte r) EmptyString
   else if r <? 2048 then
     String (byte (192 + r / 64)) (String (byte (128 + r mod 64)) EmptyString)
   else if (55296 <=? r) && (r <=? 57343) then ReplacementChar
   else if r <? 65536 then
     String (byte (224 + r / 4096))
       (String (byte (128 + (r / 64) mod 64)) (String (byte (128 + r mod 64)) EmptyString))
   else if r <=? 1114111 then
     String (byte (240 + r / 262144))
       (String (byte (128 + (r / 4096) mod 64))
          (String (byte (128 + (r / 64) mod 64)) (String (byte (128 + r mod 64)) EmptyString)))
   else ReplacementChar)%N.

Definition isHighSurrogate (r : N) : bool := ((55296 <=? r) && (r <=? 56319))%N.
Definition isLowSurrogate (r : N) : bool := ((56320 <=? r) && (r <=? 57343))%N.

(** The escapes of one byte: the byte that follows the backslash, and the
    byte it stands for. *)
Definition simpleEscape (e : ascii) : option ascii :=
  if Ascii.eqb e DQ then Some DQ
  else if Ascii.eqb e "\"%char then Some "\"%char
  else if Ascii.eqb e "/"%char then Some "/"%char
  else if Ascii.eqb e "b"%char then Some (byte 8)
  else if Ascii.eqb e "f"%char then Some (byte 12)
  else if Ascii.eqb e "n"%char then Some (byte 10)
  else if Ascii.eqb e "r"%char then Some (byte 13)
  else if Ascii.eqb e "t"%char then Some (byte 9)
  else None.

(** The second half of a surrogate pair at the front of [s], when there is
    one: its value and what follows it. *)
Definition lowSurrogateAt (s : string) : option (N * string) :=
  match s with
  | String b (String u (String h1 (String h2 (String h3 (String h4 rest))))) =>
      if Ascii.eqb b "\"%char && Ascii.eqb u "u"%char then
        match hex4 h1 h2 h3 h4 with
        | Some r => if isLowSurrogate r then Some (r, rest) else None
        | None => None
        end
      else None
  | _ => None
  end.

(** A string literal after its opening quote: escapes are replaced, other
    bytes are kept. *)
Fixpoint lexString (s : string) : parsed string :=
match s with
| EmptyString => Incomplete
| String c s1 =>
    if Ascii.eqb c DQ then Parsed EmptyString s1
    else if Ascii.eqb c "\"%char then
      match s1 with
      | EmptyString => Incomplete
      | String e s2 =>
          if Ascii.eqb e "u"%char then
            match s2 with
            | String h1 (String h2 (String h3 (String h4 s6))) =>
                match hex4 h1 h2 h3 h4 with
                | None => Invalid
                | Some r =>
                    if isHighSurrogate r then
                      match s6 with
                      | String b (String u (String k1 (String k2 (String k3 (String k4 s12))))) =>
                          match lowSurrogateAt s6 with
                          | Some (r2, _) =>
                              pmap (append (EncodeRune
                                      (65536 + (r - 55296) * 1024 + (r2 - 56320))%N))
                                   (lexString s12)
                          | None => pmap (append ReplacementChar) (lexString s6)
                          end
                      | _ => pmap (append ReplacementChar) (lexString s6)
                      end
                    else pmap (append (EncodeRune r)) (lexString s6)
                end
            | _ => if all_hex s2 then Incomplete else Invalid
            end
          else
            match simpleEscape e with
            | Some b => pmap (String b) (lexString s2)
            | None => Invalid
            end
      end
    else if (code c <? 32)%N then Invalid
    else pmap (String c) (lexString s1)
end.

Definition isCont (c : ascii) : bool := between 128 191 c.

(** What [unquote] does to bytes that are not valid UTF-8: each byte that
    does not start a valid encoding becomes U+FFFD ([utf8.DecodeRune]). *)
Fixpoint coerceUTF8 (s : string) : string :=
match s with
| EmptyString => EmptyString
| String b0 s1 =>
    if (code b0 <? 128)%N then String b0 (coerceUTF8 s1)
    else
      let bad := ReplacementChar ++ coerceUTF8 s1 in
      match s1 with
      | EmptyString => bad
      | String b1 s2 =>
          if between 194 223 b0 then
            if isCont b1 then String b0 (String b1 (coerceUTF8 s2)) else bad
          else
            match s2 with
            | EmptyString => bad
            | String b2 s3 =>
                if between 224 239 b0 then
                  if (if (code b0 =? 224)%N then between 160 191 b1
                      else if (code b0 =? 237)%N then between 128 159 b1
                      else isCont b1) && isCont b2
                  then String b0 (String b1 (String b2 (coerceUTF8 s3)))
                  else bad
                else
                  match s3 with
                  | EmptyString => bad
                  | String b3 s4 =>
                      if between 240 244 b0 then
                        if (if (code b0 =? 240)%N then between 144 191 b1
                            else if (code b0 =? 244)%N then between 128 143 b1
                            else isCont b1) && isCont b2 && isCont b3
                        then String b0 (String b1 (String b2 (String b3 (coerceUTF8 s4))))
                        else bad
                      else bad
                  end
            end
      end
end.

(** *** Numbers *)

Fixpoint digits (s : string) : string * string :=
match s with
| EmptyString => (EmptyString, EmptyString)
| String c s' =>
    if isDigit c then let (d, r) := digits s' in (String c d, r)
    else (EmptyString, s)
end.

(** Digits that must be there: at least one. *)
Definition digits1 (s : string) : parsed string :=
  match s with
  | EmptyString => Incomplete
  | String c _ => if isDigit c then let (d, r) := digits s in Parsed d r else Invalid
  end.

Definition lexExponent (s : string) : parsed string :=
  match s with
  | String e s1 =>
      if Ascii.eqb e "e"%char || Ascii.eqb e "E"%char then
        match s1 with
        | String sg s2 =>
            if Ascii.eqb sg "+"%char || Ascii.eqb sg "-"%char
            then pmap (fun d => String e (String sg d)) (digits1 s2)
            else pmap (String e) (digits1 s1)
        | EmptyString => Incomplete
        end
      else Parsed EmptyString s
  | EmptyString => Parsed EmptyString s
  end.

Definition lexFraction (s : string) : parsed string :=
  match s with
  | String dot s1 =>
      if Ascii.eqb dot "."%char then
        match digits1 s1 with
        | Parsed d r => pmap (fun e => String dot (d ++ e)) (lexExponent r)
        | Invalid => Invalid
        | Incomplete => Incomplete
        end
      else lexExponent s
  | EmptyString => Parsed EmptyString s
  end.

(** A number literal whose sign, if any, has been read. *)
Definition lexUnsigned (s : string) : parsed string :=
  match s with
  | EmptyString => Incomplete
  | String c s1 =>
      if Ascii.eqb c "0"%char then pmap (String c) (lexFraction s1)
      else if isDigit c then
        let (d, r) := digits s1 in pmap (fun f => String c (d ++ f)) (lexFraction r)
      else Invalid
  end.

Definition lexNumber (s : string) : parsed string :=
  match s with
  | String c s1 =>
      if Ascii.eqb c "-"%char then pmap (String c) (lexUnsigned s1) else lexUnsigned s
  | EmptyString => Incomplete
  end.

(** The rest of a literal name. *)
Fixpoint expect (name s : string) : parsed unit :=
match name with
| EmptyString => Parsed tt s
| String c name' =>
    match s with
    | EmptyString => Incomplete
    | String d s' => if Ascii.eqb c d then expect name' s' else Invalid
    end
end.

(** *** Values *)

Definition maxNestingDepth : nat := 100 * 100.

(** [fuel] bounds the chain of calls; each call but the first follows a
    byte that has been read, and [parse] gives two units per byte. *)
Fixpoint parseValue (fuel depth : nat) (s : string) {struct fuel} : parsed value :=
match fuel with
| O => Invalid
| S fuel' =>
    match skipSpace s with
    | EmptyString => Incomplete
    | String c s1 =>
        if Ascii.eqb c "{"%char then
          match depth with
          | O => Invalid
          | S depth' =>
              match skipSpace s1 with
              | EmptyString => Incomplete
              | String c2 s2 =>
                  if Ascii.eqb c2 "}"%char then Parsed (Object []) s2
                  else pmap Object (parseMembers fuel' depth' (String c2 s2))
              end
          end
        else if Ascii.eqb c "["%char then
          match depth with
          | O => Invalid
          | S depth' =>
              match skipSpace s1 with
              | EmptyString => Incomplete
              | String c2 s2 =>
                  if Ascii.eqb c2 "]"%char then Parsed (Array []) s2
                  else pmap Array (parseElements fuel' depth' (String c2 s2))
              end
          end
        else if Ascii.eqb c DQ then pmap (fun x => Str (coerceUTF8 x)) (lexString s1)
        else if Ascii.eqb c "-"%char || isDigit c then pmap Number (lexNumber (String c s1))
        else if Ascii.eqb c "t"%char then pmap (fun _ => Bool true) (expect "rue" s1)
        else if Ascii.eqb c "f"%char then pmap (fun _ => Bool false) (expect "alse" s1)
        else if Ascii.eqb c "n"%char then pmap (fun _ => Null) (expect "ull" s1)
        else Invalid
    end
end
with parseElements (fuel depth : nat) (s : string) {struct fuel} : parsed (list value) :=
match fuel with
| O => Invalid
| S fuel' =>
    match parseValue fuel' depth s with
    | Parsed v r =>
        match skipSpace r with
        | EmptyString => Incomplete
        | String c r1 =>
            if Ascii.eqb c ","%char then pmap (cons v) (parseElements fuel' depth r1)
            else if Ascii.eqb c "]"%char then Parsed [v] r1
            else Invalid
        end
    | Invalid => Invalid
    | Incomplete => Incomplete
    end
end
with parseMembers (fuel depth : nat) (s : string) {struct fuel}
  : parsed (list (string * value)) :=
match fuel with
| O => Invalid
| S fuel' =>
    match skipSpace s with
    | EmptyString => Incomplete
    | String q s1 =>
        if Ascii.eqb q DQ then
          match lexString s1 with
          | Parsed k r =>
              match skipSpace r with
              | EmptyString => Incomplete
              | String c r1 =>
                  if Ascii.eqb c ":"%char then
                    match parseValue fuel' depth r1 with
                    | Parsed v r2 =>
                        match skipSpace r2 with
                        | EmptyString => Incomplete
                        | String c3 r3 =>
                            if Ascii.eqb c3 ","%char
                            then pmap (cons (coerceUTF8 k, v)) (parseMembers fuel' depth r3)
                            else if Ascii.eqb c3 "}"%char then Parsed [(coerceUTF8 k, v)] r3
                            else Invalid
                        end
                    | Invalid => Invalid
                    | Incomplete => Incomplete
                    end
                  else Invalid
              end
          | Invalid => Invalid
          | Incomplete => Incomplete
          end
        else Invalid
    end
end.

(** The first value of the input. *)
Definition parse (s : string) : parsed value :=
  parseValue (2 * String.length s + 2) maxNestingDepth s.

(** *** Storing a value into a struct

    Every decoder takes the JSON value and what the destination holds, and
    gives what the destination holds afterwards, or nothing when the value
    has the wrong kind. *)

Definition decoder (T : Type) : Type := value -> T -> option T.

Definition decodeString : decoder string :=
  fun v old =>
    match v with
    | Str s => Some s
    | Null => Some old
    | _ => None
    end.

(** [*string] *)
Definition decodeStringPtr : decoder (option string) :=
  fun v old =>
    match v with
    | Str s => Some (Some s)
    | Null => Some None
    | _ => None
    end.

Fixpoint digitsValue (s : string) (acc : Z) : option Z :=
match s with
| EmptyString => Some acc
| String c s' => if isDigit c then digitsValue s' (10 * acc + Z.of_N (code c - 48)) else None
end.

(** [strconv.ParseInt(literal, 10, 64)] on a number literal. *)
Definition parseInt64 (literal : string) : option Z :=
  let r :=
    match literal with
    | String c s' =>
        if Ascii.eqb c "-"%char then option_map Z.opp (digitsValue s' 0)
        else digitsValue literal 0
    | EmptyString => None
    end in
  match r with
  | Some z => if ((- 2 ^ 63 <=? z) && (z <=? 2 ^ 63 - 1))%Z then Some z else None
  | None => None
  end.

(** [int64], and [int] on a 64-bit platform. *)
Definition decodeInt : decoder Z :=
  fun v old =>
    match v with
    | Number literal => parseInt64 literal
    | Null => Some old
    | _ => None
    end.

(** [foldName], as far as it can meet a name made of ASCII letters and
    underscores: letters lose their case, and the two letters outside ASCII
    that fold to ASCII ones (U+017F to S, U+212A to K) are replaced. *)
Fixpoint foldName (s : string) : string :=
match s with
| EmptyString => EmptyString
| String c s1 =>
    if between 97 122 c then String (byte (code c - 32)) (foldName s1)
    else
      match s1 with
      | String d s2 =>
          if ((code c =? 197) && (code d =? 191))%N then String "S"%char (foldName s2)
          else
            match s2 with
            | String e s3 =>
                if ((code c =? 226) && (code d =? 132) && (code e =? 170))%N
                then String "K"%char (foldName s3)
                else String c (foldName s1)
            | EmptyString => String c (foldName s1)
            end
      | EmptyString => String c (foldName s1)
      end
end.

(** The field a key selects: the one whose tag is the key, or else the one
    whose tag is the key up to folding. *)
Definition lookupField {T : Type} (fields : list (string * decoder T)) (key : string)
  : option (decoder T) :=
  match find (fun f => String.eqb (fst f) key) fields with
  | Some f => Some (snd f)
  | None =>
      match find (fun f => String.eqb (foldName (fst f)) (foldName key)) fields with
      | Some f => Some (snd f)
      | None => None
      end
  end.

Definition decodeStruct {T : Type} (fields : list (string * decoder T)) : decoder T :=
  fun v old =>
    match v with
    | Object members =>
        fold_left
          (fun acc m =>
             match acc with
             | Some t =>
                 match lookupField fields (fst m) with
                 | Some d => d (snd m) t
                 | None => Some t
                 end
             | None => None
             end)
          members (Some old)
    | Null => Some old
    | _ => None
    end.

Fixpoint decodeElems {T : Type} (elem : decoder T) (zero : T)
  (vs : list value) (old : list T) : option (list T) :=
match vs with
| [] => Some []
| v :: vs' =>
    let o := match old with x :: _ => x | [] => zero end in
    match elem v o, decodeElems elem zero vs' (tl old) with
    | Some e, Some es => Some (e :: es)
    | _, _ => None
    end
end.

Definition decodeSlice {T : Type} (elem : decoder T) (zero : T) : decoder (list T) :=
  fun v old =>
    match v with
    | Array vs => decodeElems elem zero vs old
    | Null => Some []
    | _ => None
    end.

(** A field of a struct, from the decoder of its type and its getter and
    setter. *)
Definition field {T F : Type} (tag : string) (d : decoder F)
  (get : T -> F) (set : F -> T -> T) : string * decoder T :=
  (tag, fun v t => option_map (fun x => set x t) (d v (get t))).

(** The structs of openai.go. *)

Definition decodeMessage : decoder Message.t :=
  decodeStruct
    [ field "role" decodeString Message.Role
        (fun x t => {| Message.Role := x; Message.Content := Message.Content t |});
      field "content" decodeString Message.Content
        (fun x t => {| Message.Role := Message.Role t; Message.Content := x |}) ].

Definition decodeChoice : decoder Choice.t :=
  decodeStruct
    [ field "index" decodeInt Choice.Index
        (fun x t => {| Choice.Index := x; Choice.Message := Choice.Message t;
                       Choice.FinishReason := Choice.FinishReason t |});
      field "message" decodeMessage Choice.Message
        (fun x t => {| Choice.Index := Choice.Index t; Choice.Message := x;
                       Choice.FinishReason := Choice.FinishReason t |});
      field "finish_reason" decodeString Choice.FinishReason
        (fun x t => {| Choice.Index := Choice.Index t; Choice.Message := Choice.Message t;
                       Choice.FinishReason := x |}) ].

Definition decodeUsage : decoder Usage.t :=
  decodeStruct
    [ field "prompt_tokens" decodeInt Usage.PromptTokens
        (fun x t => {| Usage.PromptTokens := x;
                       Usage.CompletionTokens := Usage.CompletionTokens t;
                       Usage.TotalTokens := Usage.TotalTokens t |});
      field "completion_tokens" decodeInt Usage.CompletionTokens
        (fun x t => {| Usage.PromptTokens := Usage.PromptTokens t;
                       Usage.CompletionTokens := x;
                       Usage.TotalTokens := Usage.TotalTokens t |});
      field "total_tokens" decodeInt Usage.TotalTokens
        (fun x t => {| Usage.PromptTokens := Usage.PromptTokens t;
                       Usage.CompletionTokens := Usage.CompletionTokens t;
                       Usage.TotalTokens := x |}) ].

Definition decodeOpenAIResponse : decoder OpenAIResponse.t :=
  decodeStruct
    [ field "id" decodeString OpenAIResponse.ID
        (fun x t => {| OpenAIResponse.ID := x;
                       OpenAIResponse.Object := OpenAIResponse.Object t;
                       OpenAIResponse.Created := OpenAIResponse.Created t;
                       OpenAIResponse.Model := OpenAIResponse.Model t;
                       OpenAIResponse.Choices := OpenAIResponse.Choices t;
                       OpenAIResponse.Usage := OpenAIResponse.Usage t |});
      field "object" decodeString OpenAIResponse.Object
        (fun x t => {| OpenAIResponse.ID := OpenAIResponse.ID t;
                       OpenAIResponse.Object := x;
                       OpenAIResponse.Created := OpenAIResponse.Created t;
                       OpenAIResponse.Model := OpenAIResponse.Model t;
                       OpenAIResponse.Choices := OpenAIResponse.Choices t;
                       OpenAIResponse.Usage := OpenAIResponse.Usage t |});
      field "created" decodeInt OpenAIResponse.Created
        (fun x t => {| OpenAIResponse.ID := OpenAIResponse.ID t;
                       OpenAIResponse.Object := OpenAIResponse.Object t;
                       OpenAIResponse.Created := x;
                       OpenAIResponse.Model := OpenAIResponse.Model t;
                       OpenAIResponse.Choices := OpenAIResponse.Choices t;
                       OpenAIResponse.Usage := OpenAIResponse.Usage t |});
      field "model" decodeString OpenAIResponse.Model
        (fun x t => {| OpenAIResponse.ID := OpenAIResponse.ID t;
                       OpenAIResponse.Object := OpenAIResponse.Object t;
                       OpenAIResponse.Created := OpenAIResponse.Created t;
                       OpenAIResponse.Model := x;
                       OpenAIResponse.Choices := OpenAIResponse.Choices t;
                       OpenAIResponse.Usage := OpenAIResponse.Usage t |});
      field "choices" (decodeSlice decodeChoice Choice.zero) OpenAIResponse.Choices
        (fun x t => {| OpenAIResponse.ID := OpenAIResponse.ID t;
                       OpenAIResponse.Object := OpenAIResponse.Object t;
                       OpenAIResponse.Created := OpenAIResponse.Created t;
                       OpenAIResponse.Model := OpenAIResponse.Model t;
                       OpenAIResponse.Choices := x;
                       OpenAIResponse.Usage := OpenAIResponse.Usage t |});
      field "usage" decodeUsage OpenAIResponse.Usage
        (fun x t => {| OpenAIResponse.ID := OpenAIResponse.ID t;
                       OpenAIResponse.Object := OpenAIResponse.Object t;
                       OpenAIResponse.Created := OpenAIResponse.Created t;
                       OpenAIResponse.Model := OpenAIResponse.Model t;
                       OpenAIResponse.Choices := OpenAIResponse.Choices t;
                       OpenAIResponse.Usage := x |}) ].

Definition decodeDelta : decoder StreamChunk.Delta :=
  decodeStruct
    [ field "role" decodeString StreamChunk.Role
        (fun x t => {| StreamChunk.Role := x; StreamChunk.Content := StreamChunk.Content t |});
      field "content" decodeString StreamChunk.Content
        (fun x t => {| StreamChunk.Role := StreamChunk.Role t; StreamChunk.Content := x |}) ].

Definition decodeStreamChoice : decoder StreamChunk.Choice :=
  decodeStruct
    [ field "index" decodeInt StreamChunk.Index
        (fun x t => {| StreamChunk.Index := x;
                       StreamChunk.Delta_ := StreamChunk.Delta_ t;
                       StreamChunk.FinishReason := StreamChunk.FinishReason t |});
      field "delta" decodeDelta StreamChunk.Delta_
        (fun x t => {| StreamChunk.Index := StreamChunk.Index t;
                       StreamChunk.Delta_ := x;
                       StreamChunk.FinishReason := StreamChunk.FinishReason t |});
      field "finish_reason" decodeStringPtr StreamChunk.FinishReason
        (fun x t => {| StreamChunk.Index := StreamChunk.Index t;
                       StreamChunk.Delta_ := StreamChunk.Delta_ t;
                       StreamChunk.FinishReason := x |}) ].

Definition decodeStreamChunk : decoder StreamChunk.t :=
  decodeStruct
    [ field "id" decodeString StreamChunk.ID
        (fun x t => {| StreamChunk.ID := x;
                       StreamChunk.Object := StreamChunk.Object t;
                       StreamChunk.Created := StreamChunk.Created t;
                       StreamChunk.Model := StreamChunk.Model t;
                       StreamChunk.Choices := StreamChunk.Choices t |});
      field "object" decodeString StreamChunk.Object
        (fun x t => {| StreamChunk.ID := StreamChunk.ID t;
                       StreamChunk.Object := x;
                       StreamChunk.Created := StreamChunk.Created t;
                       StreamChunk.Model := StreamChunk.Model t;
                       StreamChunk.Choices := StreamChunk.Choices t |});
      field "created" decodeInt StreamChunk.Created
        (fun x t => {| StreamChunk.ID := StreamChunk.ID t;
                       StreamChunk.Object := StreamChunk.Object t;
                       StreamChunk.Created := x;
                       StreamChunk.Model := StreamChunk.Model t;
                       StreamChunk.Choices := StreamChunk.Choices t |});
      field "model" decodeString StreamChunk.Model
        (fun x t => {| StreamChunk.ID := StreamChunk.ID t;
                       StreamChunk.Object := StreamChunk.Object t;
                       StreamChunk.Created := StreamChunk.Created t;
                       StreamChunk.Model := x;
                       StreamChunk.Choices := StreamChunk.Choices t |});
      field "choices" (decodeSlice decodeStreamChoice StreamChunk.zeroChoice)
        StreamChunk.Choices
        (fun x t => {| StreamChunk.ID := StreamChunk.ID t;
                       StreamChunk.Object := StreamChunk.Object t;
                       StreamChunk.Created := StreamChunk.Created t;
                       StreamChunk.Model := StreamChunk.Model t;
                       StreamChunk.Choices := x |}) ].

(** [json.Unmarshal(data, &v)] with [v] zero: the input must be one value
    and nothing else ([checkValid]), then the value is stored. *)
Definition Unmarshal {T : Type} (d : decoder T) (zero : T) (data : string) : result T :=
  match parse data with
  | Parsed v rest =>
      if isEmpty (skipSpace rest) then
        match d v zero with
        | Some t => Ok t
        | None => Fail json_UnmarshalTypeError
        end
      else Fail json_SyntaxError
  | Invalid => Fail json_SyntaxError
  | Incomplete => Fail json_SyntaxError
  end.

Definition isScalar (v : value) : bool :=
  match v with
  | Array _ => false
  | Object _ => false
  | _ => true
  end.

(** [json.NewDecoder(r).Decode(&v)] with [v] zero: the first value of the
    stream is read and stored; what follows it is not looked at.  A value
    that is cut short is [io.ErrUnexpectedEOF], nothing but white space is
    [io.EOF], and a reader that fails before the value is complete passes its
    error on; the end of a number, string or literal shows only with the byte
    after it or with the end of the stream. *)
Definition Decode {T : Type} (d : decoder T) (zero : T) (r : io.Reader) : result T :=
  match parse (io.data r) with
  | Parsed v rest =>
      match io.ending r with
      | io_EOF =>
          match d v zero with
          | Some t => Ok t
          | None => Fail json_UnmarshalTypeError
          end
      | e =>
          if isScalar v && isEmpty rest then Fail e
          else
            match d v zero with
            | Some t => Ok t
            | None => Fail json_UnmarshalTypeError
            end
      end
  | Invalid => Fail json_SyntaxError
  | Incomplete =>
      match io.ending r with
      | io_EOF =>
          if isEmpty (skipSpace (io.data r)) then Fail io_EOF else Fail io_ErrUnexpectedEOF
      | e => Fail e
      end
  end.

End json.

(** ** Package [net/http], as far as the client uses it *)
Module http.

Definition StatusOK : Z := 200.

(** [Header.Set]: the value replaces what the key held. *)
Definition Header : Type := list (string * string).

Definition Header_Set (h : Header) (key value : string) : Header :=
  (key, value) :: filter (fun kv => negb (String.eqb (fst kv) key)) h.

Module Request.
Record t : Type := { Method : string; URL : string; Header : Header; Body : string }.
End Request.

Module Response.
Record t : Type := { StatusCode : Z; Body : io.Reader }.
End Response.

(** [http.Client]; [Timeout] in nanoseconds, as [time.Duration] counts. *)
Module Client.
Record t : Type := { Timeout : Z }.
End Client.

End http.

(** ** The client (openai.go, lines 54-223) *)
Module OpenAIClient.

Record t : Type := {
  apiKey : string;
  apiURL : string;
  httpClient : http.Client.t;
  model : string
}.

Definition NewOpenAIClient (modelConfig : ModelConfig.t) : t :=
  let httpClient := {| http.Client.Timeout := 60 * 1000000000 |} in
  {| apiKey := ModelConfig.APIKey modelConfig;
     apiURL := ModelConfig.URL modelConfig;
     httpClient := httpClient;
     model := ModelConfig.Name modelConfig |}.

Definition SetModel (c : t) (model' : string) : t :=
  {| apiKey := apiKey c; apiURL := apiURL c; httpClient := httpClient c; model := model' |}.

(** Lines 100-104: the address the request goes to. *)
Definition endpoint (apiURL : string) : string :=
  let apiURL := if negb (strings.HasSuffix apiURL "/") then apiURL ++ "/" else apiURL in
  apiURL ++ "v1/chat/completions".

Section Decoding.

(** [json.Unmarshal] into the chunk struct and [json.NewDecoder(r).Decode]
    into [OpenAIResponse], each starting from the zero struct the code
    declares just before: functions of the input alone.  [json.Unmarshal] and
    [json.Decode] above are the instances the examples run. *)
Variable Unmarshal : string -> result StreamChunk.t.
Variable Decode : io.Reader -> result OpenAIResponse.t.

(** [handleNormalResponse] *)
Definition handleNormalResponse (respBody : io.Reader) : string * option error :=
  match Decode respBody with
  | Fail err => (EmptyString, Some (ErrParseResponse err))
  | Ok apiResp =>
      match OpenAIResponse.Choices apiResp with
      | [] => (EmptyString, Some ErrEmptyResponse)
      | c :: _ => (Message.Content (Choice.Message c), None)
      end
  end.

(** How one pass through the body of the loop of [handleStreamResponse]
    ends: with [continue] (or at the end of the body), or with [break]. *)
Inductive control : Type :=
| Continue (fullContent : string)
| Break (fullContent : string).

(** The body of [for scanner.Scan() { ... }], for one line. *)
Definition loopBody (line : string) (fullContent : string) : control :=
  if String.eqb line EmptyString then Continue fullContent
  else if negb (strings.HasPrefix line "data: ") then Continue fullContent
  else
    let data := strings.TrimPrefix line "data: " in
    if String.eqb data "[DONE]" then Break fullContent
    else
      match Unmarshal data with
      | Fail _ => Continue fullContent
      | Ok chunk =>
          match StreamChunk.Choices chunk with
          | c :: _ =>
              let content := StreamChunk.Content (StreamChunk.Delta_ c) in
              if negb (String.eqb content EmptyString)
              then Continue (fullContent ++ content)
              else Continue fullContent
          | [] => Continue fullContent
          end
      end.

(** The loop.  Every successful [Scan] consumes at least one byte of
    [src], so [fuel] above the length of [src] is never used up
    ([streamLoop_fuel]). *)
Fixpoint streamLoop (fuel : nat) (scanner : bufio.Scanner) (fullContent : string)
  : bufio.Scanner * string :=
match fuel with
| O => (scanner, fullContent)
| S fuel' =>
    let (more, scanner') := bufio.Scan scanner in
    if more then
      match loopBody (bufio.Text scanner') fullContent with
      | Continue fullContent' => streamLoop fuel' scanner' fullContent'
      | Break fullContent' => (scanner', fullContent')
      end
    else (scanner', fullContent)
end.

(** The code after the loop. *)
Definition afterLoop (st : bufio.Scanner * string) : string * option error :=
  let (scanner, fullContent) := st in
  match bufio.Err scanner with
  | Some err => (fullContent, Some (ErrScanStream err))
  | None => (fullContent, None)
  end.

Definition runLoop (scanner : bufio.Scanner) (fullContent : string) : string * option error :=
  afterLoop (streamLoop (S (String.length (bufio.src scanner))) scanner fullContent).

(** [handleStreamResponse] *)
Definition handleStreamResponse (respBody : io.Reader) : string * option error :=
  runLoop (bufio.NewScanner respBody) EmptyString.

(** Lines 122-134 of [Chat]: what is done with the response. *)
Definition handleResponse (opts : ChatOptions.t) (resp : http.Response.t)
  : string * option error :=
  if negb (http.Response.StatusCode resp =? http.StatusOK)%Z then
    let body := fst (io.ReadAll (http.Response.Body resp)) in
    (EmptyString, Some (ErrAPIRequestFailed (http.Response.StatusCode resp) body))
  else if ChatOptions.Stream opts then handleStreamResponse (http.Response.Body resp)
  else handleNormalResponse (http.Response.Body resp).

Section Transport.

(** [json.Marshal] on a request, [http.NewRequestWithContext] (which
    checks the method and parses the address), and the round trip
    [c.httpClient.Do], with the server behind it. *)
Variable Marshal : OpenAIRequest.t -> result string.
Variable NewRequestWithContext : string -> string -> string -> result http.Request.t.
Variable Do : http.Request.t -> result http.Response.t.

(** Lines 84-119 of [Chat]: the request is built and sent. *)
Definition roundTrip (c : t) (messages : list Message.t) (opts : ChatOptions.t)
  : result http.Response.t :=
  let req := {| OpenAIRequest.Model := model c;
                OpenAIRequest.Messages := messages;
                OpenAIRequest.Temperature := ChatOptions.Temperature opts;
                OpenAIRequest.MaxTokens := ChatOptions.MaxTokens opts;
                OpenAIRequest.Stream := ChatOptions.Stream opts |} in
  match Marshal req with
  | Fail err => Fail (ErrSerializeRequest err)
  | Ok reqBody =>
      match NewRequestWithContext "POST" (endpoint (apiURL c)) reqBody with
      | Fail err => Fail (ErrCreateRequest err)
      | Ok httpReq =>
          let set key value r :=
            {| http.Request.Method := http.Request.Method r;
               http.Request.URL := http.Request.URL r;
               http.Request.Header := http.Header_Set (http.Request.Header r) key value;
               http.Request.Body := http.Request.Body r |} in
          let httpReq := set "Content-Type" "application/json" httpReq in
          let httpReq := set "Authorization" ("Bearer " ++ apiKey c) httpReq in
          match Do httpReq with
          | Fail err => Fail (ErrSendRequest err)
          | Ok resp => Ok resp
          end
      end
  end.

(** [Chat] *)
Definition Chat (c : t) (messages : list Message.t) (opts : ChatOptions.t)
  : string * option error :=
  match roundTrip c messages opts with
  | Fail err => (EmptyString, Some err)
  | Ok resp => handleResponse opts resp
  end.

End Transport.
End Decoding.
End OpenAIClient.

(** ** The model (factory.go, lines 45-64; openai.go, lines 225-294) *)
Module OpenAIModel.

(** [baseModel] is embedded. *)
Record t : Type := { config : ModelConfig.t }.

Definition NewOpenAIModel (config : ModelConfig.t) : t := {| config := config |}.

Definition Name (m : t) : string := ModelConfig.Name (config m).

Definition NL : string := String LF EmptyString.

Section Entry.

(** The method [Chat] of the client, the transport the entry points hand
    their messages to; [OpenAIClient.Chat] is what the program puts here. *)
Variable R : Type.
Variable client_Chat : OpenAIClient.t -> list Message.t -> ChatOptions.t -> R.

(** [Chat] *)
Definition Chat (m : t) (question : string) (options : list ChatOption) : R :=
  let opts := applyOptions options DefaultChatOptions in
  let messages : list Message.t := [] in
  let messages :=
    if (0 <? List.length (ChatOptions.History opts))%nat
    then (messages ++ ChatOptions.History opts)%list
    else messages in
  let messages :=
    (messages ++ [ {| Message.Role := "user"; Message.Content := question |} ])%list in
  let client := OpenAIClient.NewOpenAIClient
                  {| ModelConfig.Name := ModelConfig.Name (config m);
                     ModelConfig.URL := ModelConfig.URL (config m);
                     ModelConfig.APIKey := ModelConfig.APIKey (config m);
                     ModelConfig.DefaultEnabled := false;
                     ModelConfig.DefaultChatOptions := None |} in
  client_Chat client messages opts.

(** [ChatWithFile] *)
Definition ChatWithFile (m : t) (question fileName fileContent : string)
  (options : list ChatOption) : R :=
  let opts :=
    match ModelConfig.DefaultChatOptions (config m) with
    | Some defaultOpts => defaultOpts
    | None => DefaultChatOptions
    end in
  let opts := applyOptions options opts in
  let client := OpenAIClient.NewOpenAIClient
                  {| ModelConfig.Name := ModelConfig.Name (config m);
                     ModelConfig.URL := ModelConfig.URL (config m);
                     ModelConfig.APIKey := ModelConfig.APIKey (config m);
                     ModelConfig.DefaultEnabled := false;
                     ModelConfig.DefaultChatOptions := None |} in
  let prompt :=
    "file name: " ++ fileName ++ NL ++ NL ++ "file content:" ++ NL ++ fileContent
    ++ NL ++ NL ++ "question: " ++ question in
  let messages := [ {| Message.Role := "user"; Message.Content := prompt |} ] in
  client_Chat client messages opts.

End Entry.

Arguments Chat {R} client_Chat m question options.
Arguments ChatWithFile {R} client_Chat m question fileName fileContent options.

End OpenAIModel.

(** ** Vocabulary of the statements *)

Definition NL : string := String LF EmptyString.
Definition CRLF : string := String CR (String LF EmptyString).

(** The lines of a text: the pieces between its newlines
    ([strings.Split(s, "\n")]). *)
Fixpoint lines (s : string) : list string :=
match s with
| EmptyString => [EmptyString]
| String c s' =>
    if Ascii.eqb c LF then EmptyString :: lines s'
    else match lines s' with
         | l :: ls => String c l :: ls
         | [] => [String c EmptyString]
         end
end.

(** A position where a line starts: the start of the text, or just after a
    newline. *)
Definition at_line_start (before : string) : bool :=
  match last_byte before with
  | None => true
  | Some c => Ascii.eqb c LF
  end.

(** A line the scanner's buffer can hold. *)
Definition fits (line : string) : bool := (len line <? bufio.MaxScanTokenSize)%N.

(** A payload that makes one line of its own and reaches the decoder as it
    is: no newline inside, no carriage return at its end. *)
Definition one_line (payload : string) : bool :=
  negb (has_byte LF payload)
  && match last_byte payload with Some c => negb (Ascii.eqb c CR) | None => true end.

(** The wire format of the streaming answer: each frame is
    [data: <json>] followed by a blank line; the marker [data: [DONE]]
    ends the stream. *)
Definition sse_line (payload : string) : string := "data: " ++ payload.
Definition sse_frame (payload : string) : string := sse_line payload ++ NL ++ NL.
Definition sse_frames (payloads : list string) : string := concat_all (map sse_frame payloads).
Definition sse_done : string := sse_line "[DONE]".

(** The text a payload contributes when it decodes to a chunk with at
    least one choice: the content of the delta of the first choice. *)
Definition delta_of (Unmarshal : string -> result StreamChunk.t) (payload : string)
  : option string :=
  match Unmarshal payload with
  | Ok chunk =>
      match StreamChunk.Choices chunk with
      | c :: _ => Some (StreamChunk.Content (StreamChunk.Delta_ c))
      | [] => None
      end
  | Fail _ => None
  end.

(** A frame of the stream: a payload that is a line of its own, is not the
    end marker, and carries the delta [delta]. *)
Definition carries (Unmarshal : string -> result StreamChunk.t)
  (payload delta : string) : Prop :=
  one_line payload = true /\ payload <> "[DONE]" /\ delta_of Unmarshal payload = Some delta.

(** A payload the decoder cannot parse. *)
Definition unparsable (Unmarshal : string -> result StreamChunk.t) (payload : string) : Prop :=
  one_line payload = true /\ payload <> "[DONE]" /\ exists e, Unmarshal payload = Fail e.

(** A scanner that has met no error yet and holds [text]. *)
Definition scanning (text : string) (ending : error) (tok : string) : bufio.Scanner :=
  {| bufio.src := text; bufio.src_end := ending; bufio.tok := tok; bufio.err := None |}.

(** A message of role [user]. *)
Definition userMessage (content : string) : Message.t :=
  {| Message.Role := "user"; Message.Content := content |}.

(** The client an entry point of the model builds from the model's
    configuration. *)
Definition clientOf (m : OpenAIModel.t) : OpenAIClient.t :=
  OpenAIClient.NewOpenAIClient
    {| ModelConfig.Name := ModelConfig.Name (OpenAIModel.config m);
       ModelConfig.URL := ModelConfig.URL (OpenAIModel.config m);
       ModelConfig.APIKey := ModelConfig.APIKey (OpenAIModel.config m);
       ModelConfig.DefaultEnabled := false;
       ModelConfig.DefaultChatOptions := None |}.

(** The template of the prompt of [ChatWithFile]. *)
Definition filePrompt (question fileName fileContent : string) : string :=
  "file name: " ++ fileName ++ NL ++ NL ++ "file content:" ++ NL ++ fileContent
  ++ NL ++ NL ++ "question: " ++ question.


(** ** Fixtures of the examples

    The decoders of package [json] at the two structs. *)
Definition UnmarshalChunk : string -> result StreamChunk.t :=
  json.Unmarshal json.decodeStreamChunk StreamChunk.zero.

Definition DecodeResponse : io.Reader -> result OpenAIResponse.t :=
  json.Decode json.decodeOpenAIResponse OpenAIResponse.zero.

(** The frames of the test [TestHandleStreamResponse]. *)
Definition testChunk (delta finish : string) : string :=
  jq "{'id':'chatcmpl-123','object':'chat.completion.chunk','created':1677858242,'model':'gpt-3.5-turbo-0613','choices':[{'index':0,'delta':"
  ++ delta ++ jq ",'finish_reason':" ++ finish ++ "}]}".

Definition contentChunk (content : string) : string :=
  testChunk (jq "{'content':'" ++ content ++ jq "'}") "null".

Definition roleChunk : string := testChunk (jq "{'role':'assistant'}") "null".
Definition finishChunk : string := testChunk "{}" (jq "'stop'").

Definition testDeltas : list string := ["这是"; "一个"; "流式"; "响应"; "测试"].

Definition sseResponse : string :=
  sse_frames (roleChunk :: map contentChunk testDeltas ++ [finishChunk]) ++ sse_done ++ NL.

(** The envelope the mock servers of the tests answer with. *)
Definition testEnvelope : string :=
  jq "{'id':'chatcmpl-123','object':'chat.completion','created':1677858242,'model':'gpt-3.5-turbo-0613','choices':[{'index':0,'message':{'role':'assistant','content':'this is a test response'},'finish_reason':'stop'}],'usage':{'prompt_tokens':10,'completion_tokens':20,'total_tokens':30}}"
  ++ NL.

(** A transport for the examples: a serializer that writes the model name
    and the number of messages, a request constructor that accepts every
    address, and a server that answers every request with the same status
    and body. *)
Definition exampleMarshal (req : OpenAIRequest.t) : result string :=
  Ok (jq "{'model':'" ++ OpenAIRequest.Model req ++ jq "','messages':"
      ++ repeat_byte "m" (List.length (OpenAIRequest.Messages req)) ++ "}").

Definition exampleNewRequest (method url body : string) : result http.Request.t :=
  Ok {| http.Request.Method := method; http.Request.URL := url;
        http.Request.Header := []; http.Request.Body := body |}.

Definition exampleServer (status : Z) (body : io.Reader)
  : http.Request.t -> result http.Response.t :=
  fun _ => Ok {| http.Response.StatusCode := status; http.Response.Body := body |}.

Definition testConfig : ModelConfig.t :=
  {| ModelConfig.Name := "test-openai";
     ModelConfig.URL := "http://127.0.0.1:8080";
     ModelConfig.APIKey := "test-api-key";
     ModelConfig.DefaultEnabled := false;
     ModelConfig.DefaultChatOptions := None |}.

Definition testClient : OpenAIClient.t := OpenAIClient.NewOpenAIClient testConfig.

(** * The rest of the program

    The model factory and the Anthropic stand-in (factory.go), the model
    manager (manager.go), package [util], the conversation history of package
    [history], and the helpers and the root command of package [ai]
    (cmd/ai), with the functions of the Go library they call. *)

(** ** More of package [strings], [path/filepath] and Go's maps *)

(** [strings.Repeat], for a count that is not negative. *)
Fixpoint strings_Repeat (s : string) (count : nat) : string :=
match count with
| O => EmptyString
| S count' => s ++ strings_Repeat s count'
end.

(** [strings.Contains]: [substr] starts at some index of [s]. *)
Fixpoint strings_Contains (s substr : string) : bool :=
  strings.HasPrefix s substr
  || match s with
     | EmptyString => false
     | String _ s' => strings_Contains s' substr
     end.

(** [c < utf8.RuneSelf] *)
Definition isASCII (c : ascii) : bool := (N_of_ascii c <? 128)%N.

(** [if 'A' <= c && c <= 'Z' { c += 'a' - 'A' }] *)
Definition lowerByte (c : ascii) : ascii :=
  let n := N_of_ascii c in
  if ((65 <=? n) && (n <=? 90))%N then ascii_of_N (n + 32) else c.

Fixpoint allASCII (s : string) : bool :=
match s with
| EmptyString => true
| String c s' => isASCII c && allASCII s'
end.

Fixpoint mapBytes (f : ascii -> ascii) (s : string) : string :=
match s with
| EmptyString => EmptyString
| String c s' => String (f c) (mapBytes f s')
end.

(** [strings.ToLower].  A text of ASCII bytes is lowered byte by byte;
    any other text goes to [strings.Map(unicode.ToLower, s)], which stands on
    the case tables of package [unicode] and is a parameter here. *)
Definition strings_ToLower (Map_unicode_ToLower : string -> string) (s : string) : string :=
  if allASCII s then mapBytes lowerByte s else Map_unicode_ToLower s.

(** [os.IsPathSeparator], as built for Unix. *)
Definition os_IsPathSeparator (c : ascii) : bool := Ascii.eqb c "/"%char.

(** The loop of [filepath.Ext]; [i] is one more than the index the loop
    looks at. *)
Fixpoint filepath_Ext_loop (path : string) (i : nat) : string :=
match i with
| O => EmptyString
| S i' =>
    match String.get i' path with
    | Some c =>
        if os_IsPathSeparator c then EmptyString
        else if Ascii.eqb c "."%char then drop i' path
        else filepath_Ext_loop path i'
    | None => EmptyString
    end
end.

(** [filepath.Ext]: the suffix of the last element of the path that starts
    at its last dot. *)
Definition filepath_Ext (path : string) : string :=
  filepath_Ext_loop path (String.length path).

(** A Go map with keys of type [string]: entries with distinct keys.
    [make] is the empty map, [lookup] the comma-ok read [v, ok := m[k]],
    [insert] the assignment [m[k] = v], [delete] the built-in [delete], and
    [len] the built-in [len].  The order of the entries is not observable
    through these; [insert] and [delete] keep the keys distinct
    ([gomap_insert_wf], [gomap_delete_wf]). *)
Module gomap.

Definition t (V : Type) : Type := list (string * V).

Definition make {V : Type} : t V := [].

Fixpoint lookup {V : Type} (k : string) (m : t V) : option V :=
match m with
| [] => None
| (k', v) :: m' => if String.eqb k' k then Some v else lookup k m'
end.

Definition delete {V : Type} (k : string) (m : t V) : t V :=
  filter (fun kv => negb (String.eqb (fst kv) k)) m.

Definition insert {V : Type} (k : string) (v : V) (m : t V) : t V :=
  (k, v) :: delete k m.

Definition len {V : Type} (m : t V) : Z := Z.of_nat (List.length m).

Definition keys {V : Type} (m : t V) : list string := map fst m.

Definition wf {V : Type} (m : t V) : Prop := NoDup (keys m).

End gomap.

(** ** The factory (factory.go) *)

(** [AnthropicModel]: the stand-in that answers without a request. *)
Module AnthropicModel.

Record t : Type := { config : ModelConfig.t }.

Definition NewAnthropicModel (config : ModelConfig.t) : t := {| config := config |}.

Definition Name (m : t) : string := ModelConfig.Name (config m).

(** [Chat] *)
Definition Chat (m : t) (question : string) (options : list ChatOption)
  : string * option error :=
  let opts :=
    match ModelConfig.DefaultChatOptions (config m) with
    | Some defaultOpts => defaultOpts
    | None => DefaultChatOptions
    end in
  let opts := applyOptions options opts in
  ("[Anthropic] Response to: " ++ question, None).

(** [ChatWithFile] *)
Definition ChatWithFile (m : t) (question fileName fileContent : string)
  (options : list ChatOption) : string * option error :=
  let opts :=
    match ModelConfig.DefaultChatOptions (config m) with
    | Some defaultOpts => defaultOpts
    | None => DefaultChatOptions
    end in
  let opts := applyOptions options opts in
  ("[Anthropic] Response to file " ++ fileName ++ " question: " ++ question, None).

End AnthropicModel.

(** The interface [Model], implemented by the two model types of the
    package; a method call dispatches on the type of the value. *)
Module Model.

Inductive t : Type :=
| OpenAI (m : OpenAIModel.t)
| Anthropic (m : AnthropicModel.t).

Definition Name (model : t) : string :=
  match model with
  | OpenAI m => OpenAIModel.Name m
  | Anthropic m => AnthropicModel.Name m
  end.

Section Methods.

(** The method [Chat] of the client, as in [OpenAIModel]. *)
Variable client_Chat : OpenAIClient.t -> list Message.t -> ChatOptions.t -> string * option error.

Definition Chat (model : t) (question : string) (options : list ChatOption)
  : string * option error :=
  match model with
  | OpenAI m => OpenAIModel.Chat client_Chat m question options
  | Anthropic m => AnthropicModel.Chat m question options
  end.

Definition ChatWithFile (model : t) (question fileName fileContent : string)
  (options : list ChatOption) : string * option error :=
  match model with
  | OpenAI m => OpenAIModel.ChatWithFile client_Chat m question fileName fileContent options
  | Anthropic m => AnthropicModel.ChatWithFile m question fileName fileContent options
  end.

End Methods.
End Model.

Section Factory.

Variable Map_unicode_ToLower : string -> string.

(** [determineModelType] *)
Definition determineModelType (name url : string) : string :=
  let name := strings_ToLower Map_unicode_ToLower name in
  if strings_Contains name "openai" || strings_Contains name "gpt" then "openai"
  else if strings_Contains name "anthropic" || strings_Contains name "claude" then "anthropic"
  else if strings_Contains url "openai.com" then "openai"
  else "openai".

(** [CreateModel] *)
Definition CreateModel (config : ModelConfig.t) : Model.t * option error :=
  let modelType := determineModelType (ModelConfig.Name config) (ModelConfig.URL config) in
  if String.eqb modelType "openai"
  then (Model.OpenAI (OpenAIModel.NewOpenAIModel config), None)
  else if String.eqb modelType "anthropic"
  then (Model.Anthropic (AnthropicModel.NewAnthropicModel config), None)
  else (Model.OpenAI (OpenAIModel.NewOpenAIModel config), None).

End Factory.

(** ** The model manager (manager.go)

    The manager is a value that every method takes and gives back; the
    configuration file lives in a world [World] that [os.WriteFile] changes.
    The methods hold the manager's lock for their whole body, so a call is
    one step.  Maps and configurations are kept by value: the maps of the
    manager are not nil and hold no nil [*ModelConfig], which is so as long
    as the configuration file holds a mapping without null entries (an
    assignment to an entry of a nil map, and a read through a nil pointer,
    would panic). *)

Inductive manager_error : Type :=
| ErrModelNotFound                        (* "model not found" *)
| ErrModelExists                          (* "model already exists" *)
| ErrNoDefaultModel                       (* "no default model set" *)
| ErrFailedToCreateModel (cause : error)  (* "failed to create model: %w" *)
| ErrFailedToUpdateModel (cause : error)  (* "failed to update model: %w" *)
| ErrMarshalConfig (cause : error)        (* "failed to marshal config: %w" *)
| ErrWriteConfigFile (cause : error)      (* "failed to write config file: %w" *)
| ErrReadConfigFile (cause : error)       (* "failed to read config file: %w" *)
| ErrUnmarshalConfig (cause : error).     (* "failed to unmarshal config: %w" *)

Module ModelManager.

Record t : Type := {
  models : gomap.t Model.t;
  configs : gomap.t ModelConfig.t;
  defaultModel : string;
  configFile : string
}.

(** [GetDefaultModel] *)
Definition GetDefaultModel (m : t) : option Model.t * option manager_error :=
  if String.eqb (defaultModel m) EmptyString then (None, Some ErrNoDefaultModel)
  else
    match gomap.lookup (defaultModel m) (models m) with
    | None => (None, Some ErrModelNotFound)
    | Some model => (Some model, None)
    end.

(** [GetModel] *)
Definition GetModel (m : t) (name : string) : option Model.t * option manager_error :=
  match gomap.lookup name (models m) with
  | None => (None, Some ErrModelNotFound)
  | Some model => (Some model, None)
  end.

(** [ListModels]: a copy of the configurations. *)
Definition ListModels (m : t) : gomap.t ModelConfig.t :=
  fold_left (fun result kv => gomap.insert (fst kv) (snd kv) result) (configs m) gomap.make.

(** [GetDefaultModelName] *)
Definition GetDefaultModelName (m : t) : string := defaultModel m.

(** [GetModelConfig] *)
Definition GetModelConfig (m : t) (name : string)
  : option ModelConfig.t * option manager_error :=
  match gomap.lookup name (configs m) with
  | None => (None, Some ErrModelNotFound)
  | Some config => (Some config, None)
  end.

Section Methods.

Variable Map_unicode_ToLower : string -> string.

(** The world of the configuration file, [yaml.Marshal] on the
    configurations, and [os.WriteFile] (path, data). *)
Variable World : Type.
Variable yaml_Marshal : gomap.t ModelConfig.t -> result string.
Variable os_WriteFile : string -> string -> World -> option error * World.

(** [saveConfig] *)
Definition saveConfig (m : t) (w : World) : option manager_error * World :=
  match yaml_Marshal (configs m) with
  | Fail err => (Some (ErrMarshalConfig err), w)
  | Ok data =>
      match os_WriteFile (configFile m) data w with
      | (Some err, w') => (Some (ErrWriteConfigFile err), w')
      | (None, w') => (None, w')
      end
  end.

(** [AddModel] *)
Definition AddModel (name url apiKey : string) (defaultEnabled : bool)
  (chatOptions : option ChatOptions.t) (m : t) (w : World)
  : option manager_error * t * World :=
  match gomap.lookup name (configs m) with
  | Some _ => (Some ErrModelExists, m, w)
  | None =>
      let config := {| ModelConfig.Name := name;
                       ModelConfig.URL := url;
                       ModelConfig.APIKey := apiKey;
                       ModelConfig.DefaultEnabled := defaultEnabled;
                       ModelConfig.DefaultChatOptions := chatOptions |} in
      match CreateModel Map_unicode_ToLower config with
      | (_, Some err) => (Some (ErrFailedToCreateModel err), m, w)
      | (model, None) =>
          let models' := gomap.insert name model (models m) in
          let configs' := gomap.insert name config (configs m) in
          let defaultModel' :=
            if (gomap.len configs' =? 1)%Z || defaultEnabled then name else defaultModel m in
          let m' := {| models := models'; configs := configs';
                       defaultModel := defaultModel'; configFile := configFile m |} in
          let (err, w') := saveConfig m' w in
          (err, m', w')
      end
  end.

(** [RemoveModel] *)
Definition RemoveModel (name : string) (m : t) (w : World)
  : option manager_error * t * World :=
  match gomap.lookup name (configs m) with
  | None => (Some ErrModelNotFound, m, w)
  | Some _ =>
      let m' := {| models := gomap.delete name (models m);
                   configs := gomap.delete name (configs m);
                   defaultModel := defaultModel m; configFile := configFile m |} in
      let (err, w') := saveConfig m' w in
      (err, m', w')
  end.

(** [SetDefaultModel] *)
Definition SetDefaultModel (name : string) (m : t) (w : World)
  : option manager_error * t * World :=
  match gomap.lookup name (configs m) with
  | None => (Some ErrModelNotFound, m, w)
  | Some _ =>
      let m' := {| models := models m; configs := configs m;
                   defaultModel := name; configFile := configFile m |} in
      let (err, w') := saveConfig m' w in
      (err, m', w')
  end.

(** [UpdateModelConfig] *)
Definition UpdateModelConfig (name : string) (config : ModelConfig.t) (m : t) (w : World)
  : option manager_error * t * World :=
  match gomap.lookup name (configs m) with
  | None => (Some ErrModelNotFound, m, w)
  | Some _ =>
      let configs' := gomap.insert name config (configs m) in
      let defaultModel' :=
        if ModelConfig.DefaultEnabled config then name else defaultModel m in
      match CreateModel Map_unicode_ToLower config with
      | (_, Some err) =>
          (Some (ErrFailedToUpdateModel err),
           {| models := models m; configs := configs';
              defaultModel := defaultModel'; configFile := configFile m |}, w)
      | (model, None) =>
          let m' := {| models := gomap.insert name model (models m); configs := configs';
                       defaultModel := defaultModel'; configFile := configFile m |} in
          let (err, w') := saveConfig m' w in
          (err, m', w')
      end
  end.

Section Start.

(** The rest of the file system and of the library: [os.UserHomeDir],
    [filepath.Join], [os.MkdirAll], the error of [os.Stat], if any,
    [os.IsNotExist] on an error that is not nil, [os.ReadFile], and
    [yaml.Unmarshal] into a map that is nil before. *)
Variable os_UserHomeDir : World -> result string.
Variable filepath_Join : list string -> string.
Variable os_MkdirAll : string -> World -> option error * World.
Variable os_Stat : string -> World -> option error.
Variable os_IsNotExist : error -> bool.
Variable os_ReadFile : string -> World -> result string.
Variable yaml_Unmarshal : string -> result (gomap.t ModelConfig.t).

(** The order in which a [range] loop visits the entries of a map, which
    the language leaves open: some order of the entries of the map. *)
Variable range_order : forall V : Type, gomap.t V -> list (string * V).

(** [NewModelManager] *)
Definition NewModelManager (w : World) : t * World :=
  let homeDir := match os_UserHomeDir w with Ok dir => dir | Fail _ => "." end in
  let configDir := filepath_Join [homeDir; ".ai"] in
  let (_, w) := os_MkdirAll configDir w in
  let configFile := filepath_Join [configDir; "config.yaml"] in
  ({| models := gomap.make; configs := gomap.make;
      defaultModel := EmptyString; configFile := configFile |}, w).

(** [loadConfig] *)
Definition loadConfig (m : t) (w : World) : option manager_error * t * World :=
  if match os_Stat (configFile m) w with
     | Some err => os_IsNotExist err
     | None => false
     end
  then
    let (err, w') := saveConfig m w in
    (err, m, w')
  else
    match os_ReadFile (configFile m) w with
    | Fail err => (Some (ErrReadConfigFile err), m, w)
    | Ok data =>
        match yaml_Unmarshal data with
        | Fail err => (Some (ErrUnmarshalConfig err), m, w)
        | Ok configs =>
            (None,
             {| models := models m; configs := configs;
                defaultModel := defaultModel m; configFile := configFile m |},
             w)
        end
    end.

(** The body of the first loop of [Init], for one entry of the
    configurations. *)
Definition initModel (m : t) (entry : string * ModelConfig.t) : t :=
  let (name, config) := entry in
  match CreateModel Map_unicode_ToLower config with
  | (_, Some err) => m
  | (model, None) =>
      let m := {| models := gomap.insert name model (models m); configs := configs m;
                  defaultModel := defaultModel m; configFile := configFile m |} in
      if ModelConfig.DefaultEnabled config
      then {| models := models m; configs := configs m;
              defaultModel := name; configFile := configFile m |}
      else m
  end.

(** [Init] *)
Definition Init (m : t) (w : World) : option manager_error * t * World :=
  match loadConfig m w with
  | (Some err, m, w) => (Some err, m, w)
  | (None, m, w) =>
      let m := fold_left initModel (range_order ModelConfig.t (configs m)) m in
      let m :=
        if String.eqb (defaultModel m) EmptyString && (0 <? gomap.len (models m))%Z then
          match range_order Model.t (models m) with
          | (name, _) :: _ =>
              {| models := models m; configs := configs m;
                 defaultModel := name; configFile := configFile m |}
          | [] => m
          end
        else m in
      (None, m, w)
  end.

End Start.
End Methods.
End ModelManager.

(** ** Package [util] *)
Module util.

Inductive failure : Type :=
| ErrUnsupportedFileType (filename : string)  (* "unsupported file type: %s" *)
| ErrFileDoesNotExist (cause : error)         (* "file does not exist: %s" *)
| ErrFailedToReadFile (cause : error).        (* "failed to read file: %s" *)

Definition textExtensions : list (string * bool) :=
  [ (".go", true); (".py", true); (".js", true); (".ts", true); (".java", true);
    (".c", true); (".cpp", true); (".h", true); (".hpp", true); (".cs", true);
    (".php", true); (".rb", true); (".swift", true); (".kt", true); (".rs", true);
    (".scala", true); (".sh", true); (".bash", true); (".pl", true); (".r", true);
    (".html", true); (".htm", true); (".xml", true); (".json", true); (".yaml", true);
    (".yml", true); (".md", true); (".rst", true); (".tex", true); (".css", true);
    (".scss", true); (".sass", true); (".less", true);
    (".conf", true); (".config", true); (".ini", true); (".toml", true); (".env", true);
    (".txt", true); (".log", true); (".csv", true); (".tsv", true) ].

Definition langMap : list (string * string) :=
  [ (".go", "Go"); (".py", "Python"); (".js", "JavaScript"); (".ts", "TypeScript");
    (".java", "Java"); (".c", "C"); (".cpp", "C++"); (".cs", "C#"); (".php", "PHP");
    (".rb", "Ruby"); (".html", "HTML"); (".css", "CSS"); (".rs", "Rust");
    (".swift", "Swift"); (".kt", "Kotlin"); (".scala", "Scala"); (".r", "R");
    (".sh", "Shell"); (".bash", "Bash"); (".json", "JSON"); (".yaml", "YAML");
    (".yml", "YAML"); (".md", "Markdown"); (".xml", "XML"); (".sql", "SQL");
    (".pl", "Perl"); (".txt", "Text") ].

Section Files.

Variable Map_unicode_ToLower : string -> string.

(** [IsTextFile]: the read of a key the map does not hold gives
    [false]. *)
Definition IsTextFile (filename : string) : bool :=
  let ext := strings_ToLower Map_unicode_ToLower (filepath_Ext filename) in
  match gomap.lookup ext textExtensions with
  | Some b => b
  | None => false
  end.

(** [detectLanguage] *)
Definition detectLanguage (filename : string) : string :=
  let ext := strings_ToLower Map_unicode_ToLower (filepath_Ext filename) in
  match gomap.lookup ext langMap with
  | None => "Text"
  | Some lang => lang
  end.

(** The file system: the error of [os.Stat], if any; [os.IsNotExist] on
    an error that is not nil (it is [false] on nil); and [os.ReadFile]. *)
Variable os_Stat : string -> option error.
Variable os_IsNotExist : error -> bool.
Variable os_ReadFile : string -> result string.

(** [ReadTextFile] *)
Definition ReadTextFile (filename : string) : string * option failure :=
  if negb (IsTextFile filename) then (EmptyString, Some (ErrUnsupportedFileType filename))
  else
    match os_Stat filename with
    | Some err =>
        if os_IsNotExist err then (EmptyString, Some (ErrFileDoesNotExist err))
        else
          match os_ReadFile filename with
          | Fail err => (EmptyString, Some (ErrFailedToReadFile err))
          | Ok content => (content, None)
          end
    | None =>
        match os_ReadFile filename with
        | Fail err => (EmptyString, Some (ErrFailedToReadFile err))
        | Ok content => (content, None)
        end
    end.

(** [GetFileInfo] *)
Definition GetFileInfo (filename : string) : string * string * option failure :=
  match ReadTextFile filename with
  | (_, Some err) => (EmptyString, EmptyString, Some err)
  | (content, None) =>
      let language := detectLanguage filename in
      (content, language, None)
  end.

End Files.
End util.

(** ** Package [history]

    A [time.Time] is an instant, counted in nanoseconds.  The manager's
    session pointer is [None] when it is nil; a method that reads through a
    nil pointer panics, which is the result [None].  The clock and the files
    live in a world that [time.Now], [os.MkdirAll] and [os.WriteFile]
    change and [os.ReadFile] reads. *)
Module history.

Record Message : Type := { Role : string; Content : string; Timestamp : Z }.

Record Session : Type := {
  ID : string;
  Messages : list Message;
  CreatedAt : Z;
  UpdatedAt : Z
}.

Definition zeroSession : Session :=
  {| ID := EmptyString; Messages := []; CreatedAt := 0; UpdatedAt := 0 |}.

Record Manager : Type := { currentSession : option Session; storagePath : string }.

(** [IsEmpty] *)
Definition IsEmpty (m : Manager) : bool :=
  match currentSession m with
  | None => true
  | Some session => (List.length (Messages session) =? 0)%nat
  end.

(** [GetMessages] *)
Definition GetMessages (m : Manager) : option (list Message) :=
  match currentSession m with
  | None => None
  | Some session => Some (Messages session)
  end.

(** [GetCurrentSessionID] *)
Definition GetCurrentSessionID (m : Manager) : string :=
  match currentSession m with
  | None => EmptyString
  | Some session => ID session
  end.

Section Storage.

Variable World : Type.
Variable time_Now : World -> Z * World.
Variable filepath_Join : list string -> string.
Variable os_MkdirAll : string -> World -> option error * World.
Variable os_ReadFile : string -> World -> result string.
Variable os_WriteFile : string -> string -> World -> option error * World.

(** [json.MarshalIndent] on a session pointer, [json.Unmarshal] into a
    session, and [generateSessionID], which reads the clock and the random
    source. *)
Variable json_MarshalIndent : option Session -> result string.
Variable json_Unmarshal : string -> Session -> result Session.
Variable generateSessionID : World -> string * World.

(** [saveCurrentSession] *)
Definition saveCurrentSession (m : Manager) (w : World) : option error * World :=
  let sessionPath := filepath_Join [storagePath m; "current_session.json"] in
  match json_MarshalIndent (currentSession m) with
  | Fail err => (Some err, w)
  | Ok data => os_WriteFile sessionPath data w
  end.

(** [loadCurrentSession] *)
Definition loadCurrentSession (m : Manager) (w : World) : option error * Manager :=
  let sessionPath := filepath_Join [storagePath m; "current_session.json"] in
  match os_ReadFile sessionPath w with
  | Fail err => (Some err, m)
  | Ok data =>
      match json_Unmarshal data zeroSession with
      | Fail err => (Some err, m)
      | Ok session =>
          (None, {| currentSession := Some session; storagePath := storagePath m |})
      end
  end.

(** [saveSessionToFile] *)
Definition saveSessionToFile (m : Manager) (session : Session) (w : World)
  : option error * World :=
  let sessionPath := filepath_Join [storagePath m; "sessions"; ID session ++ ".json"] in
  match json_MarshalIndent (Some session) with
  | Fail err => (Some err, w)
  | Ok data => os_WriteFile sessionPath data w
  end.

(** [New] *)
Definition New (m : Manager) (w : World) : Manager * World :=
  let (id, w) := generateSessionID w in
  let (createdAt, w) := time_Now w in
  let (updatedAt, w) := time_Now w in
  let m := {| currentSession :=
                Some {| ID := id; Messages := [];
                        CreatedAt := createdAt; UpdatedAt := updatedAt |};
              storagePath := storagePath m |} in
  let (_, w) := saveCurrentSession m w in
  (m, w).

(** [NewManager] *)
Definition NewManager (storagePath : string) (w : World)
  : option Manager * option error * World :=
  match os_MkdirAll storagePath w with
  | (Some err, w) => (None, Some err, w)
  | (None, w) =>
      let sessionsPath := filepath_Join [storagePath; "sessions"] in
      match os_MkdirAll sessionsPath w with
      | (Some err, w) => (None, Some err, w)
      | (None, w) =>
          let manager := {| currentSession := None; storagePath := storagePath |} in
          match loadCurrentSession manager w with
          | (Some err, manager) =>
              let (manager, w) := New manager w in
              (Some manager, None, w)
          | (None, manager) => (Some manager, None, w)
          end
      end
  end.

(** [AddUserMessage] *)
Definition AddUserMessage (content : string) (m : Manager) (w : World)
  : option (Manager * World) :=
  match currentSession m with
  | None => None
  | Some session =>
      let (timestamp, w) := time_Now w in
      let messages :=
        (Messages session
         ++ [ {| Role := "user"; Content := content; Timestamp := timestamp |} ])%list in
      let (updatedAt, w) := time_Now w in
      let session := {| ID := ID session; Messages := messages;
                        CreatedAt := CreatedAt session; UpdatedAt := updatedAt |} in
      let m := {| currentSession := Some session; storagePath := storagePath m |} in
      let (_, w) := saveCurrentSession m w in
      let (_, w) := saveSessionToFile m session w in
      Some (m, w)
  end.

(** [AddAssistantMessage] *)
Definition AddAssistantMessage (content : string) (m : Manager) (w : World)
  : option (Manager * World) :=
  match currentSession m with
  | None => None
  | Some session =>
      let (timestamp, w) := time_Now w in
      let messages :=
        (Messages session
         ++ [ {| Role := "assistant"; Content := content; Timestamp := timestamp |} ])%list in
      let (updatedAt, w) := time_Now w in
      let session := {| ID := ID session; Messages := messages;
                        CreatedAt := CreatedAt session; UpdatedAt := updatedAt |} in
      let m := {| currentSession := Some session; storagePath := storagePath m |} in
      let (_, w) := saveCurrentSession m w in
      let (_, w) := saveSessionToFile m session w in
      Some (m, w)
  end.

End Storage.
End history.

(** ** Package [ai] (cmd/ai): the root command and its helpers

    What a command prints is returned as text: the bytes written to the
    standard output and to the standard error.  The echo of the streamed
    fragments, which the client prints itself, is left out as before. *)
Module ai.

(** [convertToModelMessages] *)
Definition convertToModelMessages (historyMessages : list history.Message) : list Message.t :=
  map (fun msg => {| Message.Role := history.Role msg;
                     Message.Content := history.Content msg |}) historyMessages.

(** [truncateString(maxLen)], on a value that is a string.  The slice
    [str[:maxLen-3]] panics when [maxLen-3] is negative: the result
    [None]. *)
Definition truncateString (maxLen : Z) (str : string) : option string :=
  if (Z.of_nat (String.length str) <=? maxLen)%Z then Some str
  else if (maxLen - 3 <? 0)%Z then None
  else Some (take (Z.to_nat (maxLen - 3)) str ++ "...").

(** [maskAPIKey] *)
Definition maskAPIKey (apiKey : string) : string :=
  if (String.length apiKey <=? 8)%nat then strings_Repeat "*" (String.length apiKey)
  else
    let prefix := take 4 apiKey in
    let suffix := drop (String.length apiKey - 4) apiKey in
    let masked := prefix ++ strings_Repeat "*" (String.length apiKey - 8) ++ suffix in
    masked.

Section Commands.

(** The method [Error] of the errors of the library and of the client. *)
Variable Error : error -> string.

(** The texts of the errors of the manager and of package [util]. *)
Definition manager_Error (err : manager_error) : string :=
  match err with
  | ErrModelNotFound => "model not found"
  | ErrModelExists => "model already exists"
  | ErrNoDefaultModel => "no default model set"
  | ErrFailedToCreateModel cause => "failed to create model: " ++ Error cause
  | ErrFailedToUpdateModel cause => "failed to update model: " ++ Error cause
  | ErrMarshalConfig cause => "failed to marshal config: " ++ Error cause
  | ErrWriteConfigFile cause => "failed to write config file: " ++ Error cause
  | ErrReadConfigFile cause => "failed to read config file: " ++ Error cause
  | ErrUnmarshalConfig cause => "failed to unmarshal config: " ++ Error cause
  end.

Definition util_Error (err : util.failure) : string :=
  match err with
  | util.ErrUnsupportedFileType filename => "unsupported file type: " ++ filename
  | util.ErrFileDoesNotExist cause => "file does not exist: " ++ Error cause
  | util.ErrFailedToReadFile cause => "failed to read file: " ++ Error cause
  end.

(** The transport: the method [Chat] of the client. *)
Variable client_Chat : OpenAIClient.t -> list Message.t -> ChatOptions.t -> string * option error.

(** The world of package [history]. *)
Variable World : Type.
Variable time_Now : World -> Z * World.
Variable filepath_Join : list string -> string.
Variable os_WriteFile : string -> string -> World -> option error * World.
Variable json_MarshalIndent : option history.Session -> result string.

(** The function [Run] of the root command: the question is [args[0]],
    [noHistory] the flag [--no-history]; [modelManager] and [historyManager]
    are the variables of the package, the second nil when [history.NewManager]
    failed at start.  The result is the history manager, the world and the
    text written to the standard error; [None] is a panic. *)
Definition Run (question : string) (noHistory : bool)
  (modelManager : ModelManager.t) (historyManager : option history.Manager) (w : World)
  : option (option history.Manager * World * string) :=
  match ModelManager.GetDefaultModel modelManager with
  | (_, Some err) =>
      Some (historyManager, w, "Error: " ++ manager_Error err ++ NL)
  | (None, None) => None
  | (Some model, None) =>
      let chatOptions : option (list ChatOption) :=
        if negb noHistory then
          match historyManager with
          | None => None
          | Some hm =>
              if negb (history.IsEmpty hm) then
                match history.GetMessages hm with
                | None => None
                | Some messages =>
                    let modelMessages := convertToModelMessages messages in
                    Some [WithHistory modelMessages]
                end
              else Some []
          end
        else Some [] in
      match chatOptions with
      | None => None
      | Some chatOptions =>
          match Model.Chat client_Chat model question chatOptions with
          | (_, Some err) => Some (historyManager, w, "Error: " ++ Error err ++ NL)
          | (response, None) =>
              match historyManager with
              | None => None
              | Some hm =>
                  match history.AddUserMessage World time_Now filepath_Join os_WriteFile
                          json_MarshalIndent question hm w with
                  | None => None
                  | Some (hm, w) =>
                      match history.AddAssistantMessage World time_Now filepath_Join
                              os_WriteFile json_MarshalIndent response hm w with
                      | None => None
                      | Some (hm, w) => Some (Some hm, w, EmptyString)
                      end
                  end
              end
          end
      end
  end.

(** The function [Run] of the command [model options].  A flag is
    [Some] of its value when it was given on the command line
    ([cmd.Flags().Changed]).  The result is the error that is reported, if
    any, the model manager and the world of the configuration file; what is
    printed is left out; [None] is a panic. *)
Definition optionsCmd_Run (Map_unicode_ToLower : string -> string)
  (ConfigWorld : Type) (yaml_Marshal : gomap.t ModelConfig.t -> result string)
  (config_WriteFile : string -> string -> ConfigWorld -> option error * ConfigWorld)
  (name : string) (temperature : option float) (maxTokens : option Z)
  (stream : option bool) (default : option bool)
  (modelManager : ModelManager.t) (w : ConfigWorld)
  : option (option manager_error * ModelManager.t * ConfigWorld) :=
  match ModelManager.GetModelConfig modelManager name with
  | (_, Some err) => Some (Some err, modelManager, w)
  | (None, None) => None
  | (Some config, None) =>
      let options :=
        match ModelConfig.DefaultChatOptions config with
        | None => DefaultChatOptions
        | Some options => options
        end in
      let options :=
        match temperature with
        | Some temperature =>
            {| ChatOptions.Temperature := temperature;
               ChatOptions.MaxTokens := ChatOptions.MaxTokens options;
               ChatOptions.Stream := ChatOptions.Stream options;
               ChatOptions.History := ChatOptions.History options |}
        | None => options
        end in
      let options :=
        match maxTokens with
        | Some maxTokens =>
            {| ChatOptions.Temperature := ChatOptions.Temperature options;
               ChatOptions.MaxTokens := maxTokens;
               ChatOptions.Stream := ChatOptions.Stream options;
               ChatOptions.History := ChatOptions.History options |}
        | None => options
        end in
      let options :=
        match stream with
        | Some stream =>
            {| ChatOptions.Temperature := ChatOptions.Temperature options;
               ChatOptions.MaxTokens := ChatOptions.MaxTokens options;
               ChatOptions.Stream := stream;
               ChatOptions.History := ChatOptions.History options |}
        | None => options
        end in
      let defaultEnabled :=
        match default with
        | Some defaultEnabled => defaultEnabled
        | None => ModelConfig.DefaultEnabled config
        end in
      let config :=
        {| ModelConfig.Name := ModelConfig.Name config;
           ModelConfig.URL := ModelConfig.URL config;
           ModelConfig.APIKey := ModelConfig.APIKey config;
           ModelConfig.DefaultEnabled := defaultEnabled;
           ModelConfig.DefaultChatOptions := Some options |} in
      Some (ModelManager.UpdateModelConfig Map_unicode_ToLower ConfigWorld yaml_Marshal
              config_WriteFile name config modelManager w)
  end.

(** The file system of package [util]. *)
Variable Map_unicode_ToLower : string -> string.
Variable os_Stat : string -> option error.
Variable os_IsNotExist : error -> bool.
Variable os_ReadFile : string -> result string.

(** [askWithFile]: the text written to the standard output and the text
    written to the standard error; [None] is a panic. *)
Definition askWithFile (filePath question : string) (modelManager : ModelManager.t)
  : option (string * string) :=
  match util.GetFileInfo Map_unicode_ToLower os_Stat os_IsNotExist os_ReadFile filePath with
  | (_, _, Some err) => Some (EmptyString, "Failed to read file: " ++ util_Error err ++ NL)
  | (content, language, None) =>
      match ModelManager.GetDefaultModel modelManager with
      | (_, Some err) =>
          Some ("No default model set. Please add a model first:" ++ NL
                ++ "  ai model add <model> <url> <apikey>" ++ NL,
                EmptyString)
      | (None, None) => None
      | (Some model, None) =>
          match Model.ChatWithFile client_Chat model question filePath content [] with
          | (_, Some err) => Some (EmptyString, "Question failed: " ++ Error err ++ NL)
          | (resp, None) =>
              Some ("File: " ++ filePath ++ " (" ++ language ++ ")" ++ NL
                    ++ "Question: " ++ question ++ NL ++ NL
                    ++ resp ++ NL,
                    EmptyString)
          end
      end
  end.

End Commands.
End ai.

(** ** More vocabulary of the statements *)

(** The text with every newline written as carriage return and newline. *)
Fixpoint crlf (s : string) : string :=
match s with
| EmptyString => EmptyString
| String c s' =>
    if Ascii.eqb c LF then String CR (String LF (crlf s')) else String c (crlf s')
end.

(** A line that is read the same with either line ending: it does not end
    in a carriage return, and it fits the buffer with one. *)
Definition plain_line (l : string) : bool :=
  match last_byte l with Some c => negb (Ascii.eqb c CR) | None => true end
  && fits (l ++ String CR EmptyString).

(** A payload that decodes to a chunk without choices. *)
Definition no_choices (Unmarshal : string -> result StreamChunk.t) (payload : string) : Prop :=
  one_line payload = true /\ payload <> "[DONE]" /\
  exists chunk, Unmarshal payload = Ok chunk /\ StreamChunk.Choices chunk = [].

(** Every model of a manager is the one the factory builds from the
    configuration of the same name, and there is no other model. *)
Definition models_built (Map_unicode_ToLower : string -> string) (m : ModelManager.t)
  : Prop :=
  forall name,
    gomap.lookup name (ModelManager.models m)
    = option_map (fun config => fst (CreateModel Map_unicode_ToLower config))
        (gomap.lookup name (ModelManager.configs m)).

(** The message of role [assistant]. *)
Definition assistantMessage (content : string) : Message.t :=
  {| Message.Role := "assistant"; Message.Content := content |}.

(** A name that makes the factory build the Anthropic stand-in: in lower
    case it holds [anthropic] or [claude], and neither [openai] nor [gpt]. *)
Definition anthropicName (Map_unicode_ToLower : string -> string) (name : string) : bool :=
  let name := strings_ToLower Map_unicode_ToLower name in
  negb (strings_Contains name "openai" || strings_Contains name "gpt")
  && (strings_Contains name "anthropic" || strings_Contains name "claude").

(** What is known of the order of a [range] loop: over a map with
    distinct keys, it visits every entry of the map, once. *)
Definition visits_each_entry_once
  (range_order : forall V : Type, gomap.t V -> list (string * V)) : Prop :=
  forall (V : Type) (m : gomap.t V),
    gomap.wf m ->
    gomap.wf (range_order V m) /\ forall entry, In entry (range_order V m) <-> In entry m.

(** A configuration with the default flag. *)
Definition flagged (configs : gomap.t ModelConfig.t) (name : string) : Prop :=
  exists config,
    gomap.lookup name configs = Some config /\ ModelConfig.DefaultEnabled config = true.

(** The manager [NewModelManager] returns, for the path of its file. *)
Definition freshManager (configFile : string) : ModelManager.t :=
  {| ModelManager.models := gomap.make;
     ModelManager.configs := gomap.make;
     ModelManager.defaultModel := EmptyString;
     ModelManager.configFile := configFile |}.

(** The manager [Init] returns once [loadConfig] has succeeded and left
    the manager [m1]: the two loops of [Init]. *)
Definition afterLoad (Map_unicode_ToLower : string -> string)
  (range_order : forall V : Type, gomap.t V -> list (string * V))
  (m1 : ModelManager.t) : ModelManager.t :=
  let m2 :=
    fold_left (ModelManager.initModel Map_unicode_ToLower)
      (range_order ModelConfig.t (ModelManager.configs m1)) m1 in
  if String.eqb (ModelManager.defaultModel m2) EmptyString
     && (0 <? gomap.len (ModelManager.models m2))%Z
  then match range_order Model.t (ModelManager.models m2) with
       | (name, _) :: _ =>
           {| ModelManager.models := ModelManager.models m2;
              ModelManager.configs := ModelManager.configs m2;
              ModelManager.defaultModel := name;
              ModelManager.configFile := ModelManager.configFile m2 |}
       | [] => m2
       end
  else m2.

(** ** More fixtures of the examples

    A stand-in for the case tables of package [unicode], which the examples
    do not reach: their names are ASCII. *)
Definition exampleToLower (s : string) : string := s.

(** A world that is the list of the files written, last first, with a
    disk that takes every write and a disk that takes none; and a serializer
    that writes the names of the configurations. *)
Definition exampleWorld : Type := list (string * string).

Definition exampleWriteFile (path data : string) (w : exampleWorld)
  : option error * exampleWorld :=
  (None, (path, data) :: w).

Definition failingWriteFile (path data : string) (w : exampleWorld)
  : option error * exampleWorld :=
  (Some (io_failure "no space left on device"), w).

Definition exampleYAML (configs : gomap.t ModelConfig.t) : result string :=
  Ok (concat_all (map (fun kv => fst kv ++ ":" ++ NL) configs)).

Definition claudeConfig : ModelConfig.t :=
  {| ModelConfig.Name := "Claude-3-Opus";
     ModelConfig.URL := "https://api.openai.com";
     ModelConfig.APIKey := "test-api-key";
     ModelConfig.DefaultEnabled := false;
     ModelConfig.DefaultChatOptions := None |}.

(** The manager [NewModelManager] returns, for a home directory
    [/home/user], and the manager after the commands
    [ai model add gpt-4 https://api.openai.com sk-test-0001] and
    [ai model add claude-3 https://api.anthropic.com sk-test-0002]. *)
Definition emptyManager : ModelManager.t := freshManager "/home/user/.ai/config.yaml".

Definition exampleAddModel (name url apiKey : string) (m : ModelManager.t)
  : ModelManager.t :=
  snd (fst (ModelManager.AddModel exampleToLower exampleWorld exampleYAML exampleWriteFile
              name url apiKey false None m [])).

Definition twoModels : ModelManager.t :=
  exampleAddModel "claude-3" "https://api.anthropic.com" "sk-test-0002"
    (exampleAddModel "gpt-4" "https://api.openai.com" "sk-test-0001" emptyManager).

(** A clock that counts the files written, the paths joined with a slash,
    a serializer of the sessions that writes the identifier, one text for
    every error, and a history manager in the middle of a conversation. *)
Definition exampleNow (w : exampleWorld) : Z * exampleWorld :=
  (Z.of_nat (List.length w), w).

Definition exampleJoin (elem : list string) : string := String.concat "/" elem.

Definition exampleMarshalIndent (session : option history.Session) : result string :=
  match session with
  | Some s => Ok (jq "{'id': '" ++ history.ID s ++ jq "'}")
  | None => Ok "null"
  end.

Definition exampleError (err : error) : string := "error".

Definition exampleHistory : history.Manager :=
  {| history.currentSession :=
       Some {| history.ID := "20250301-101500-abcdef";
               history.Messages :=
                 [ {| history.Role := "user"; history.Content := "earlier question";
                      history.Timestamp := 1 |};
                   {| history.Role := "assistant"; history.Content := "earlier answer";
                      history.Timestamp := 2 |} ];
               history.CreatedAt := 1;
               history.UpdatedAt := 2 |};
     history.storagePath := "/home/user/.ai/history" |}.

(** The transport of the examples: the client in front of a server that
    answers every request with the same status and body. *)
Definition exampleChat (status : Z) (body : string)
  : OpenAIClient.t -> list Message.t -> ChatOptions.t -> string * option error :=
  OpenAIClient.Chat UnmarshalChunk DecodeResponse exampleMarshal exampleNewRequest
    (exampleServer status (io.NewReader body)).

(** The model that [twoModels] holds under the name [gpt-4]. *)
Definition gpt4Model : OpenAIModel.t :=
  OpenAIModel.NewOpenAIModel
    {| ModelConfig.Name := "gpt-4";
       ModelConfig.URL := "https://api.openai.com";
       ModelConfig.APIKey := "sk-test-0001";
       ModelConfig.DefaultEnabled := false;
       ModelConfig.DefaultChatOptions := None |}.

(** A file system for the history: directories that can or cannot be
    made, no session stored yet, a decoder of the sessions that returns the
    session it is given, and a fixed identifier for a new session. *)
Definition exampleMkdirAll (path : string) (w : exampleWorld) : option error * exampleWorld :=
  (None, w).

Definition failingMkdirAll (path : string) (w : exampleWorld) : option error * exampleWorld :=
  (Some (io_failure "permission denied"), w).

Definition missingFile (path : string) (w : exampleWorld) : result string :=
  Fail (io_failure "no such file or directory").

Definition exampleUnmarshalSession (data : string) (session : history.Session)
  : result history.Session :=
  Ok session.

Definition exampleSessionID (w : exampleWorld) : string * exampleWorld :=
  ("20250301-101500-abcdef", w).

(** A file system for package [util]: every file is there and holds the
    same Go source. *)
Definition exampleStat (filename : string) : option error := None.
Definition exampleIsNotExist (err : error) : bool := false.
Definition exampleReadFile (filename : string) : result string := Ok "package main".

(** A [range] loop that visits the entries of a map last first; a file
    system that is read back from the list of the files written; a decoder of
    the configuration file that returns the configurations it is made for;
    and the manager after the commands
    [ai model add gpt-4 https://api.openai.com sk-test-0001 --default] and
    [ai model add claude-3 https://api.anthropic.com sk-test-0002]. *)
Definition reverseOrder (V : Type) (m : gomap.t V) : list (string * V) := rev m.

Definition exampleStatWritten (path : string) (w : exampleWorld) : option error :=
  match gomap.lookup path w with
  | Some _ => None
  | None => Some (io_failure "no such file or directory")
  end.

Definition exampleIsMissing (err : error) : bool := true.

Definition exampleReadWritten (path : string) (w : exampleWorld) : result string :=
  match gomap.lookup path w with
  | Some data => Ok data
  | None => Fail (io_failure "no such file or directory")
  end.

Definition exampleDecode (configs : gomap.t ModelConfig.t) (data : string)
  : result (gomap.t ModelConfig.t) :=
  Ok configs.

Definition flaggedModels : ModelManager.t :=
  exampleAddModel "claude-3" "https://api.anthropic.com" "sk-test-0002"
    (snd (fst (ModelManager.AddModel exampleToLower exampleWorld exampleYAML
                 exampleWriteFile "gpt-4" "https://api.openai.com" "sk-test-0001"
                 true None emptyManager []))).

(** * Properties *)

(** ** Byte strings *)

Lemma append_nil_r (s : string) : s ++ EmptyString = s.
Proof. induction s as [|c s IH]; simpl; [reflexivity | now rewrite IH]. Qed.

Lemma append_assoc (a b c : string) : (a ++ b) ++ c = a ++ (b ++ c).
Proof. induction a as [|x a IH]; simpl; [reflexivity | now rewrite IH]. Qed.

Lemma length_append (a b : string) :
  String.length (a ++ b) = (String.length a + String.length b)%nat.
Proof. induction a as [|x a IH]; simpl; [reflexivity | now rewrite IH]. Qed.

Lemma take_append (a b : string) : take (String.length a) (a ++ b) = a.
Proof. induction a as [|x a IH]; simpl; [now destruct b | now rewrite IH]. Qed.

Lemma drop_append (a b : string) : drop (String.length a) (a ++ b) = b.
Proof. induction a as [|x a IH]; simpl; [now destruct b | exact IH]. Qed.

Lemma take_all (s : string) : take (String.length s) s = s.
Proof. induction s as [|c s IH]; simpl; [reflexivity | now rewrite IH]. Qed.

Lemma take_take (n m : nat) (s : string) :
  (n <= m)%nat -> take n (take m s) = take n s.
Proof.
  revert m s. induction n as [|n IH]; intros m s H; [now destruct (take m s), s|].
  destruct m as [|m]; [lia|]. destruct s as [|c s]; simpl; [reflexivity|].
  rewrite IH by lia. reflexivity.
Qed.

Lemma length_take (n : nat) (s : string) :
  String.length (take n s) = Nat.min n (String.length s).
Proof.
  revert s. induction n as [|n IH]; intros s; [reflexivity|].
  destruct s as [|c s]; simpl; [reflexivity | now rewrite IH].
Qed.

Lemma has_byte_append (c : ascii) (a b : string) :
  has_byte c (a ++ b) = has_byte c a || has_byte c b.
Proof.
  induction a as [|x a IH]; simpl; [reflexivity|].
  now rewrite IH, orb_assoc.
Qed.

Lemma last_byte_append (a : string) (c : ascii) (b : string) :
  last_byte (a ++ String c b) = last_byte (String c b).
Proof.
  induction a as [|x a IH]; [reflexivity|].
  change (last_byte (String x (a ++ String c b)) = last_byte (String c b)).
  rewrite <- IH. simpl. now destruct a.
Qed.

Lemma last_byte_snoc (a : string) (c : ascii) :
  last_byte (a ++ String c EmptyString) = Some c.
Proof. now rewrite last_byte_append. Qed.

(** A text that ends in [c] is some text followed by [c]. *)
Lemma last_byte_some (s : string) (c : ascii) :
  last_byte s = Some c -> exists a, s = a ++ String c EmptyString.
Proof.
  induction s as [|x s IH]; [discriminate|].
  destruct s as [|y s].
  - simpl. intros H; inversion H; subst. now exists EmptyString.
  - intros H. destruct (IH H) as [a Ha]. exists (String x a). simpl. now rewrite <- Ha.
Qed.

Lemma concat_all_snoc_empty (l : list string) :
  concat_all (l ++ [EmptyString]) = concat_all l.
Proof. induction l as [|s l IH]; simpl; [reflexivity | now rewrite IH]. Qed.

(** Equality with a text, decided by comparing. *)
Lemma option_string_eqb (o : option string) (s : string) :
  match o with Some d => String.eqb d s | None => false end = true -> o = Some s.
Proof.
  destruct o as [d|]; [|discriminate].
  intros H. apply String.eqb_eq in H. now subst.
Qed.

Lemma HasPrefix_append (p x : string) : strings.HasPrefix (p ++ x) p = true.
Proof.
  unfold strings.HasPrefix. rewrite take_append, String.eqb_refl, length_append.
  rewrite andb_true_r. apply Nat.leb_le. lia.
Qed.

Lemma TrimPrefix_append (p x : string) : strings.TrimPrefix (p ++ x) p = x.
Proof. unfold strings.TrimPrefix. now rewrite HasPrefix_append, drop_append. Qed.

(** A prefix of a prefix of [s] is a prefix of [s]. *)
Lemma HasPrefix_take (n : nat) (s p : string) :
  strings.HasPrefix (take n s) p = true -> strings.HasPrefix s p = true.
Proof.
  unfold strings.HasPrefix. intros H. apply andb_true_iff in H as [Hl He].
  apply Nat.leb_le in Hl. apply String.eqb_eq in He.
  rewrite length_take in Hl.
  rewrite take_take in He by lia.
  apply andb_true_iff. split; [apply Nat.leb_le; lia | now apply String.eqb_eq].
Qed.

(** ** The scanner *)

Lemma dropCR_prefix (l p : string) :
  strings.HasPrefix (bufio.dropCR l) p = true -> strings.HasPrefix l p = true.
Proof.
  unfold bufio.dropCR. destruct (last_byte l) as [c|]; [|trivial].
  destruct (Ascii.eqb c CR); [apply HasPrefix_take | trivial].
Qed.

(** A line that does not end in a carriage return is delivered as it is. *)
Lemma dropCR_sse_line (payload : string) :
  one_line payload = true -> bufio.dropCR (sse_line payload) = sse_line payload.
Proof.
  unfold one_line, sse_line, bufio.dropCR. intros H.
  apply andb_true_iff in H as [_ H].
  destruct payload as [|c p]; [reflexivity|].
  rewrite last_byte_append.
  destruct (last_byte (String c p)) as [x|]; [|reflexivity].
  apply negb_true_iff in H. now rewrite H.
Qed.

Lemma one_line_no_LF (payload : string) :
  one_line payload = true -> has_byte LF (sse_line payload) = false.
Proof.
  unfold one_line, sse_line. intros H. apply andb_true_iff in H as [H _].
  apply negb_true_iff in H. rewrite has_byte_append, H. reflexivity.
Qed.

Lemma cut_line_shorter (s l r : string) :
  bufio.cut_line s = Some (l, r) ->
  (String.length l + String.length r < String.length s)%nat.
Proof.
  revert l r. induction s as [|c s IH]; simpl; intros l r H; [discriminate|].
  destruct (Ascii.eqb c LF).
  - inversion H; subst; simpl; lia.
  - destruct (bufio.cut_line s) as [[l' r']|]; [|discriminate].
    inversion H; subst. specialize (IH _ _ eq_refl). simpl. lia.
Qed.

Lemma cut_line_append (l r : string) :
  has_byte LF l = false -> bufio.cut_line (l ++ String LF r) = Some (l, r).
Proof.
  induction l as [|c l IH]; simpl; intros H.
  - reflexivity.
  - apply orb_false_iff in H as [Hc Hl]. rewrite Hc, (IH Hl). reflexivity.
Qed.

Lemma cut_line_none (s : string) :
  has_byte LF s = false -> bufio.cut_line s = None.
Proof.
  induction s as [|c s IH]; simpl; intros H; [reflexivity|].
  apply orb_false_iff in H as [Hc Hl]. now rewrite Hc, (IH Hl).
Qed.

Lemma cut_line_some (s l r : string) :
  bufio.cut_line s = Some (l, r) -> s = l ++ String LF r /\ has_byte LF l = false.
Proof.
  revert l r. induction s as [|c s IH]; simpl; intros l r H; [discriminate|].
  destruct (Ascii.eqb c LF) eqn:E.
  - inversion H; subst. apply Ascii.eqb_eq in E. subst. now split.
  - destruct (bufio.cut_line s) as [[l' r']|]; [|discriminate].
    inversion H; subst. destruct (IH _ _ eq_refl) as [-> Hl].
    split; [reflexivity | simpl; now rewrite E].
Qed.

Lemma cut_line_no_LF (s : string) :
  bufio.cut_line s = None -> has_byte LF s = false.
Proof.
  induction s as [|c s IH]; simpl; [reflexivity|].
  destruct (Ascii.eqb c LF); [discriminate|].
  destruct (bufio.cut_line s) as [[l r]|]; [discriminate|].
  intros _. now apply IH.
Qed.

(** The lines of a text, one cut at a time. *)
Lemma lines_cut (s l r : string) :
  bufio.cut_line s = Some (l, r) -> lines s = l :: lines r.
Proof.
  revert l r. induction s as [|c s IH]; simpl; intros l r H; [discriminate|].
  destruct (Ascii.eqb c LF).
  - now inversion H.
  - destruct (bufio.cut_line s) as [[l' r']|]; [|discriminate].
    inversion H; subst. now rewrite (IH _ _ eq_refl).
Qed.

Lemma lines_no_LF (s : string) : has_byte LF s = false -> lines s = [s].
Proof.
  induction s as [|c s IH]; simpl; intros H; [reflexivity|].
  apply orb_false_iff in H as [Hc Hl]. now rewrite Hc, (IH Hl).
Qed.

(** A text before a line start is empty or a line, its newline, and a text
    before a line start. *)
Lemma at_line_start_cases (before : string) :
  at_line_start before = true ->
  before = EmptyString \/
  exists l r, bufio.cut_line before = Some (l, r) /\ at_line_start r = true.
Proof.
  unfold at_line_start. destruct (last_byte before) as [c|] eqn:E.
  - intros H. apply Ascii.eqb_eq in H. subst c. right.
    destruct (last_byte_some _ _ E) as [a ->].
    destruct (bufio.cut_line (a ++ String LF EmptyString)) as [[l r]|] eqn:C.
    + exists l, r. split; [reflexivity|].
      destruct (cut_line_some _ _ _ C) as [Heq _].
      destruct r as [|x r]; [reflexivity|].
      assert (L : last_byte (a ++ String LF EmptyString) = last_byte (String x r)).
      { rewrite Heq at 1.
        rewrite last_byte_append. simpl. now destruct r. }
      rewrite last_byte_snoc in L. rewrite <- L. reflexivity.
    + apply cut_line_no_LF in C. rewrite has_byte_append in C. simpl in C.
      rewrite orb_true_r in C. discriminate.
  - intros _. left. destruct before as [|x s]; [reflexivity|].
    exfalso. revert x E. induction s as [|y s IH]; intros x E; [discriminate|].
    apply (IH y). exact E.
Qed.

Lemma Scan_consumes (s s' : bufio.Scanner) :
  bufio.Scan s = (true, s') ->
  (String.length (bufio.src s') < String.length (bufio.src s))%nat.
Proof.
  unfold bufio.Scan. destruct (bufio.err s); [discriminate|].
  destruct (bufio.cut_line (bufio.src s)) as [[l r]|] eqn:E.
  - destruct (len l <? bufio.MaxScanTokenSize)%N; [|discriminate].
    intros H; inversion H; subst; simpl.
    apply cut_line_shorter in E. lia.
  - destruct (len (bufio.src s) <? bufio.MaxScanTokenSize)%N; [|discriminate].
    destruct (bufio.src s); [discriminate|].
    intros H; inversion H; subst; simpl. lia.
Qed.

(** A line that fits, followed by its newline, is delivered. *)
Lemma Scan_line (l r : string) (ending : error) (t : string) :
  has_byte LF l = false -> fits l = true ->
  bufio.Scan (scanning (l ++ String LF r) ending t) = (true, scanning r ending (bufio.dropCR l)).
Proof.
  intros Hl Hf. unfold bufio.Scan, scanning. simpl.
  rewrite (cut_line_append _ _ Hl). unfold fits in Hf. rewrite Hf. reflexivity.
Qed.

(** A line that does not fit ends the scan. *)
Lemma Scan_too_long (l r : string) (ending : error) (t : string) :
  has_byte LF l = false -> fits l = false ->
  bufio.Scan (scanning (l ++ String LF r) ending t) =
  (false, {| bufio.src := l ++ String LF r; bufio.src_end := ending;
             bufio.tok := EmptyString; bufio.err := Some bufio_ErrTooLong |}).
Proof.
  intros Hl Hf. unfold bufio.Scan, scanning. simpl.
  rewrite (cut_line_append _ _ Hl). unfold fits in Hf. rewrite Hf. reflexivity.
Qed.

(** At the end of the input the scanner stops with the reader's ending. *)
Lemma Scan_end (ending : error) (t : string) :
  bufio.Scan (scanning EmptyString ending t) =
  (false, {| bufio.src := EmptyString; bufio.src_end := ending;
             bufio.tok := EmptyString; bufio.err := Some ending |}).
Proof. reflexivity. Qed.

(** ** The loop of the stream decoder *)

Section StreamDecoderFacts.

Variable Unmarshal : string -> result StreamChunk.t.

(** The loop never runs out of fuel: any two amounts above the length of
    the unread input give the same run. *)
Lemma streamLoop_fuel (n m : nat) (s : bufio.Scanner) (acc : string) :
  (String.length (bufio.src s) < n)%nat ->
  (String.length (bufio.src s) < m)%nat ->
  OpenAIClient.streamLoop Unmarshal n s acc = OpenAIClient.streamLoop Unmarshal m s acc.
Proof.
  revert m s acc. induction n as [|n IH]; intros m s acc Hn Hm; [lia|].
  destruct m as [|m]; [lia|]. simpl.
  destruct (bufio.Scan s) as [more s'] eqn:E.
  destruct more; [|reflexivity].
  apply Scan_consumes in E.
  destruct (OpenAIClient.loopBody Unmarshal (bufio.Text s') acc); [|reflexivity].
  apply IH; lia.
Qed.

(** One turn of the loop. *)
Lemma runLoop_unfold (s : bufio.Scanner) (acc : string) :
  OpenAIClient.runLoop Unmarshal s acc =
  let (more, s') := bufio.Scan s in
  if more then
    match OpenAIClient.loopBody Unmarshal (bufio.Text s') acc with
    | OpenAIClient.Continue acc' => OpenAIClient.runLoop Unmarshal s' acc'
    | OpenAIClient.Break acc' => OpenAIClient.afterLoop (s', acc')
    end
  else OpenAIClient.afterLoop (s', acc).
Proof.
  unfold OpenAIClient.runLoop at 1. simpl.
  destruct (bufio.Scan s) as [more s'] eqn:E.
  destruct more; [|reflexivity].
  destruct (OpenAIClient.loopBody Unmarshal (bufio.Text s') acc); [|reflexivity].
  unfold OpenAIClient.runLoop. f_equal.
  apply Scan_consumes in E. apply streamLoop_fuel; lia.
Qed.

(** The last token plays no part in what follows. *)
Lemma runLoop_tok (text : string) (ending : error) (t t' acc : string) :
  OpenAIClient.runLoop Unmarshal (scanning text ending t) acc =
  OpenAIClient.runLoop Unmarshal (scanning text ending t') acc.
Proof. rewrite !runLoop_unfold. reflexivity. Qed.

(** A turn of the loop on a line that fits. *)
Lemma runLoop_line (l r : string) (ending : error) (t acc : string) :
  has_byte LF l = false -> fits l = true ->
  OpenAIClient.runLoop Unmarshal (scanning (l ++ String LF r) ending t) acc =
  match OpenAIClient.loopBody Unmarshal (bufio.dropCR l) acc with
  | OpenAIClient.Continue acc' =>
      OpenAIClient.runLoop Unmarshal (scanning r ending EmptyString) acc'
  | OpenAIClient.Break acc' => (acc', None)
  end.
Proof.
  intros Hl Hf. rewrite runLoop_unfold, (Scan_line _ _ _ _ Hl Hf). simpl.
  destruct (OpenAIClient.loopBody Unmarshal (bufio.dropCR l) acc);
    [apply runLoop_tok | reflexivity].
Qed.

(** A line that does not fit ends the run with [ErrTooLong]. *)
Lemma runLoop_too_long (l r : string) (ending : error) (t acc : string) :
  has_byte LF l = false -> fits l = false ->
  OpenAIClient.runLoop Unmarshal (scanning (l ++ String LF r) ending t) acc =
  (acc, Some (ErrScanStream bufio_ErrTooLong)).
Proof.
  intros Hl Hf. rewrite runLoop_unfold, (Scan_too_long _ _ _ _ Hl Hf). reflexivity.
Qed.

(** The end of the input ends the run with what the reader ended with. *)
Lemma runLoop_end (ending : error) (t acc : string) :
  OpenAIClient.runLoop Unmarshal (scanning EmptyString ending t) acc =
  (acc, match ending with io_EOF => None | e => Some (ErrScanStream e) end).
Proof. rewrite runLoop_unfold, Scan_end. simpl. now destruct ending. Qed.

(** What the body of the loop does with the lines of the wire format. *)

Lemma loopBody_blank (acc : string) :
  OpenAIClient.loopBody Unmarshal EmptyString acc = OpenAIClient.Continue acc.
Proof. reflexivity. Qed.

Lemma sse_line_not_blank (payload : string) :
  String.eqb (sse_line payload) EmptyString = false.
Proof. reflexivity. Qed.

Lemma loopBody_done (acc : string) :
  OpenAIClient.loopBody Unmarshal sse_done acc = OpenAIClient.Break acc.
Proof. reflexivity. Qed.

Lemma loopBody_sse_line (payload acc : string) :
  payload <> "[DONE]" ->
  OpenAIClient.loopBody Unmarshal (sse_line payload) acc =
  match Unmarshal payload with
  | Fail _ => OpenAIClient.Continue acc
  | Ok chunk =>
      match StreamChunk.Choices chunk with
      | c :: _ =>
          let content := StreamChunk.Content (StreamChunk.Delta_ c) in
          if negb (String.eqb content EmptyString)
          then OpenAIClient.Continue (acc ++ content)
          else OpenAIClient.Continue acc
      | [] => OpenAIClient.Continue acc
      end
  end.
Proof.
  intros Hd. unfold OpenAIClient.loopBody.
  rewrite sse_line_not_blank. unfold sse_line at 1 2.
  rewrite HasPrefix_append, TrimPrefix_append. simpl negb. cbv iota.
  destruct (String.eqb payload "[DONE]") eqn:E; [|reflexivity].
  apply String.eqb_eq in E. contradiction.
Qed.

(** A frame adds its delta. *)
Lemma loopBody_carries (payload delta acc : string) :
  carries Unmarshal payload delta ->
  OpenAIClient.loopBody Unmarshal (sse_line payload) acc = OpenAIClient.Continue (acc ++ delta).
Proof.
  intros (_ & Hd & H). rewrite (loopBody_sse_line _ _ Hd).
  unfold delta_of in H. destruct (Unmarshal payload) as [chunk|]; [|discriminate].
  destruct (StreamChunk.Choices chunk) as [|c cs]; [discriminate|].
  inversion H; subst. simpl.
  destruct (String.eqb (StreamChunk.Content (StreamChunk.Delta_ c)) EmptyString) eqn:E;
    [|reflexivity].
  apply String.eqb_eq in E. rewrite E, append_nil_r. reflexivity.
Qed.

(** A payload that does not parse adds nothing. *)
Lemma loopBody_unparsable (payload acc : string) :
  unparsable Unmarshal payload ->
  OpenAIClient.loopBody Unmarshal (sse_line payload) acc = OpenAIClient.Continue acc.
Proof.
  intros (_ & Hd & e & H). rewrite (loopBody_sse_line _ _ Hd), H. reflexivity.
Qed.

End StreamDecoderFacts.

(** ** Runs of the stream decoder *)

Section StreamDecoderRuns.

Variable Unmarshal : string -> result StreamChunk.t.

(** A frame is its data line and a blank line. *)
Lemma sse_frame_append (payload rest : string) :
  sse_frame payload ++ rest = sse_line payload ++ String LF (EmptyString ++ String LF rest).
Proof. unfold sse_frame, NL. rewrite !append_assoc. reflexivity. Qed.

(** A frame that fits adds its delta, and the run goes on after its blank
    line. *)
Lemma runLoop_frame (payload delta rest : string) (ending : error) (t acc : string) :
  carries Unmarshal payload delta -> fits (sse_line payload) = true ->
  OpenAIClient.runLoop Unmarshal (scanning (sse_frame payload ++ rest) ending t) acc =
  OpenAIClient.runLoop Unmarshal (scanning rest ending EmptyString) (acc ++ delta).
Proof.
  intros Hc Hf. pose proof Hc as (Hl & _ & _).
  rewrite sse_frame_append.
  rewrite (runLoop_line Unmarshal _ _ _ _ _ (one_line_no_LF _ Hl) Hf).
  rewrite (dropCR_sse_line _ Hl), (loopBody_carries _ _ _ _ Hc).
  rewrite (runLoop_line Unmarshal EmptyString); reflexivity.
Qed.

Lemma runLoop_frames (payloads deltas : list string) (rest : string) (ending : error) :
  Forall2 (carries Unmarshal) payloads deltas ->
  Forall (fun p => fits (sse_line p) = true) payloads ->
  forall t acc,
    OpenAIClient.runLoop Unmarshal (scanning (sse_frames payloads ++ rest) ending t) acc =
    OpenAIClient.runLoop Unmarshal (scanning rest ending t) (acc ++ concat_all deltas).
Proof.
  intros H. induction H as [|p d ps ds Hc _ IH]; intros Hf t acc.
  - simpl. now rewrite append_nil_r.
  - inversion Hf as [|? ? Hp Hps]; subst.
    change (sse_frames (p :: ps)) with (sse_frame p ++ sse_frames ps).
    rewrite append_assoc, (runLoop_frame _ _ _ _ _ _ Hc Hp).
    change (concat_all (d :: ds)) with (d ++ concat_all ds).
    rewrite (IH Hps), append_assoc. reflexivity.
Qed.

(** The end marker ends the run without an error, whatever follows its
    line. *)
Lemma runLoop_done (eol tail : string) (ending : error) (t acc : string) :
  eol = NL \/ eol = CRLF ->
  OpenAIClient.runLoop Unmarshal (scanning (sse_done ++ eol ++ tail) ending t) acc = (acc, None).
Proof.
  intros [-> | ->].
  - change (sse_done ++ NL ++ tail) with (sse_done ++ String LF tail).
    rewrite runLoop_line; reflexivity.
  - change (sse_done ++ CRLF ++ tail)
      with ((sse_done ++ String CR EmptyString) ++ String LF tail).
    rewrite runLoop_line; reflexivity.
Qed.

(** What comes before a line start is read the same way whatever comes
    after it: two inputs that agree up to a line start differ, under any view
    [f] of the result, only as far as the runs from that line start do. *)
Lemma runLoop_before {A : Type} (f : string * option error -> A)
  (X Y : string) (e e' : error) :
  (forall acc, f (OpenAIClient.runLoop Unmarshal (scanning X e EmptyString) acc) =
               f (OpenAIClient.runLoop Unmarshal (scanning Y e' EmptyString) acc)) ->
  forall before, at_line_start before = true ->
  forall acc,
    f (OpenAIClient.runLoop Unmarshal (scanning (before ++ X) e EmptyString) acc) =
    f (OpenAIClient.runLoop Unmarshal (scanning (before ++ Y) e' EmptyString) acc).
Proof.
  intros Hbase before.
  remember (String.length before) as n eqn:Hn.
  revert before Hn. induction n as [n IH] using lt_wf_ind.
  intros before Hn Hstart acc.
  destruct (at_line_start_cases _ Hstart) as [-> | (l & r & Hcut & Hr)]; [apply Hbase|].
  pose proof (cut_line_shorter _ _ _ Hcut) as Hlen.
  destruct (cut_line_some _ _ _ Hcut) as [-> Hl].
  rewrite !append_assoc. simpl.
  destruct (fits l) eqn:Hf.
  - rewrite !(runLoop_line Unmarshal _ _ _ _ _ Hl Hf).
    destruct (OpenAIClient.loopBody Unmarshal (bufio.dropCR l) acc); [|reflexivity].
    apply (IH (String.length r)); [lia | reflexivity | exact Hr].
  - rewrite !(runLoop_too_long Unmarshal _ _ _ _ _ Hl Hf). reflexivity.
Qed.

(** A line without the prefix of a data line adds nothing. *)
Lemma loopBody_other (line acc : string) :
  strings.HasPrefix line "data: " = false ->
  OpenAIClient.loopBody Unmarshal line acc = OpenAIClient.Continue acc.
Proof.
  intros H. unfold OpenAIClient.loopBody.
  destruct (String.eqb line EmptyString); [reflexivity|]. now rewrite H.
Qed.

(** The last, unterminated line of an input that fits. *)
Lemma runLoop_last (l : string) (ending : error) (t acc : string) :
  has_byte LF l = false -> fits l = true -> l <> EmptyString ->
  OpenAIClient.runLoop Unmarshal (scanning l ending t) acc =
  (match OpenAIClient.loopBody Unmarshal (bufio.dropCR l) acc with
   | OpenAIClient.Continue acc' => acc'
   | OpenAIClient.Break acc' => acc'
   end,
   match ending with io_EOF => None | e => Some (ErrScanStream e) end).
Proof.
  intros Hl Hf Hne. rewrite runLoop_unfold.
  unfold bufio.Scan, scanning. simpl.
  rewrite (cut_line_none _ Hl). unfold fits in Hf. rewrite Hf.
  destruct l as [|c l]; [contradiction|]. simpl.
  destruct (OpenAIClient.loopBody Unmarshal (bufio.dropCR (String c l)) acc).
  - rewrite runLoop_unfold. simpl. now destruct ending.
  - simpl. now destruct ending.
Qed.

Lemma runLoop_last_too_long (l : string) (ending : error) (t acc : string) :
  has_byte LF l = false -> fits l = false ->
  OpenAIClient.runLoop Unmarshal (scanning l ending t) acc =
  (acc, Some (ErrScanStream bufio_ErrTooLong)).
Proof.
  intros Hl Hf. rewrite runLoop_unfold.
  unfold bufio.Scan, scanning. simpl.
  rewrite (cut_line_none _ Hl). unfold fits in Hf. rewrite Hf. reflexivity.
Qed.

(** The text of a run does not depend on how the reader ends. *)
Lemma runLoop_text (text : string) (e e' : error) :
  forall acc,
    fst (OpenAIClient.runLoop Unmarshal (scanning text e EmptyString) acc) =
    fst (OpenAIClient.runLoop Unmarshal (scanning text e' EmptyString) acc).
Proof.
  remember (String.length text) as n eqn:Hn.
  revert text Hn. induction n as [n IH] using lt_wf_ind.
  intros text Hn acc.
  destruct (bufio.cut_line text) as [[l r]|] eqn:Hcut.
  - pose proof (cut_line_shorter _ _ _ Hcut) as Hlen.
    destruct (cut_line_some _ _ _ Hcut) as [-> Hl].
    destruct (fits l) eqn:Hf.
    + rewrite !(runLoop_line Unmarshal _ _ _ _ _ Hl Hf).
      destruct (OpenAIClient.loopBody Unmarshal (bufio.dropCR l) acc); [|reflexivity].
      apply (IH (String.length r)); [lia | reflexivity].
    + rewrite !(runLoop_too_long Unmarshal _ _ _ _ _ Hl Hf). reflexivity.
  - apply cut_line_no_LF in Hcut.
    destruct (fits text) eqn:Hf.
    + destruct text as [|c text]; [now rewrite !runLoop_end|].
      rewrite !(runLoop_last _ _ _ _ Hcut Hf) by discriminate. reflexivity.
    + rewrite !(runLoop_last_too_long _ _ _ _ Hcut Hf). reflexivity.
Qed.

(** An input with no data line, all of whose lines fit, gives no text and
    no error. *)
Lemma runLoop_no_data (text : string) :
  Forall (fun l => strings.HasPrefix l "data: " = false) (lines text) ->
  Forall (fun l => fits l = true) (lines text) ->
  forall acc,
    OpenAIClient.runLoop Unmarshal (scanning text io_EOF EmptyString) acc = (acc, None).
Proof.
  remember (String.length text) as n eqn:Hn.
  revert text Hn. induction n as [n IH] using lt_wf_ind.
  intros text Hn Hp Hf acc.
  assert (Hother : forall l, strings.HasPrefix l "data: " = false ->
            OpenAIClient.loopBody Unmarshal (bufio.dropCR l) acc = OpenAIClient.Continue acc).
  { intros l H. apply loopBody_other.
    destruct (strings.HasPrefix (bufio.dropCR l) "data: ") eqn:E; [|reflexivity].
    apply dropCR_prefix in E. congruence. }
  destruct (bufio.cut_line text) as [[l r]|] eqn:Hcut.
  - pose proof (cut_line_shorter _ _ _ Hcut) as Hlen.
    rewrite (lines_cut _ _ _ Hcut) in Hp, Hf.
    inversion Hp as [|? ? Hpl Hpr]; inversion Hf as [|? ? Hfl Hfr]; subst.
    destruct (cut_line_some _ _ _ Hcut) as [-> Hl].
    rewrite (runLoop_line Unmarshal _ _ _ _ _ Hl Hfl), (Hother _ Hpl).
    apply (IH (String.length r)); [lia | reflexivity | assumption | assumption].
  - apply cut_line_no_LF in Hcut.
    rewrite (lines_no_LF _ Hcut) in Hp, Hf.
    inversion Hp as [|? ? Hpl _]; inversion Hf as [|? ? Hfl _]; subst.
    destruct text as [|c text]; [now rewrite runLoop_end|].
    rewrite (runLoop_last _ _ _ _ Hcut Hfl) by discriminate.
    rewrite (Hother _ Hpl). reflexivity.
Qed.

(** The decoder is the run of the loop from a fresh scanner and no text. *)
Lemma handleStreamResponse_run (text : string) (ending : error) :
  OpenAIClient.handleStreamResponse Unmarshal {| io.data := text; io.ending := ending |} =
  OpenAIClient.runLoop Unmarshal (scanning text ending EmptyString) EmptyString.
Proof. reflexivity. Qed.

End StreamDecoderRuns.

(** * Properties of the protocol handler *)

(** ** The stream decoder *)

(** C1 (amended).  For every input made of frames [data: <payload>], each
    on a line that fits the scanner's buffer and each decoding to a chunk with
    at least one choice, followed by a frame whose delta has no content and by
    the line [data: [DONE]], [handleStreamResponse] returns the deltas of the
    frames concatenated in the order of arrival, nothing between them, and no
    error, whatever follows the marker. *)
Theorem C1_stream_concatenation
  (Unmarshal : string -> result StreamChunk.t)
  (payloads deltas : list string) (finish tail : string) :
  Forall2 (carries Unmarshal) payloads deltas ->
  carries Unmarshal finish EmptyString ->
  Forall (fun p => fits (sse_line p) = true) (payloads ++ [finish]) ->
  OpenAIClient.handleStreamResponse Unmarshal
    (io.NewReader (sse_frames (payloads ++ [finish]) ++ sse_done ++ NL ++ tail))
  = (concat_all deltas, None).
Proof.
  intros Hps Hfin Hfit.
  assert (Hall : Forall2 (carries Unmarshal) (payloads ++ [finish]) (deltas ++ [EmptyString])).
  { apply Forall2_app; [exact Hps | now constructor]. }
  unfold io.NewReader. rewrite handleStreamResponse_run.
  rewrite (runLoop_frames Unmarshal _ _ _ _ Hall Hfit).
  rewrite (runLoop_done Unmarshal NL) by now left.
  rewrite concat_all_snoc_empty. reflexivity.
Qed.

(** The test of the repository: the deltas arrive as the five fragments
    of the sentence, after a role-only frame, and the decoder returns the
    sentence. *)
Lemma C1_stream_concatenation_witness :
  Forall2 (carries UnmarshalChunk)
    (roleChunk :: map contentChunk testDeltas) (EmptyString :: testDeltas)
  /\ carries UnmarshalChunk finishChunk EmptyString
  /\ Forall (fun p => fits (sse_line p) = true)
       ((roleChunk :: map contentChunk testDeltas) ++ [finishChunk])
  /\ OpenAIClient.handleStreamResponse UnmarshalChunk (io.NewReader sseResponse)
     = ("这是一个流式响应测试", None).
Proof.
  assert (H1 : Forall2 (carries UnmarshalChunk)
                 (roleChunk :: map contentChunk testDeltas) (EmptyString :: testDeltas)).
  { repeat constructor; try (vm_compute; reflexivity); intros H; vm_compute in H; discriminate. }
  assert (H2 : carries UnmarshalChunk finishChunk EmptyString).
  { repeat constructor; try (vm_compute; reflexivity); intros H; vm_compute in H; discriminate. }
  assert (H3 : Forall (fun p => fits (sse_line p) = true)
                 ((roleChunk :: map contentChunk testDeltas) ++ [finishChunk])).
  { repeat constructor. }
  split; [exact H1 | split; [exact H2 | split; [exact H3 |]]].
  exact (C1_stream_concatenation UnmarshalChunk _ _ _ EmptyString H1 H2 H3).
Defined.

(** C1 without the bound on the length of the lines fails: a frame whose
    line is longer than the scanner's buffer is a well-formed chunk with one
    choice, and the decoder returns an error and none of its delta. *)
Lemma C1_long_frame_counterexample :
  carries UnmarshalChunk (contentChunk (repeat_byte "a" (N.to_nat 70000)))
    (repeat_byte "a" (N.to_nat 70000))
  /\ carries UnmarshalChunk finishChunk EmptyString
  /\ fits (sse_line (contentChunk (repeat_byte "a" (N.to_nat 70000)))) = false
  /\ OpenAIClient.handleStreamResponse UnmarshalChunk
       (io.NewReader
          (sse_frames [contentChunk (repeat_byte "a" (N.to_nat 70000)); finishChunk]
           ++ sse_done ++ NL))
     = (EmptyString, Some (ErrScanStream bufio_ErrTooLong)).
Proof.
  split; [|split; [|split]].
  - split; [|split].
    + vm_compute; reflexivity.
    + intros H. apply (f_equal (fun s => take 1 s)) in H. vm_compute in H. discriminate.
    + apply option_string_eqb. vm_compute; reflexivity.
  - repeat constructor; try (vm_compute; reflexivity); intros H; vm_compute in H; discriminate.
  - vm_compute; reflexivity.
  - vm_compute; reflexivity.
Qed.

(** C5 (amended).  Inserting, at a line start, a data line that fits the
    scanner's buffer and whose payload does not parse changes nothing: the
    decoder returns for the input with the line what it returns for the input
    without it. *)
Theorem C5_malformed_frame_skipped
  (Unmarshal : string -> result StreamChunk.t)
  (before payload after : string) (ending : error) :
  at_line_start before = true ->
  unparsable Unmarshal payload ->
  fits (sse_line payload) = true ->
  OpenAIClient.handleStreamResponse Unmarshal
    {| io.data := before ++ (sse_line payload ++ NL) ++ after; io.ending := ending |}
  = OpenAIClient.handleStreamResponse Unmarshal
      {| io.data := before ++ after; io.ending := ending |}.
Proof.
  intros Hstart Hbad Hfit. rewrite !handleStreamResponse_run.
  apply (runLoop_before Unmarshal (fun r => r)); [|exact Hstart].
  intros acc. pose proof Hbad as (Hl & _ & _).
  unfold NL. rewrite append_assoc.
  change (String LF EmptyString ++ after) with (String LF after).
  rewrite (runLoop_line Unmarshal _ _ _ _ _ (one_line_no_LF _ Hl) Hfit).
  rewrite (dropCR_sse_line _ Hl), (loopBody_unparsable _ _ _ Hbad). reflexivity.
Qed.

Lemma C5_malformed_frame_skipped_witness :
  at_line_start (sse_frames [contentChunk "这是"]) = true
  /\ unparsable UnmarshalChunk "{not json"
  /\ fits (sse_line "{not json") = true
  /\ OpenAIClient.handleStreamResponse UnmarshalChunk
       (io.NewReader
          (sse_frames [contentChunk "这是"] ++ (sse_line "{not json" ++ NL)
           ++ sse_frames [contentChunk "一个"; finishChunk] ++ sse_done ++ NL))
     = OpenAIClient.handleStreamResponse UnmarshalChunk
         (io.NewReader
            (sse_frames [contentChunk "这是"]
             ++ sse_frames [contentChunk "一个"; finishChunk] ++ sse_done ++ NL)).
Proof.
  assert (H1 : at_line_start (sse_frames [contentChunk "这是"]) = true)
    by (vm_compute; reflexivity).
  assert (H2 : unparsable UnmarshalChunk "{not json").
  { split; [vm_compute; reflexivity | split; [discriminate|]].
    exists json_SyntaxError. vm_compute; reflexivity. }
  assert (H3 : fits (sse_line "{not json") = true) by (vm_compute; reflexivity).
  split; [exact H1 | split; [exact H2 | split; [exact H3 |]]].
  exact (C5_malformed_frame_skipped UnmarshalChunk _ _ _ io_EOF H1 H2 H3).
Defined.

(** C5 without the bound on the length of the line fails: a data line that
    does not parse and is longer than the scanner's buffer ends the decoding;
    the frames after it are lost and an error is returned. *)
Lemma C5_long_line_counterexample :
  unparsable UnmarshalChunk ("{not json" ++ repeat_byte "x" (N.to_nat 70000))
  /\ OpenAIClient.handleStreamResponse UnmarshalChunk
       (io.NewReader
          (sse_frames [contentChunk "这是"]
           ++ (sse_line ("{not json" ++ repeat_byte "x" (N.to_nat 70000)) ++ NL)
           ++ sse_frames [contentChunk "一个"; finishChunk] ++ sse_done ++ NL))
     = ("这是", Some (ErrScanStream bufio_ErrTooLong))
  /\ OpenAIClient.handleStreamResponse UnmarshalChunk
       (io.NewReader
          (sse_frames [contentChunk "这是"]
           ++ sse_frames [contentChunk "一个"; finishChunk] ++ sse_done ++ NL))
     = ("这是一个", None).
Proof.
  split; [|split].
  - split; [vm_compute; reflexivity | split].
    + intros H. apply (f_equal (fun s => take 1 s)) in H. vm_compute in H. discriminate.
    + exists json_SyntaxError. vm_compute; reflexivity.
  - vm_compute; reflexivity.
  - vm_compute; reflexivity.
Qed.

(** C6.  The decoder stops at the line [data: [DONE]]: the text it
    returns does not depend on what follows that line.  Decoding the whole
    input gives the text that decoding the input up to and including the
    marker line gives, and the text that decoding the input cut right after
    the marker gives, however the reader ends; when the stream ends without a
    failure, text and error are the same with and without what follows the
    marker line. *)
Theorem C6_done_stops
  (Unmarshal : string -> result StreamChunk.t)
  (before eol tail : string) (ending ending' : error) :
  at_line_start before = true ->
  eol = NL \/ eol = CRLF ->
  fst (OpenAIClient.handleStreamResponse Unmarshal
         {| io.data := before ++ sse_done ++ eol ++ tail; io.ending := ending |})
  = fst (OpenAIClient.handleStreamResponse Unmarshal
           {| io.data := before ++ sse_done ++ eol; io.ending := ending' |})
  /\ fst (OpenAIClient.handleStreamResponse Unmarshal
            {| io.data := before ++ sse_done ++ eol ++ tail; io.ending := ending |})
     = fst (OpenAIClient.handleStreamResponse Unmarshal
              {| io.data := before ++ sse_done; io.ending := ending' |})
  /\ OpenAIClient.handleStreamResponse Unmarshal
       (io.NewReader (before ++ sse_done ++ eol ++ tail))
     = OpenAIClient.handleStreamResponse Unmarshal
         (io.NewReader (before ++ sse_done ++ eol)).
Proof.
  intros Hstart Heol. unfold io.NewReader. rewrite !handleStreamResponse_run.
  split; [|split].
  - apply (runLoop_before Unmarshal fst); [|exact Hstart].
    intros acc. rewrite <- (append_nil_r eol) at 2.
    now rewrite !(runLoop_done Unmarshal eol).
  - apply (runLoop_before Unmarshal fst); [|exact Hstart].
    intros acc. rewrite (runLoop_done Unmarshal eol) by exact Heol.
    rewrite (runLoop_last Unmarshal sse_done); [reflexivity .. | discriminate].
  - apply (runLoop_before Unmarshal (fun r => r)); [|exact Hstart].
    intros acc. rewrite <- (append_nil_r eol) at 2.
    now rewrite !(runLoop_done Unmarshal eol).
Qed.

(** A frame after the marker line is not decoded. *)
Lemma C6_done_stops_witness :
  at_line_start (sse_frames [contentChunk "这是"]) = true
  /\ (NL = NL \/ NL = CRLF)
  /\ OpenAIClient.handleStreamResponse UnmarshalChunk
       (io.NewReader
          (sse_frames [contentChunk "这是"] ++ sse_done ++ NL
           ++ sse_frames [contentChunk "一个"]))
     = OpenAIClient.handleStreamResponse UnmarshalChunk
         (io.NewReader (sse_frames [contentChunk "这是"] ++ sse_done ++ NL)).
Proof.
  assert (H1 : at_line_start (sse_frames [contentChunk "这是"]) = true)
    by (vm_compute; reflexivity).
  assert (H2 : NL = NL \/ NL = CRLF) by (left; reflexivity).
  split; [exact H1 | split; [exact H2 |]].
  exact (proj2 (proj2 (C6_done_stops UnmarshalChunk _ NL (sse_frames [contentChunk "一个"])
                         io_EOF io_EOF H1 H2))).
Defined.

(** C7.  When the reader fails (its ending is an error other than
    [io.EOF]) after delivering frames that the decoder has read, the decoder
    fails with the error of the scan, wrapping the reader's error, and returns
    with it the text of those frames; after no frame at all that text is
    empty.  Whatever bytes were delivered, the text returned is the text the
    decoder returns when the stream ends there without a failure. *)
Theorem C7_read_error_keeps_text
  (Unmarshal : string -> result StreamChunk.t)
  (payloads deltas : list string) (failure : error) :
  failure <> io_EOF ->
  Forall2 (carries Unmarshal) payloads deltas ->
  Forall (fun p => fits (sse_line p) = true) payloads ->
  OpenAIClient.handleStreamResponse Unmarshal
    {| io.data := sse_frames payloads; io.ending := failure |}
  = (concat_all deltas, Some (ErrScanStream failure))
  /\ OpenAIClient.handleStreamResponse Unmarshal
       {| io.data := EmptyString; io.ending := failure |}
     = (EmptyString, Some (ErrScanStream failure))
  /\ forall text,
       fst (OpenAIClient.handleStreamResponse Unmarshal
              {| io.data := text; io.ending := failure |})
       = fst (OpenAIClient.handleStreamResponse Unmarshal
                {| io.data := text; io.ending := io_EOF |}).
Proof.
  intros Hfail Hps Hfit.
  assert (Hend : forall acc,
            OpenAIClient.runLoop Unmarshal (scanning EmptyString failure EmptyString) acc
            = (acc, Some (ErrScanStream failure))).
  { intros acc. rewrite runLoop_end. destruct failure; try reflexivity. contradiction. }
  split; [|split].
  - rewrite handleStreamResponse_run.
    rewrite <- (append_nil_r (sse_frames payloads)).
    rewrite (runLoop_frames Unmarshal _ _ _ _ Hps Hfit), Hend. reflexivity.
  - rewrite handleStreamResponse_run. apply Hend.
  - intros text. rewrite !handleStreamResponse_run. apply runLoop_text.
Qed.

(** The reader of the test [TestHandleStreamResponseError], failing after
    two frames. *)
Lemma C7_read_error_keeps_text_witness :
  io_failure "mock read error" <> io_EOF
  /\ Forall2 (carries UnmarshalChunk) [contentChunk "这是"; contentChunk "一个"] ["这是"; "一个"]
  /\ Forall (fun p => fits (sse_line p) = true) [contentChunk "这是"; contentChunk "一个"]
  /\ OpenAIClient.handleStreamResponse UnmarshalChunk
       {| io.data := sse_frames [contentChunk "这是"; contentChunk "一个"];
          io.ending := io_failure "mock read error" |}
     = ("这是一个", Some (ErrScanStream (io_failure "mock read error"))).
Proof.
  assert (H0 : io_failure "mock read error" <> io_EOF) by discriminate.
  assert (H1 : Forall2 (carries UnmarshalChunk)
                 [contentChunk "这是"; contentChunk "一个"] ["这是"; "一个"]).
  { repeat constructor; try (vm_compute; reflexivity); intros H; vm_compute in H; discriminate. }
  assert (H2 : Forall (fun p => fits (sse_line p) = true)
                 [contentChunk "这是"; contentChunk "一个"]).
  { repeat constructor. }
  split; [exact H0 | split; [exact H1 | split; [exact H2 |]]].
  exact (proj1 (C7_read_error_keeps_text UnmarshalChunk _ _ _ H0 H1 H2)).
Defined.

(** C9 (amended).  For every input that ends without a read failure, has
    no line starting with [data: ] and has only lines that fit the scanner's
    buffer, the decoder returns the empty text and no error. *)
Theorem C9_no_data_lines
  (Unmarshal : string -> result StreamChunk.t) (text : string) :
  Forall (fun l => strings.HasPrefix l "data: " = false) (lines text) ->
  Forall (fun l => fits l = true) (lines text) ->
  OpenAIClient.handleStreamResponse Unmarshal (io.NewReader text) = (EmptyString, None).
Proof.
  intros Hp Hf. unfold io.NewReader. rewrite handleStreamResponse_run.
  now apply runLoop_no_data.
Qed.

(** The envelope of a non-streaming answer, received by the stream
    decoder. *)
Lemma C9_no_data_lines_witness :
  Forall (fun l => strings.HasPrefix l "data: " = false) (lines testEnvelope)
  /\ Forall (fun l => fits l = true) (lines testEnvelope)
  /\ OpenAIClient.handleStreamResponse UnmarshalChunk (io.NewReader testEnvelope)
     = (EmptyString, None).
Proof.
  assert (H1 : Forall (fun l => strings.HasPrefix l "data: " = false) (lines testEnvelope)).
  { vm_compute lines. repeat constructor. }
  assert (H2 : Forall (fun l => fits l = true) (lines testEnvelope)).
  { vm_compute lines. repeat constructor. }
  split; [exact H1 | split; [exact H2 |]].
  exact (C9_no_data_lines UnmarshalChunk testEnvelope H1 H2).
Defined.

(** C9 without the bound on the length of the lines fails: a body of one
    line of 70000 bytes has no data line and is read without a failure of the
    reader, and the decoder returns an error. *)
Lemma C9_long_line_counterexample :
  Forall (fun l => strings.HasPrefix l "data: " = false)
    (lines (repeat_byte "x" (N.to_nat 70000)))
  /\ io.ending (io.NewReader (repeat_byte "x" (N.to_nat 70000))) = io_EOF
  /\ OpenAIClient.handleStreamResponse UnmarshalChunk
       (io.NewReader (repeat_byte "x" (N.to_nat 70000)))
     = (EmptyString, Some (ErrScanStream bufio_ErrTooLong)).
Proof.
  split; [|split].
  - rewrite lines_no_LF by (vm_compute; reflexivity).
    constructor; [vm_compute; reflexivity | constructor].
  - reflexivity.
  - vm_compute; reflexivity.
Qed.

(** ** The client *)

Lemma HasSuffix_append (a s : string) : strings.HasSuffix (a ++ s) s = true.
Proof.
  unfold strings.HasSuffix. rewrite length_append.
  replace (String.length a + String.length s - String.length s)%nat
    with (String.length a) by lia.
  rewrite drop_append, String.eqb_refl, andb_true_r.
  apply Nat.leb_le. lia.
Qed.

Lemma endpoint_without_slash (b : string) :
  strings.HasSuffix b "/" = false -> OpenAIClient.endpoint b = b ++ "/v1/chat/completions".
Proof.
  intros H. unfold OpenAIClient.endpoint. rewrite H. simpl negb. cbv iota.
  rewrite append_assoc. reflexivity.
Qed.

Lemma endpoint_with_slash (b : string) :
  OpenAIClient.endpoint (b ++ "/") = b ++ "/v1/chat/completions".
Proof.
  unfold OpenAIClient.endpoint. rewrite HasSuffix_append. simpl negb. cbv iota.
  rewrite append_assoc. reflexivity.
Qed.

Section ClientFacts.

Variable Unmarshal : string -> result StreamChunk.t.
Variable Decode : io.Reader -> result OpenAIResponse.t.
Variable Marshal : OpenAIRequest.t -> result string.
Variable NewRequestWithContext : string -> string -> string -> result http.Request.t.
Variable Do : http.Request.t -> result http.Response.t.

(** A response whose status is not 200 is turned into the API error with
    its status and its body; no decoder is involved. *)
Lemma handleResponse_not_OK (opts : ChatOptions.t) (resp : http.Response.t) :
  http.Response.StatusCode resp <> 200%Z ->
  OpenAIClient.handleResponse Unmarshal Decode opts resp =
  (EmptyString,
   Some (ErrAPIRequestFailed (http.Response.StatusCode resp)
           (io.data (http.Response.Body resp)))).
Proof.
  intros H. unfold OpenAIClient.handleResponse, http.StatusOK.
  destruct (Z.eqb_spec (http.Response.StatusCode resp) 200) as [E|_]; [contradiction|].
  reflexivity.
Qed.

Lemma Chat_not_OK (c : OpenAIClient.t) (messages : list Message.t) (opts : ChatOptions.t)
  (resp : http.Response.t) :
  OpenAIClient.roundTrip Marshal NewRequestWithContext Do c messages opts = Ok resp ->
  http.Response.StatusCode resp <> 200%Z ->
  OpenAIClient.Chat Unmarshal Decode Marshal NewRequestWithContext Do c messages opts =
  (EmptyString,
   Some (ErrAPIRequestFailed (http.Response.StatusCode resp)
           (io.data (http.Response.Body resp)))).
Proof.
  intros Hrt Hs. unfold OpenAIClient.Chat. rewrite Hrt.
  now apply handleResponse_not_OK.
Qed.

(** The address of the request depends on the configured address only
    through [endpoint]. *)
Lemma roundTrip_endpoint (c c' : OpenAIClient.t) (messages : list Message.t)
  (opts : ChatOptions.t) :
  OpenAIClient.apiKey c = OpenAIClient.apiKey c' ->
  OpenAIClient.model c = OpenAIClient.model c' ->
  OpenAIClient.endpoint (OpenAIClient.apiURL c) = OpenAIClient.endpoint (OpenAIClient.apiURL c') ->
  OpenAIClient.roundTrip Marshal NewRequestWithContext Do c messages opts =
  OpenAIClient.roundTrip Marshal NewRequestWithContext Do c' messages opts.
Proof.
  intros Hk Hm He. unfold OpenAIClient.roundTrip. now rewrite Hk, Hm, He.
Qed.

End ClientFacts.

(** C3.  For every response with a status of 400 or more that the round
    trip brings back, [Chat] fails with the API error that carries that
    status and the body of the response, whatever the body is; the result
    does not depend on the decoders, which are not run on it. *)
Theorem C3_error_status_is_api_error
  (Unmarshal : string -> result StreamChunk.t)
  (Decode : io.Reader -> result OpenAIResponse.t)
  (Marshal : OpenAIRequest.t -> result string)
  (NewRequestWithContext : string -> string -> string -> result http.Request.t)
  (Do : http.Request.t -> result http.Response.t)
  (c : OpenAIClient.t) (messages : list Message.t) (opts : ChatOptions.t)
  (resp : http.Response.t) :
  OpenAIClient.roundTrip Marshal NewRequestWithContext Do c messages opts = Ok resp ->
  (400 <= http.Response.StatusCode resp)%Z ->
  OpenAIClient.Chat Unmarshal Decode Marshal NewRequestWithContext Do c messages opts =
  (EmptyString,
   Some (ErrAPIRequestFailed (http.Response.StatusCode resp)
           (io.data (http.Response.Body resp)))).
Proof.
  intros Hrt Hs. apply Chat_not_OK; [exact Hrt | lia].
Qed.

(** A server that answers 500 with a body that is not JSON, and one whose
    body would decode. *)
Lemma C3_error_status_is_api_error_witness :
  OpenAIClient.roundTrip exampleMarshal exampleNewRequest
    (exampleServer 500 (io.NewReader "Internal Server Error"))
    testClient [userMessage "Hello"] DefaultChatOptions
  = Ok {| http.Response.StatusCode := 500;
          http.Response.Body := io.NewReader "Internal Server Error" |}
  /\ (400 <= 500)%Z
  /\ OpenAIClient.Chat UnmarshalChunk DecodeResponse exampleMarshal exampleNewRequest
       (exampleServer 500 (io.NewReader "Internal Server Error"))
       testClient [userMessage "Hello"] DefaultChatOptions
     = (EmptyString, Some (ErrAPIRequestFailed 500 "Internal Server Error")).
Proof.
  assert (H1 : OpenAIClient.roundTrip exampleMarshal exampleNewRequest
                 (exampleServer 500 (io.NewReader "Internal Server Error"))
                 testClient [userMessage "Hello"] DefaultChatOptions
               = Ok {| http.Response.StatusCode := 500;
                       http.Response.Body := io.NewReader "Internal Server Error" |})
    by reflexivity.
  assert (H2 : (400 <= 500)%Z) by lia.
  split; [exact H1 | split; [exact H2 |]].
  exact (C3_error_status_is_api_error UnmarshalChunk DecodeResponse _ _ _ _ _ _ _ H1 H2).
Defined.

(** C10.  [Chat] takes every status other than 200 for a failure: for
    every response the round trip brings back with another status, 201, 204
    and the 3xx codes included, it fails with the API error that carries that
    status and the body, and the decoders are not run on the body. *)
Theorem C10_only_200_is_success
  (Unmarshal : string -> result StreamChunk.t)
  (Decode : io.Reader -> result OpenAIResponse.t)
  (Marshal : OpenAIRequest.t -> result string)
  (NewRequestWithContext : string -> string -> string -> result http.Request.t)
  (Do : http.Request.t -> result http.Response.t)
  (c : OpenAIClient.t) (messages : list Message.t) (opts : ChatOptions.t)
  (resp : http.Response.t) :
  OpenAIClient.roundTrip Marshal NewRequestWithContext Do c messages opts = Ok resp ->
  http.Response.StatusCode resp <> http.StatusOK ->
  OpenAIClient.Chat Unmarshal Decode Marshal NewRequestWithContext Do c messages opts =
  (EmptyString,
   Some (ErrAPIRequestFailed (http.Response.StatusCode resp)
           (io.data (http.Response.Body resp)))).
Proof.
  intros Hrt Hs. apply Chat_not_OK; assumption.
Qed.

(** A server that answers 201 with the envelope of the tests: the
    envelope is not decoded. *)
Lemma C10_only_200_is_success_witness :
  OpenAIClient.roundTrip exampleMarshal exampleNewRequest
    (exampleServer 201 (io.NewReader testEnvelope))
    testClient [userMessage "Hello"] (WithStream false DefaultChatOptions)
  = Ok {| http.Response.StatusCode := 201;
          http.Response.Body := io.NewReader testEnvelope |}
  /\ 201%Z <> http.StatusOK
  /\ OpenAIClient.Chat UnmarshalChunk DecodeResponse exampleMarshal exampleNewRequest
       (exampleServer 201 (io.NewReader testEnvelope))
       testClient [userMessage "Hello"] (WithStream false DefaultChatOptions)
     = (EmptyString, Some (ErrAPIRequestFailed 201 testEnvelope)).
Proof.
  assert (H1 : OpenAIClient.roundTrip exampleMarshal exampleNewRequest
                 (exampleServer 201 (io.NewReader testEnvelope))
                 testClient [userMessage "Hello"] (WithStream false DefaultChatOptions)
               = Ok {| http.Response.StatusCode := 201;
                       http.Response.Body := io.NewReader testEnvelope |})
    by reflexivity.
  assert (H2 : 201%Z <> http.StatusOK) by (unfold http.StatusOK; lia).
  split; [exact H1 | split; [exact H2 |]].
  exact (C10_only_200_is_success UnmarshalChunk DecodeResponse _ _ _ _ _ _ _ H1 H2).
Defined.

(** C4.  For every body that decodes to an envelope, [handleNormalResponse]
    fails with the empty-response error when the envelope has no choice, and
    returns the content of the message of the first choice, with no error,
    when it has one. *)
Theorem C4_empty_choices_is_error
  (Decode : io.Reader -> result OpenAIResponse.t)
  (respBody : io.Reader) (apiResp : OpenAIResponse.t) :
  Decode respBody = Ok apiResp ->
  (OpenAIResponse.Choices apiResp = [] ->
   OpenAIClient.handleNormalResponse Decode respBody = (EmptyString, Some ErrEmptyResponse))
  /\ (forall c cs,
        OpenAIResponse.Choices apiResp = c :: cs ->
        OpenAIClient.handleNormalResponse Decode respBody
        = (Message.Content (Choice.Message c), None)).
Proof.
  intros Hd. unfold OpenAIClient.handleNormalResponse. rewrite Hd. split.
  - intros ->. reflexivity.
  - intros c cs ->. reflexivity.
Qed.

Lemma C4_empty_choices_is_error_witness :
  DecodeResponse (io.NewReader (jq "{'id':'chatcmpl-123','choices':[]}"))
  = Ok {| OpenAIResponse.ID := "chatcmpl-123"; OpenAIResponse.Object := EmptyString;
          OpenAIResponse.Created := 0; OpenAIResponse.Model := EmptyString;
          OpenAIResponse.Choices := []; OpenAIResponse.Usage := Usage.zero |}
  /\ OpenAIClient.handleNormalResponse DecodeResponse
       (io.NewReader (jq "{'id':'chatcmpl-123','choices':[]}"))
     = (EmptyString, Some ErrEmptyResponse).
Proof.
  assert (H1 : DecodeResponse (io.NewReader (jq "{'id':'chatcmpl-123','choices':[]}"))
               = Ok {| OpenAIResponse.ID := "chatcmpl-123";
                       OpenAIResponse.Object := EmptyString;
                       OpenAIResponse.Created := 0; OpenAIResponse.Model := EmptyString;
                       OpenAIResponse.Choices := []; OpenAIResponse.Usage := Usage.zero |})
    by (vm_compute; reflexivity).
  split; [exact H1 |].
  exact (proj1 (C4_empty_choices_is_error DecodeResponse _ _ H1) eq_refl).
Defined.

(** C8.  For every configured address [b] that does not end in a slash,
    the address of the request is the same for [b] and for [b] followed by a
    slash, namely [b] followed by [/v1/chat/completions]; two clients that
    differ only in that slash make the same round trip. *)
Theorem C8_endpoint_trailing_slash (b : string) :
  strings.HasSuffix b "/" = false ->
  OpenAIClient.endpoint b = OpenAIClient.endpoint (b ++ "/")
  /\ OpenAIClient.endpoint b = b ++ "/v1/chat/completions"
  /\ forall Marshal NewRequestWithContext Do apiKey httpClient model messages opts,
       OpenAIClient.roundTrip Marshal NewRequestWithContext Do
         {| OpenAIClient.apiKey := apiKey; OpenAIClient.apiURL := b;
            OpenAIClient.httpClient := httpClient; OpenAIClient.model := model |}
         messages opts
       = OpenAIClient.roundTrip Marshal NewRequestWithContext Do
           {| OpenAIClient.apiKey := apiKey; OpenAIClient.apiURL := b ++ "/";
              OpenAIClient.httpClient := httpClient; OpenAIClient.model := model |}
           messages opts.
Proof.
  intros H.
  assert (E : OpenAIClient.endpoint b = OpenAIClient.endpoint (b ++ "/")).
  { now rewrite endpoint_with_slash, endpoint_without_slash. }
  split; [exact E | split; [now apply endpoint_without_slash |]].
  intros. apply roundTrip_endpoint; [reflexivity | reflexivity | exact E].
Qed.

Lemma C8_endpoint_trailing_slash_witness :
  strings.HasSuffix "https://api.openai.com" "/" = false
  /\ OpenAIClient.endpoint "https://api.openai.com"
     = OpenAIClient.endpoint "https://api.openai.com/"
  /\ OpenAIClient.endpoint "https://api.openai.com"
     = "https://api.openai.com/v1/chat/completions".
Proof.
  assert (H : strings.HasSuffix "https://api.openai.com" "/" = false) by reflexivity.
  split; [exact H |].
  pose proof (C8_endpoint_trailing_slash "https://api.openai.com" H) as (E1 & E2 & _).
  split; [exact E1 | exact E2].
Defined.

(** On a response with status 200, [Chat] branches on the [Stream] flag
    of the options alone: the body goes to the stream decoder when the flag is
    set and to the single-shot decoder otherwise, and [Chat] returns what that
    decoder returns. *)
Theorem Chat_success_dispatch
  (Unmarshal : string -> result StreamChunk.t)
  (Decode : io.Reader -> result OpenAIResponse.t)
  (Marshal : OpenAIRequest.t -> result string)
  (NewRequestWithContext : string -> string -> string -> result http.Request.t)
  (Do : http.Request.t -> result http.Response.t)
  (c : OpenAIClient.t) (messages : list Message.t) (opts : ChatOptions.t)
  (resp : http.Response.t) :
  OpenAIClient.roundTrip Marshal NewRequestWithContext Do c messages opts = Ok resp ->
  http.Response.StatusCode resp = http.StatusOK ->
  OpenAIClient.Chat Unmarshal Decode Marshal NewRequestWithContext Do c messages opts =
  if ChatOptions.Stream opts
  then OpenAIClient.handleStreamResponse Unmarshal (http.Response.Body resp)
  else OpenAIClient.handleNormalResponse Decode (http.Response.Body resp).
Proof.
  intros Hrt Hs. unfold OpenAIClient.Chat. rewrite Hrt.
  unfold OpenAIClient.handleResponse. rewrite Hs, Z.eqb_refl. reflexivity.
Qed.

(** The non-streaming call of [TestOpenAIClient_Chat]: the server answers
    200 with the envelope, and [Chat] returns the content of its choice. *)
Lemma Chat_success_dispatch_witness :
  OpenAIClient.roundTrip exampleMarshal exampleNewRequest
    (exampleServer 200 (io.NewReader testEnvelope))
    testClient [userMessage "Hello"] (WithStream false DefaultChatOptions)
  = Ok {| http.Response.StatusCode := 200;
          http.Response.Body := io.NewReader testEnvelope |}
  /\ 200%Z = http.StatusOK
  /\ OpenAIClient.Chat UnmarshalChunk DecodeResponse exampleMarshal exampleNewRequest
       (exampleServer 200 (io.NewReader testEnvelope))
       testClient [userMessage "Hello"] (WithStream false DefaultChatOptions)
     = ("this is a test response", None).
Proof.
  assert (H1 : OpenAIClient.roundTrip exampleMarshal exampleNewRequest
                 (exampleServer 200 (io.NewReader testEnvelope))
                 testClient [userMessage "Hello"] (WithStream false DefaultChatOptions)
               = Ok {| http.Response.StatusCode := 200;
                       http.Response.Body := io.NewReader testEnvelope |})
    by reflexivity.
  assert (H2 : 200%Z = http.StatusOK) by reflexivity.
  split; [exact H1 | split; [exact H2 |]].
  rewrite (Chat_success_dispatch UnmarshalChunk DecodeResponse _ _ _ _ _ _ _ H1 H2).
  vm_compute; reflexivity.
Defined.

(** The streaming call against a server that answers with the frames of
    [TestHandleStreamResponse]. *)
Example Chat_streaming_example :
  OpenAIClient.Chat UnmarshalChunk DecodeResponse exampleMarshal exampleNewRequest
    (exampleServer 200 (io.NewReader sseResponse))
    testClient [userMessage "Hello"] DefaultChatOptions
  = ("这是一个流式响应测试", None).
Proof. vm_compute; reflexivity. Qed.

(** ** The model *)

(** An option list that ends with [WithHistory h] leaves [h] as the
    history. *)
Lemma applyOptions_WithHistory (options : list ChatOption) (h : list Message.t)
  (o : ChatOptions.t) :
  ChatOptions.History (applyOptions (options ++ [WithHistory h]) o) = h.
Proof. unfold applyOptions. rewrite fold_left_app. reflexivity. Qed.

(** What [Chat] hands the transport: the history of the options, in its
    order, followed by exactly one message, of role [user], holding the
    question; in particular the history given by a last [WithHistory]. *)
Theorem Chat_outgoing_messages
  (R : Type) (send : OpenAIClient.t -> list Message.t -> ChatOptions.t -> R)
  (m : OpenAIModel.t) (question : string) (options : list ChatOption) :
  OpenAIModel.Chat send m question options
  = send (clientOf m)
      (ChatOptions.History (applyOptions options DefaultChatOptions)
       ++ [userMessage question])%list
      (applyOptions options DefaultChatOptions)
  /\ forall h,
       OpenAIModel.Chat send m question (options ++ [WithHistory h])
       = send (clientOf m) (h ++ [userMessage question])%list
           (applyOptions (options ++ [WithHistory h]) DefaultChatOptions).
Proof.
  assert (HChat : forall opts,
            OpenAIModel.Chat send m question opts
            = send (clientOf m)
                (ChatOptions.History (applyOptions opts DefaultChatOptions)
                 ++ [userMessage question])%list
                (applyOptions opts DefaultChatOptions)).
  { intros opts. unfold OpenAIModel.Chat.
    destruct (ChatOptions.History (applyOptions opts DefaultChatOptions)) as [|x l];
      reflexivity. }
  split; [apply HChat |].
  intros h. rewrite HChat, applyOptions_WithHistory. reflexivity.
Qed.




(** C2 fails on [ChatWithFile]: with a history supplied through the
    options, the messages handed to the transport are the one message of the
    prompt, and the history is not among them, where [Chat] sends the history
    first. *)
Lemma C2_ChatWithFile_drops_history :
  OpenAIModel.ChatWithFile (fun _ messages _ => messages)
    (OpenAIModel.NewOpenAIModel testConfig)
    "explain this code" "test.go" "package main"
    [WithHistory [userMessage "earlier question"]]
  = [userMessage (filePrompt "explain this code" "test.go" "package main")]
  /\ OpenAIModel.Chat (fun _ messages _ => messages)
       (OpenAIModel.NewOpenAIModel testConfig)
       "explain this code"
       [WithHistory [userMessage "earlier question"]]
     = [userMessage "earlier question"; userMessage "explain this code"].
Proof. split; reflexivity. Qed.

(** * Properties of the rest of the program *)

(** ** More on the stream decoder *)

Section StreamDecoderMore.

Variable Unmarshal : string -> result StreamChunk.t.

(** A turn of the loop never takes text back: what it leaves is what it
    found, and maybe more. *)
Lemma loopBody_extends (line acc : string) :
  exists more,
    match OpenAIClient.loopBody Unmarshal line acc with
    | OpenAIClient.Continue acc' => acc'
    | OpenAIClient.Break acc' => acc'
    end = acc ++ more.
Proof.
  unfold OpenAIClient.loopBody.
  assert (Hsame : acc = acc ++ EmptyString) by now rewrite append_nil_r.
  destruct (String.eqb line EmptyString); [now exists EmptyString|].
  destruct (negb (strings.HasPrefix line "data: ")); [now exists EmptyString|].
  destruct (String.eqb (strings.TrimPrefix line "data: ") "[DONE]"); [now exists EmptyString|].
  destruct (Unmarshal (strings.TrimPrefix line "data: ")) as [chunk|e]; [|now exists EmptyString].
  destruct (StreamChunk.Choices chunk) as [|c cs]; [now exists EmptyString|].
  destruct (negb (String.eqb (StreamChunk.Content (StreamChunk.Delta_ c)) EmptyString)).
  - now exists (StreamChunk.Content (StreamChunk.Delta_ c)).
  - now exists EmptyString.
Qed.

(** A run returns the text it starts with, and maybe more. *)
Lemma runLoop_extends (text : string) (ending : error) :
  forall acc, exists more,
    fst (OpenAIClient.runLoop Unmarshal (scanning text ending EmptyString) acc) = acc ++ more.
Proof.
  remember (String.length text) as n eqn:Hn.
  revert text Hn. induction n as [n IH] using lt_wf_ind.
  intros text Hn acc.
  assert (Hsame : acc = acc ++ EmptyString) by now rewrite append_nil_r.
  destruct (bufio.cut_line text) as [[l r]|] eqn:Hcut.
  - pose proof (cut_line_shorter _ _ _ Hcut) as Hlen.
    destruct (cut_line_some _ _ _ Hcut) as [-> Hl].
    destruct (fits l) eqn:Hf.
    + rewrite (runLoop_line Unmarshal _ _ _ _ _ Hl Hf).
      destruct (loopBody_extends (bufio.dropCR l) acc) as [more Hmore].
      destruct (OpenAIClient.loopBody Unmarshal (bufio.dropCR l) acc) as [acc'|acc'].
      * destruct (IH (String.length r) ltac:(lia) r eq_refl acc') as [more' Hmore'].
        exists (more ++ more'). rewrite Hmore', Hmore. apply append_assoc.
      * exists more. exact Hmore.
    + rewrite (runLoop_too_long Unmarshal _ _ _ _ _ Hl Hf). now exists EmptyString.
  - apply cut_line_no_LF in Hcut.
    destruct (fits text) eqn:Hf.
    + destruct text as [|c text]; [rewrite runLoop_end; now exists EmptyString|].
      rewrite (runLoop_last _ _ _ _ _ Hcut Hf) by discriminate.
      apply loopBody_extends.
    + rewrite (runLoop_last_too_long _ _ _ _ _ Hcut Hf). now exists EmptyString.
Qed.

(** Carriage return and newline end a plain line as a newline does. *)
Lemma dropCR_plain (l : string) :
  plain_line l = true ->
  bufio.dropCR (l ++ String CR EmptyString) = l /\ bufio.dropCR l = l
  /\ fits l = true /\ fits (l ++ String CR EmptyString) = true.
Proof.
  unfold plain_line. intros H. apply andb_true_iff in H as [Hcr Hf].
  assert (Hl : fits l = true).
  { unfold fits, len in *. rewrite length_append in Hf. simpl in Hf.
    apply N.ltb_lt. apply N.ltb_lt in Hf. lia. }
  repeat split; try assumption.
  - unfold bufio.dropCR. rewrite last_byte_snoc.
    change (Ascii.eqb CR CR) with true. cbv iota.
    rewrite length_append. simpl.
    replace (String.length l + 1 - 1)%nat with (String.length l) by lia.
    apply take_append.
  - unfold bufio.dropCR. destruct (last_byte l) as [c|]; [|reflexivity].
    now destruct (Ascii.eqb c CR).
Qed.

Lemma has_byte_crlf (l : string) : has_byte LF l = false -> crlf l = l.
Proof.
  induction l as [|c l IH]; simpl; [reflexivity|].
  intros H. apply orb_false_iff in H as [Hc Hl].
  rewrite Hc, (IH Hl). reflexivity.
Qed.

Lemma crlf_append (l r : string) :
  has_byte LF l = false ->
  crlf (l ++ String LF r) = (l ++ String CR EmptyString) ++ String LF (crlf r).
Proof.
  induction l as [|c l IH]; simpl; [reflexivity|].
  intros H. apply orb_false_iff in H as [Hc Hl].
  rewrite Hc, (IH Hl). reflexivity.
Qed.

Lemma has_byte_snoc_CR (l : string) :
  has_byte LF l = false -> has_byte LF (l ++ String CR EmptyString) = false.
Proof. intros H. rewrite has_byte_append, H. reflexivity. Qed.

(** The run over a text is the run over the same text with the other line
    ending. *)
Lemma runLoop_crlf (text : string) (ending : error) :
  Forall (fun l => plain_line l = true) (lines text) ->
  forall acc,
    OpenAIClient.runLoop Unmarshal (scanning (crlf text) ending EmptyString) acc =
    OpenAIClient.runLoop Unmarshal (scanning text ending EmptyString) acc.
Proof.
  remember (String.length text) as n eqn:Hn.
  revert text Hn. induction n as [n IH] using lt_wf_ind.
  intros text Hn Hp acc.
  destruct (bufio.cut_line text) as [[l r]|] eqn:Hcut.
  - pose proof (cut_line_shorter _ _ _ Hcut) as Hlen.
    rewrite (lines_cut _ _ _ Hcut) in Hp.
    inversion Hp as [|? ? Hpl Hpr]; subst.
    destruct (cut_line_some _ _ _ Hcut) as [-> Hl].
    destruct (dropCR_plain _ Hpl) as (Hd1 & Hd2 & Hf1 & Hf2).
    rewrite (crlf_append _ _ Hl).
    rewrite (runLoop_line Unmarshal _ _ _ _ _ (has_byte_snoc_CR _ Hl) Hf2).
    rewrite (runLoop_line Unmarshal _ _ _ _ _ Hl Hf1).
    rewrite Hd1, Hd2.
    destruct (OpenAIClient.loopBody Unmarshal l acc); [|reflexivity].
    apply (IH (String.length r)); [lia | reflexivity | assumption].
  - apply cut_line_no_LF in Hcut. now rewrite (has_byte_crlf _ Hcut).
Qed.

End StreamDecoderMore.

(** X4.  The end marker is not needed: when the body ends, without a
    failure of the reader, after frames that each carry a delta, the decoder
    returns the deltas concatenated and no error. *)
Theorem stream_without_done_marker
  (Unmarshal : string -> result StreamChunk.t) (payloads deltas : list string) :
  Forall2 (carries Unmarshal) payloads deltas ->
  Forall (fun p => fits (sse_line p) = true) payloads ->
  OpenAIClient.handleStreamResponse Unmarshal (io.NewReader (sse_frames payloads))
  = (concat_all deltas, None).
Proof.
  intros Hc Hf. unfold io.NewReader. rewrite handleStreamResponse_run.
  rewrite <- (append_nil_r (sse_frames payloads)).
  rewrite (runLoop_frames Unmarshal _ _ _ _ Hc Hf), runLoop_end. reflexivity.
Qed.

Lemma stream_without_done_marker_witness :
  Forall2 (carries UnmarshalChunk)
    [roleChunk; contentChunk "这是"; contentChunk "一个"] [EmptyString; "这是"; "一个"]
  /\ Forall (fun p => fits (sse_line p) = true)
       [roleChunk; contentChunk "这是"; contentChunk "一个"]
  /\ OpenAIClient.handleStreamResponse UnmarshalChunk
       (io.NewReader (sse_frames [roleChunk; contentChunk "这是"; contentChunk "一个"]))
     = ("这是一个", None).
Proof.
  assert (H1 : Forall2 (carries UnmarshalChunk)
                 [roleChunk; contentChunk "这是"; contentChunk "一个"]
                 [EmptyString; "这是"; "一个"]).
  { repeat constructor; try (vm_compute; reflexivity); intros H; vm_compute in H; discriminate. }
  assert (H2 : Forall (fun p => fits (sse_line p) = true)
                 [roleChunk; contentChunk "这是"; contentChunk "一个"]).
  { repeat constructor. }
  split; [exact H1 | split; [exact H2 |]].
  exact (stream_without_done_marker UnmarshalChunk _ _ H1 H2).
Defined.

(** X5.  Line endings: a body whose lines end in carriage return and
    newline is decoded as the same body with bare newlines, text and error
    alike, when no line ends in a carriage return of its own and every line
    fits the scanner's buffer with the carriage return. *)
Theorem stream_crlf_line_endings
  (Unmarshal : string -> result StreamChunk.t) (text : string) (ending : error) :
  Forall (fun l => plain_line l = true) (lines text) ->
  OpenAIClient.handleStreamResponse Unmarshal {| io.data := crlf text; io.ending := ending |}
  = OpenAIClient.handleStreamResponse Unmarshal {| io.data := text; io.ending := ending |}.
Proof.
  intros H. rewrite !handleStreamResponse_run. now apply runLoop_crlf.
Qed.

Lemma stream_crlf_line_endings_witness :
  Forall (fun l => plain_line l = true) (lines sseResponse)
  /\ OpenAIClient.handleStreamResponse UnmarshalChunk
       {| io.data := crlf sseResponse; io.ending := io_EOF |}
     = OpenAIClient.handleStreamResponse UnmarshalChunk
         {| io.data := sseResponse; io.ending := io_EOF |}.
Proof.
  assert (H : Forall (fun l => plain_line l = true) (lines sseResponse)).
  { vm_compute lines. repeat constructor. }
  split; [exact H |].
  exact (stream_crlf_line_endings UnmarshalChunk sseResponse io_EOF H).
Defined.

Section StreamDecoderParts.

Variable Unmarshal : string -> result StreamChunk.t.

(** A payload without choices adds nothing. *)
Lemma loopBody_no_choices (payload acc : string) :
  no_choices Unmarshal payload ->
  OpenAIClient.loopBody Unmarshal (sse_line payload) acc = OpenAIClient.Continue acc.
Proof.
  intros (_ & Hd & chunk & H & Hc). rewrite (loopBody_sse_line _ _ _ Hd), H, Hc. reflexivity.
Qed.

(** Inserting a line that the loop passes over changes nothing. *)
Lemma runLoop_skip (before line after : string) (ending : error) :
  at_line_start before = true -> has_byte LF line = false -> fits line = true ->
  (forall acc, OpenAIClient.loopBody Unmarshal (bufio.dropCR line) acc
               = OpenAIClient.Continue acc) ->
  OpenAIClient.runLoop Unmarshal
    (scanning (before ++ (line ++ NL) ++ after) ending EmptyString) EmptyString
  = OpenAIClient.runLoop Unmarshal (scanning (before ++ after) ending EmptyString) EmptyString.
Proof.
  intros Hstart Hl Hfit Hskip.
  apply (runLoop_before Unmarshal (fun r => r)); [|exact Hstart].
  intros acc. unfold NL. rewrite append_assoc.
  change (String LF EmptyString ++ after) with (String LF after).
  rewrite (runLoop_line Unmarshal _ _ _ _ _ Hl Hfit), Hskip. reflexivity.
Qed.

(** What a turn of the loop does to the text it finds is what it does to
    no text, put after the text found. *)
Lemma loopBody_shift (line acc : string) :
  OpenAIClient.loopBody Unmarshal line acc =
  match OpenAIClient.loopBody Unmarshal line EmptyString with
  | OpenAIClient.Continue d => OpenAIClient.Continue (acc ++ d)
  | OpenAIClient.Break d => OpenAIClient.Break (acc ++ d)
  end.
Proof.
  unfold OpenAIClient.loopBody.
  destruct (String.eqb line EmptyString); [now rewrite append_nil_r|].
  destruct (negb (strings.HasPrefix line "data: ")); [now rewrite append_nil_r|].
  destruct (String.eqb (strings.TrimPrefix line "data: ") "[DONE]");
    [now rewrite append_nil_r|].
  destruct (Unmarshal (strings.TrimPrefix line "data: ")) as [chunk|e];
    [|now rewrite append_nil_r].
  destruct (StreamChunk.Choices chunk) as [|c cs]; [now rewrite append_nil_r|].
  destruct (negb (String.eqb (StreamChunk.Content (StreamChunk.Delta_ c)) EmptyString));
    [reflexivity | now rewrite append_nil_r].
Qed.

(** The same for a run: the error does not depend on the text the run
    starts with, and the text is that text followed by the text of the run
    from no text. *)
Lemma runLoop_shift (text : string) (ending : error) :
  forall acc,
    OpenAIClient.runLoop Unmarshal (scanning text ending EmptyString) acc =
    (acc ++ fst (OpenAIClient.runLoop Unmarshal (scanning text ending EmptyString) EmptyString),
     snd (OpenAIClient.runLoop Unmarshal (scanning text ending EmptyString) EmptyString)).
Proof.
  remember (String.length text) as n eqn:Hn.
  revert text Hn. induction n as [n IH] using lt_wf_ind.
  intros text Hn acc.
  destruct (bufio.cut_line text) as [[l r]|] eqn:Hcut.
  - pose proof (cut_line_shorter _ _ _ Hcut) as Hlen.
    destruct (cut_line_some _ _ _ Hcut) as [-> Hl].
    destruct (fits l) eqn:Hf.
    + rewrite !(runLoop_line Unmarshal _ _ _ _ _ Hl Hf).
      rewrite (loopBody_shift _ acc).
      destruct (OpenAIClient.loopBody Unmarshal (bufio.dropCR l) EmptyString) as [d|d].
      * rewrite (IH (String.length r) ltac:(lia) r eq_refl (acc ++ d)).
        rewrite (IH (String.length r) ltac:(lia) r eq_refl d).
        simpl. now rewrite append_assoc.
      * reflexivity.
    + rewrite !(runLoop_too_long Unmarshal _ _ _ _ _ Hl Hf). simpl.
      now rewrite append_nil_r.
  - apply cut_line_no_LF in Hcut.
    destruct (fits text) eqn:Hf.
    + destruct text as [|c text]; [rewrite !runLoop_end; simpl; now rewrite append_nil_r|].
      rewrite !(runLoop_last _ _ _ _ _ Hcut Hf) by discriminate.
      rewrite (loopBody_shift _ acc). simpl.
      now destruct (OpenAIClient.loopBody Unmarshal (bufio.dropCR (String c text)) EmptyString).
    + rewrite !(runLoop_last_too_long _ _ _ _ _ Hcut Hf). simpl. now rewrite append_nil_r.
Qed.

(** Only the end marker breaks the loop. *)
Lemma loopBody_break (line acc acc' : string) :
  OpenAIClient.loopBody Unmarshal line acc = OpenAIClient.Break acc' -> line = sse_done.
Proof.
  unfold OpenAIClient.loopBody.
  destruct (String.eqb line EmptyString); [discriminate|].
  destruct (strings.HasPrefix line "data: ") eqn:Hp; [|discriminate]. simpl.
  destruct (String.eqb (strings.TrimPrefix line "data: ") "[DONE]") eqn:Hd.
  - intros _. apply String.eqb_eq in Hd.
    unfold strings.TrimPrefix in Hd. rewrite Hp in Hd.
    unfold strings.HasPrefix in Hp. apply andb_true_iff in Hp as [_ Hp].
    apply String.eqb_eq in Hp.
    assert (Hsplit : forall n s, take n s ++ drop n s = s).
    { induction n as [|n IHn]; intros [|c s]; simpl; try reflexivity. now rewrite IHn. }
    rewrite <- (Hsplit (String.length "data: ") line), Hp, Hd. reflexivity.
  - destruct (Unmarshal (strings.TrimPrefix line "data: ")) as [chunk|e]; [|discriminate].
    destruct (StreamChunk.Choices chunk) as [|c cs]; [discriminate|].
    now destruct (negb (String.eqb (StreamChunk.Content (StreamChunk.Delta_ c)) EmptyString)).
Qed.

(** The run over lines that fit, none of them the end marker, followed by
    more input, is the run over the lines followed by the run over the
    rest. *)
Lemma runLoop_parts (after : string) (e : error) (before : string) :
  at_line_start before = true ->
  Forall (fun l => fits l = true) (lines before) ->
  Forall (fun l => bufio.dropCR l <> sse_done) (lines before) ->
  forall acc,
    OpenAIClient.runLoop Unmarshal (scanning (before ++ after) e EmptyString) acc =
    OpenAIClient.runLoop Unmarshal (scanning after e EmptyString)
      (fst (OpenAIClient.runLoop Unmarshal (scanning before io_EOF EmptyString) acc)).
Proof.
  remember (String.length before) as n eqn:Hn.
  revert before Hn. induction n as [n IH] using lt_wf_ind.
  intros before Hn Hstart Hfits Hnd acc.
  destruct (at_line_start_cases _ Hstart) as [-> | (l & r & Hcut & Hr)].
  - rewrite runLoop_end. reflexivity.
  - pose proof (cut_line_shorter _ _ _ Hcut) as Hlen.
    rewrite (lines_cut _ _ _ Hcut) in Hfits, Hnd.
    inversion Hfits as [|? ? Hf Hfr]; inversion Hnd as [|? ? Hd Hdr]; subst.
    destruct (cut_line_some _ _ _ Hcut) as [-> Hl].
    rewrite append_assoc. simpl.
    rewrite !(runLoop_line Unmarshal _ _ _ _ _ Hl Hf).
    destruct (OpenAIClient.loopBody Unmarshal (bufio.dropCR l) acc) as [acc'|acc'] eqn:Hb.
    + apply (IH (String.length r)); [lia | reflexivity | assumption | assumption | assumption].
    + apply loopBody_break in Hb. contradiction.
Qed.

(** What comes before a line start decides a first part of the text. *)
Lemma runLoop_grows (after : string) (e e' : error) (before : string) :
  at_line_start before = true ->
  forall acc, exists more,
    fst (OpenAIClient.runLoop Unmarshal (scanning (before ++ after) e EmptyString) acc) =
    fst (OpenAIClient.runLoop Unmarshal (scanning before e' EmptyString) acc) ++ more.
Proof.
  remember (String.length before) as n eqn:Hn.
  revert before Hn. induction n as [n IH] using lt_wf_ind.
  intros before Hn Hstart acc.
  destruct (at_line_start_cases _ Hstart) as [-> | (l & r & Hcut & Hr)].
  - rewrite runLoop_end. apply runLoop_extends.
  - pose proof (cut_line_shorter _ _ _ Hcut) as Hlen.
    destruct (cut_line_some _ _ _ Hcut) as [-> Hl].
    rewrite append_assoc. simpl.
    destruct (fits l) eqn:Hf.
    + rewrite !(runLoop_line Unmarshal _ _ _ _ _ Hl Hf).
      destruct (OpenAIClient.loopBody Unmarshal (bufio.dropCR l) acc) as [acc'|acc'].
      * apply (IH (String.length r)); [lia | reflexivity | assumption].
      * exists EmptyString. simpl. now rewrite append_nil_r.
    + rewrite !(runLoop_too_long Unmarshal _ _ _ _ _ Hl Hf).
      exists EmptyString. simpl. now rewrite append_nil_r.
Qed.

End StreamDecoderParts.

(** X6.  Lines that are not data lines are passed over: inserting, at a
    line start, a line that fits the scanner's buffer and does not start with
    [data: ] (a blank line, a comment, an [event:] line, [data:] without the
    space) changes neither the text nor the error the decoder returns. *)
Theorem stream_skips_other_lines
  (Unmarshal : string -> result StreamChunk.t)
  (before line after : string) (ending : error) :
  at_line_start before = true ->
  has_byte LF line = false ->
  fits line = true ->
  strings.HasPrefix line "data: " = false ->
  OpenAIClient.handleStreamResponse Unmarshal
    {| io.data := before ++ (line ++ NL) ++ after; io.ending := ending |}
  = OpenAIClient.handleStreamResponse Unmarshal
      {| io.data := before ++ after; io.ending := ending |}.
Proof.
  intros Hstart Hl Hfit Hp. rewrite !handleStreamResponse_run.
  apply runLoop_skip; try assumption.
  intros acc. apply loopBody_other.
  destruct (strings.HasPrefix (bufio.dropCR line) "data: ") eqn:E; [|reflexivity].
  apply dropCR_prefix in E. congruence.
Qed.

Lemma stream_skips_other_lines_witness :
  at_line_start (sse_frames [contentChunk "这是"]) = true
  /\ has_byte LF (jq "data:{'choices':[{'delta':{'content':'lost'}}]}") = false
  /\ fits (jq "data:{'choices':[{'delta':{'content':'lost'}}]}") = true
  /\ strings.HasPrefix (jq "data:{'choices':[{'delta':{'content':'lost'}}]}") "data: " = false
  /\ OpenAIClient.handleStreamResponse UnmarshalChunk
       {| io.data := sse_frames [contentChunk "这是"]
                     ++ (jq "data:{'choices':[{'delta':{'content':'lost'}}]}" ++ NL)
                     ++ sse_frames [contentChunk "一个"];
          io.ending := io_EOF |}
     = OpenAIClient.handleStreamResponse UnmarshalChunk
         {| io.data := sse_frames [contentChunk "这是"] ++ sse_frames [contentChunk "一个"];
            io.ending := io_EOF |}.
Proof.
  assert (H1 : at_line_start (sse_frames [contentChunk "这是"]) = true)
    by (vm_compute; reflexivity).
  assert (H2 : has_byte LF (jq "data:{'choices':[{'delta':{'content':'lost'}}]}") = false)
    by (vm_compute; reflexivity).
  assert (H3 : fits (jq "data:{'choices':[{'delta':{'content':'lost'}}]}") = true)
    by (vm_compute; reflexivity).
  assert (H4 : strings.HasPrefix (jq "data:{'choices':[{'delta':{'content':'lost'}}]}")
                 "data: " = false) by (vm_compute; reflexivity).
  split; [exact H1 | split; [exact H2 | split; [exact H3 | split; [exact H4 |]]]].
  exact (stream_skips_other_lines UnmarshalChunk _ _ _ io_EOF H1 H2 H3 H4).
Defined.

(** X7.  A frame without choices is passed over: inserting, at a line
    start, a data line that fits the scanner's buffer and whose payload
    decodes to a chunk with an empty list of choices changes neither the text
    nor the error; the decoder does not index into the empty list. *)
Theorem stream_skips_frame_without_choices
  (Unmarshal : string -> result StreamChunk.t)
  (before payload after : string) (ending : error) :
  at_line_start before = true ->
  no_choices Unmarshal payload ->
  fits (sse_line payload) = true ->
  OpenAIClient.handleStreamResponse Unmarshal
    {| io.data := before ++ (sse_line payload ++ NL) ++ after; io.ending := ending |}
  = OpenAIClient.handleStreamResponse Unmarshal
      {| io.data := before ++ after; io.ending := ending |}.
Proof.
  intros Hstart Hn Hfit. pose proof Hn as (Hl & _ & _).
  rewrite !handleStreamResponse_run.
  apply runLoop_skip; try assumption.
  - now apply one_line_no_LF.
  - intros acc. rewrite (dropCR_sse_line _ Hl). now apply loopBody_no_choices.
Qed.

Lemma stream_skips_frame_without_choices_witness :
  at_line_start (sse_frames [contentChunk "这是"]) = true
  /\ no_choices UnmarshalChunk (jq "{'id':'chatcmpl-123','choices':[],'usage':{'total_tokens':30}}")
  /\ fits (sse_line (jq "{'id':'chatcmpl-123','choices':[],'usage':{'total_tokens':30}}")) = true
  /\ OpenAIClient.handleStreamResponse UnmarshalChunk
       {| io.data := sse_frames [contentChunk "这是"]
                     ++ (sse_line (jq "{'id':'chatcmpl-123','choices':[],'usage':{'total_tokens':30}}") ++ NL)
                     ++ sse_done ++ NL;
          io.ending := io_EOF |}
     = OpenAIClient.handleStreamResponse UnmarshalChunk
         {| io.data := sse_frames [contentChunk "这是"] ++ sse_done ++ NL;
            io.ending := io_EOF |}.
Proof.
  assert (H1 : at_line_start (sse_frames [contentChunk "这是"]) = true)
    by (vm_compute; reflexivity).
  assert (H2 : no_choices UnmarshalChunk
                 (jq "{'id':'chatcmpl-123','choices':[],'usage':{'total_tokens':30}}")).
  { split; [vm_compute; reflexivity | split].
    - intros H. apply (f_equal (fun s => take 1 s)) in H. vm_compute in H. discriminate.
    - eexists. split; [vm_compute; reflexivity | reflexivity]. }
  assert (H3 : fits (sse_line (jq "{'id':'chatcmpl-123','choices':[],'usage':{'total_tokens':30}}"))
               = true) by (vm_compute; reflexivity).
  split; [exact H1 | split; [exact H2 | split; [exact H3 |]]].
  exact (stream_skips_frame_without_choices UnmarshalChunk _ _ _ io_EOF H1 H2 H3).
Defined.

(** X8.  The text only grows: the text decoded from an input cut at a
    line start is a first part of the text decoded from the whole input,
    however the two readers end. *)
Theorem stream_text_grows
  (Unmarshal : string -> result StreamChunk.t)
  (before after : string) (ending ending' : error) :
  at_line_start before = true ->
  exists more,
    fst (OpenAIClient.handleStreamResponse Unmarshal
           {| io.data := before ++ after; io.ending := ending |})
    = fst (OpenAIClient.handleStreamResponse Unmarshal
             {| io.data := before; io.ending := ending' |}) ++ more.
Proof.
  intros Hstart. rewrite !handleStreamResponse_run. now apply runLoop_grows.
Qed.

Lemma stream_text_grows_witness :
  at_line_start (sse_frames [contentChunk "这是"]) = true
  /\ exists more,
       fst (OpenAIClient.handleStreamResponse UnmarshalChunk
              {| io.data := sse_frames [contentChunk "这是"] ++ sse_frames [contentChunk "一个"];
                 io.ending := io_EOF |})
       = fst (OpenAIClient.handleStreamResponse UnmarshalChunk
                {| io.data := sse_frames [contentChunk "这是"];
                   io.ending := io_ErrUnexpectedEOF |}) ++ more.
Proof.
  assert (H1 : at_line_start (sse_frames [contentChunk "这是"]) = true)
    by (vm_compute; reflexivity).
  split; [exact H1 |].
  exact (stream_text_grows UnmarshalChunk _ _ io_EOF io_ErrUnexpectedEOF H1).
Defined.

(** X9.  Decoding in parts: when the input up to a line start consists of
    lines that fit the scanner's buffer, none of them the end marker, the
    text decoded from the whole input is the text of that first part followed
    by the text of the rest, and the error is the error of the rest. *)
Theorem stream_decodes_in_parts
  (Unmarshal : string -> result StreamChunk.t)
  (before after : string) (ending : error) :
  at_line_start before = true ->
  Forall (fun l => fits l = true) (lines before) ->
  Forall (fun l => bufio.dropCR l <> sse_done) (lines before) ->
  OpenAIClient.handleStreamResponse Unmarshal
    {| io.data := before ++ after; io.ending := ending |}
  = (fst (OpenAIClient.handleStreamResponse Unmarshal (io.NewReader before))
     ++ fst (OpenAIClient.handleStreamResponse Unmarshal
               {| io.data := after; io.ending := ending |}),
     snd (OpenAIClient.handleStreamResponse Unmarshal
            {| io.data := after; io.ending := ending |})).
Proof.
  intros Hstart Hf Hd. unfold io.NewReader. rewrite !handleStreamResponse_run.
  rewrite (runLoop_parts Unmarshal after ending before Hstart Hf Hd).
  apply runLoop_shift.
Qed.

Lemma stream_decodes_in_parts_witness :
  at_line_start (sse_frames [roleChunk; contentChunk "这是"]) = true
  /\ Forall (fun l => fits l = true) (lines (sse_frames [roleChunk; contentChunk "这是"]))
  /\ Forall (fun l => bufio.dropCR l <> sse_done)
       (lines (sse_frames [roleChunk; contentChunk "这是"]))
  /\ OpenAIClient.handleStreamResponse UnmarshalChunk
       {| io.data := sse_frames [roleChunk; contentChunk "这是"]
                     ++ sse_frames [contentChunk "一个"] ++ sse_done ++ NL;
          io.ending := io_EOF |}
     = (fst (OpenAIClient.handleStreamResponse UnmarshalChunk
               (io.NewReader (sse_frames [roleChunk; contentChunk "这是"])))
        ++ fst (OpenAIClient.handleStreamResponse UnmarshalChunk
                  {| io.data := sse_frames [contentChunk "一个"] ++ sse_done ++ NL;
                     io.ending := io_EOF |}),
        snd (OpenAIClient.handleStreamResponse UnmarshalChunk
               {| io.data := sse_frames [contentChunk "一个"] ++ sse_done ++ NL;
                  io.ending := io_EOF |})).
Proof.
  assert (H1 : at_line_start (sse_frames [roleChunk; contentChunk "这是"]) = true)
    by (vm_compute; reflexivity).
  assert (H2 : Forall (fun l => fits l = true)
                 (lines (sse_frames [roleChunk; contentChunk "这是"]))).
  { vm_compute lines. repeat constructor. }
  assert (H3 : Forall (fun l => bufio.dropCR l <> sse_done)
                 (lines (sse_frames [roleChunk; contentChunk "这是"]))).
  { vm_compute lines. repeat constructor; intros H; vm_compute in H; discriminate. }
  split; [exact H1 | split; [exact H2 | split; [exact H3 |]]].
  exact (stream_decodes_in_parts UnmarshalChunk _ _ io_EOF H1 H2 H3).
Defined.

(** ** More on the client and the factory *)

(** X10.  Without streaming, an error never comes with text: whenever
    [Chat], called with the stream flag off, returns an error, the text it
    returns is empty, whether the failure is in building or sending the
    request, in the status, in the parse or in the empty list of choices. *)
Theorem Chat_not_streaming_error_has_no_text
  (Unmarshal : string -> result StreamChunk.t)
  (Decode : io.Reader -> result OpenAIResponse.t)
  (Marshal : OpenAIRequest.t -> result string)
  (NewRequestWithContext : string -> string -> string -> result http.Request.t)
  (Do : http.Request.t -> result http.Response.t)
  (c : OpenAIClient.t) (messages : list Message.t) (opts : ChatOptions.t)
  (text : string) (err : error) :
  ChatOptions.Stream opts = false ->
  OpenAIClient.Chat Unmarshal Decode Marshal NewRequestWithContext Do c messages opts
  = (text, Some err) ->
  text = EmptyString.
Proof.
  intros Hs. unfold OpenAIClient.Chat.
  destruct (OpenAIClient.roundTrip Marshal NewRequestWithContext Do c messages opts)
    as [resp|e]; [|now inversion 1].
  unfold OpenAIClient.handleResponse. rewrite Hs.
  destruct (negb (http.Response.StatusCode resp =? http.StatusOK)%Z); [now inversion 1|].
  unfold OpenAIClient.handleNormalResponse.
  destruct (Decode (http.Response.Body resp)) as [apiResp|e]; [|now inversion 1].
  destruct (OpenAIResponse.Choices apiResp); [now inversion 1 | discriminate].
Qed.

Lemma Chat_not_streaming_error_has_no_text_witness :
  ChatOptions.Stream (WithStream false DefaultChatOptions) = false
  /\ OpenAIClient.Chat UnmarshalChunk DecodeResponse exampleMarshal exampleNewRequest
       (exampleServer 200 (io.NewReader (jq "{'id':'chatcmpl-123','choices':[]}")))
       testClient [userMessage "hello"] (WithStream false DefaultChatOptions)
     = (EmptyString, Some ErrEmptyResponse)
  /\ EmptyString = EmptyString.
Proof.
  assert (H1 : ChatOptions.Stream (WithStream false DefaultChatOptions) = false)
    by reflexivity.
  assert (H2 : OpenAIClient.Chat UnmarshalChunk DecodeResponse exampleMarshal
                 exampleNewRequest
                 (exampleServer 200 (io.NewReader (jq "{'id':'chatcmpl-123','choices':[]}")))
                 testClient [userMessage "hello"] (WithStream false DefaultChatOptions)
               = (EmptyString, Some ErrEmptyResponse)) by (vm_compute; reflexivity).
  split; [exact H1 | split; [exact H2 |]].
  exact (Chat_not_streaming_error_has_no_text _ _ _ _ _ _ _ _ _ _ H1 H2).
Defined.

Section FactoryFacts.

Variable Map_unicode_ToLower : string -> string.

(** The factory returns no error. *)
Lemma CreateModel_no_error (config : ModelConfig.t) :
  snd (CreateModel Map_unicode_ToLower config) = None.
Proof.
  unfold CreateModel.
  destruct (String.eqb _ "openai"); [reflexivity|].
  now destruct (String.eqb _ "anthropic").
Qed.

Lemma CreateModel_model (config : ModelConfig.t) :
  CreateModel Map_unicode_ToLower config
  = (if anthropicName Map_unicode_ToLower (ModelConfig.Name config)
     then Model.Anthropic (AnthropicModel.NewAnthropicModel config)
     else Model.OpenAI (OpenAIModel.NewOpenAIModel config),
     None).
Proof.
  unfold CreateModel, determineModelType, anthropicName.
  destruct (strings_Contains _ "openai" || strings_Contains _ "gpt"); [reflexivity|].
  destruct (strings_Contains _ "anthropic" || strings_Contains _ "claude"); [reflexivity|].
  now destruct (strings_Contains _ "openai.com").
Qed.

End FactoryFacts.

(** X11.  The factory decides by the name alone: it builds the Anthropic
    stand-in when the name, in lower case, holds [anthropic] or [claude] and
    neither [openai] nor [gpt], and an OpenAI model in every other case; the
    address of the configuration is never decisive, and no error is
    returned. *)
Theorem CreateModel_decides_by_name
  (Map_unicode_ToLower : string -> string) (config : ModelConfig.t) :
  CreateModel Map_unicode_ToLower config
  = (if anthropicName Map_unicode_ToLower (ModelConfig.Name config)
     then Model.Anthropic (AnthropicModel.NewAnthropicModel config)
     else Model.OpenAI (OpenAIModel.NewOpenAIModel config),
     None)
  /\ forall url,
       determineModelType Map_unicode_ToLower (ModelConfig.Name config) url
       = determineModelType Map_unicode_ToLower (ModelConfig.Name config)
           (ModelConfig.URL config).
Proof.
  split; [apply CreateModel_model|].
  intros url. unfold determineModelType.
  destruct (strings_Contains _ "openai" || strings_Contains _ "gpt"); [reflexivity|].
  destruct (strings_Contains _ "anthropic" || strings_Contains _ "claude"); [reflexivity|].
  destruct (strings_Contains url "openai.com");
    now destruct (strings_Contains (ModelConfig.URL config) "openai.com").
Qed.

(** X12.  A model that the factory builds for an Anthropic name answers
    without a request: [Chat] and [ChatWithFile] return the fixed texts with
    the question (and the file name), and no error, whatever the transport,
    the options and the content of the file are. *)
Theorem anthropic_model_answers_without_request
  (Map_unicode_ToLower : string -> string)
  (client_Chat : OpenAIClient.t -> list Message.t -> ChatOptions.t -> string * option error)
  (config : ModelConfig.t) (question fileName fileContent : string)
  (options : list ChatOption) :
  anthropicName Map_unicode_ToLower (ModelConfig.Name config) = true ->
  Model.Chat client_Chat (fst (CreateModel Map_unicode_ToLower config)) question options
  = ("[Anthropic] Response to: " ++ question, None)
  /\ Model.ChatWithFile client_Chat (fst (CreateModel Map_unicode_ToLower config))
       question fileName fileContent options
     = ("[Anthropic] Response to file " ++ fileName ++ " question: " ++ question, None).
Proof.
  intros H. rewrite CreateModel_model, H. split; reflexivity.
Qed.

Lemma anthropic_model_answers_without_request_witness :
  anthropicName exampleToLower (ModelConfig.Name claudeConfig) = true
  /\ Model.Chat
       (OpenAIClient.Chat UnmarshalChunk DecodeResponse exampleMarshal exampleNewRequest
          (exampleServer 200 (io.NewReader testEnvelope)))
       (fst (CreateModel exampleToLower claudeConfig)) "hello" [WithStream false]
     = ("[Anthropic] Response to: hello", None)
  /\ Model.ChatWithFile
       (OpenAIClient.Chat UnmarshalChunk DecodeResponse exampleMarshal exampleNewRequest
          (exampleServer 200 (io.NewReader testEnvelope)))
       (fst (CreateModel exampleToLower claudeConfig)) "hello" "test.go" "package main"
       [WithStream false]
     = ("[Anthropic] Response to file test.go question: hello", None).
Proof.
  assert (H : anthropicName exampleToLower (ModelConfig.Name claudeConfig) = true)
    by (vm_compute; reflexivity).
  split; [exact H |].
  exact (anthropic_model_answers_without_request exampleToLower _ claudeConfig
           "hello" "test.go" "package main" [WithStream false] H).
Defined.

(** Two configurations with the same name, address and key give models
    whose [Chat] does the same. *)
Lemma Model_Chat_by_identity
  (Map_unicode_ToLower : string -> string)
  (client_Chat : OpenAIClient.t -> list Message.t -> ChatOptions.t -> string * option error)
  (config config' : ModelConfig.t) (question : string) (options : list ChatOption) :
  ModelConfig.Name config = ModelConfig.Name config' ->
  ModelConfig.URL config = ModelConfig.URL config' ->
  ModelConfig.APIKey config = ModelConfig.APIKey config' ->
  Model.Chat client_Chat (fst (CreateModel Map_unicode_ToLower config)) question options
  = Model.Chat client_Chat (fst (CreateModel Map_unicode_ToLower config')) question options.
Proof.
  intros Hn Hu Hk. rewrite !CreateModel_model, Hn.
  destruct (anthropicName Map_unicode_ToLower (ModelConfig.Name config')); simpl.
  - reflexivity.
  - unfold OpenAIModel.Chat. simpl. rewrite Hn, Hu, Hk. reflexivity.
Qed.

(** X13.  [Chat] does not read the options of the configuration: two
    configurations with the same name, address and key give models whose
    [Chat] does the same for every question and every list of options, so the
    default options and the default flag stored with a model have no effect
    on a plain question. *)
Theorem Chat_ignores_configured_options
  (Map_unicode_ToLower : string -> string)
  (client_Chat : OpenAIClient.t -> list Message.t -> ChatOptions.t -> string * option error)
  (config config' : ModelConfig.t) (question : string) (options : list ChatOption) :
  ModelConfig.Name config = ModelConfig.Name config' ->
  ModelConfig.URL config = ModelConfig.URL config' ->
  ModelConfig.APIKey config = ModelConfig.APIKey config' ->
  Model.Chat client_Chat (fst (CreateModel Map_unicode_ToLower config)) question options
  = Model.Chat client_Chat (fst (CreateModel Map_unicode_ToLower config')) question options.
Proof.
  intros Hn Hu Hk.
  assert (Hnames : ModelConfig.Name config' = ModelConfig.Name config) by congruence.
  destruct config as [n u k d o], config' as [n' u' k' d' o'].
  cbn [ModelConfig.Name ModelConfig.URL ModelConfig.APIKey] in *. subst n' u' k'.
  now apply Model_Chat_by_identity.
Qed.

Lemma Chat_ignores_configured_options_witness :
  ModelConfig.Name testConfig = "test-openai"
  /\ ModelConfig.URL testConfig = "http://127.0.0.1:8080"
  /\ ModelConfig.APIKey testConfig = "test-api-key"
  /\ Model.Chat
       (OpenAIClient.Chat UnmarshalChunk DecodeResponse exampleMarshal exampleNewRequest
          (exampleServer 200 (io.NewReader testEnvelope)))
       (fst (CreateModel exampleToLower testConfig)) "hello" []
     = Model.Chat
         (OpenAIClient.Chat UnmarshalChunk DecodeResponse exampleMarshal exampleNewRequest
            (exampleServer 200 (io.NewReader testEnvelope)))
         (fst (CreateModel exampleToLower
                 {| ModelConfig.Name := "test-openai";
                    ModelConfig.URL := "http://127.0.0.1:8080";
                    ModelConfig.APIKey := "test-api-key";
                    ModelConfig.DefaultEnabled := true;
                    ModelConfig.DefaultChatOptions :=
                      Some (WithStream false (WithMaxTokens 16 DefaultChatOptions)) |}))
         "hello" [].
Proof.
  split; [reflexivity | split; [reflexivity | split; [reflexivity |]]].
  exact (Chat_ignores_configured_options exampleToLower _ testConfig
           {| ModelConfig.Name := "test-openai";
              ModelConfig.URL := "http://127.0.0.1:8080";
              ModelConfig.APIKey := "test-api-key";
              ModelConfig.DefaultEnabled := true;
              ModelConfig.DefaultChatOptions :=
                Some (WithStream false (WithMaxTokens 16 DefaultChatOptions)) |}
           "hello" [] eq_refl eq_refl eq_refl).
Defined.

(** ** The model manager *)

Section MapFacts.

Variable V : Type.

Lemma gomap_lookup_delete_eq (k : string) (m : gomap.t V) :
  gomap.lookup k (gomap.delete k m) = None.
Proof.
  induction m as [|[k' v] m IH]; simpl; [reflexivity|].
  destruct (String.eqb k' k) eqn:E; simpl; [exact IH|]. now rewrite E.
Qed.

Lemma gomap_lookup_delete_ne (k k' : string) (m : gomap.t V) :
  k <> k' -> gomap.lookup k' (gomap.delete k m) = gomap.lookup k' m.
Proof.
  intros Hne. induction m as [|[k0 v] m IH]; simpl; [reflexivity|].
  destruct (String.eqb k0 k) eqn:E; simpl.
  - apply String.eqb_eq in E. subst k0.
    destruct (String.eqb k k') eqn:E'; [|exact IH].
    apply String.eqb_eq in E'. contradiction.
  - now rewrite IH.
Qed.

Lemma gomap_lookup_insert_eq (k : string) (v : V) (m : gomap.t V) :
  gomap.lookup k (gomap.insert k v m) = Some v.
Proof. unfold gomap.insert. simpl. now rewrite String.eqb_refl. Qed.

Lemma gomap_lookup_insert_ne (k k' : string) (v : V) (m : gomap.t V) :
  k <> k' -> gomap.lookup k' (gomap.insert k v m) = gomap.lookup k' m.
Proof.
  intros Hne. unfold gomap.insert. simpl.
  destruct (String.eqb k k') eqn:E; [apply String.eqb_eq in E; contradiction|].
  now apply gomap_lookup_delete_ne.
Qed.

(** Deleting a key the map does not hold changes nothing. *)
Lemma gomap_delete_absent (k : string) (m : gomap.t V) :
  gomap.lookup k m = None -> gomap.delete k m = m.
Proof.
  induction m as [|[k' v] m IH]; simpl; [reflexivity|].
  destruct (String.eqb k' k) eqn:E; [discriminate|].
  intros H. simpl. now rewrite (IH H).
Qed.

(** After an assignment to a new key the map has one entry exactly when it
    had none. *)
Lemma gomap_len_insert (k : string) (v : V) (m : gomap.t V) :
  gomap.lookup k m = None ->
  (gomap.len (gomap.insert k v m) =? 1)%Z = match m with [] => true | _ => false end.
Proof.
  intros H. unfold gomap.insert, gomap.len. rewrite (gomap_delete_absent _ _ H).
  destruct m as [|e m]; [reflexivity|].
  apply Z.eqb_neq. simpl List.length. lia.
Qed.

Lemma gomap_keys_delete (k k' : string) (m : gomap.t V) :
  In k' (gomap.keys (gomap.delete k m)) -> In k' (gomap.keys m) /\ k' <> k.
Proof.
  induction m as [|[k0 v] m IH]; simpl; [contradiction|].
  destruct (String.eqb k0 k) eqn:E; simpl.
  - intros H. destruct (IH H) as [H1 H2]. split; [now right | exact H2].
  - intros [H | H].
    + subst k0. split; [now left|]. intros ->. now rewrite String.eqb_refl in E.
    + destruct (IH H) as [H1 H2]. split; [now right | exact H2].
Qed.

(** The operations keep the keys distinct. *)
Lemma gomap_delete_wf (k : string) (m : gomap.t V) :
  gomap.wf m -> gomap.wf (gomap.delete k m).
Proof.
  unfold gomap.wf. induction m as [|[k0 v] m IH]; simpl; [trivial|].
  intros H. inversion H as [|? ? Hnotin Hnd]; subst.
  destruct (String.eqb k0 k); simpl; [now apply IH|].
  constructor; [|now apply IH].
  intros Hin. apply gomap_keys_delete in Hin. now destruct Hin.
Qed.

Lemma gomap_insert_wf (k : string) (v : V) (m : gomap.t V) :
  gomap.wf m -> gomap.wf (gomap.insert k v m).
Proof.
  intros H. unfold gomap.wf, gomap.insert. simpl. constructor.
  - intros Hin. apply gomap_keys_delete in Hin. now destruct Hin.
  - now apply gomap_delete_wf.
Qed.

End MapFacts.

Section ManagerFacts.

Variable Map_unicode_ToLower : string -> string.
Variable World : Type.
Variable yaml_Marshal : gomap.t ModelConfig.t -> result string.
Variable os_WriteFile : string -> string -> World -> option error * World.

(** What [saveConfig] does is decided by the configurations and the path
    of the file; the name of the default model is not written. *)
Lemma saveConfig_configs (m m' : ModelManager.t) (w : World) :
  ModelManager.configs m = ModelManager.configs m' ->
  ModelManager.configFile m = ModelManager.configFile m' ->
  ModelManager.saveConfig World yaml_Marshal os_WriteFile m w
  = ModelManager.saveConfig World yaml_Marshal os_WriteFile m' w.
Proof. intros Hc Hf. unfold ModelManager.saveConfig. now rewrite Hc, Hf. Qed.

(** The model the factory builds carries the name of its configuration. *)
Lemma CreateModel_Name (config : ModelConfig.t) :
  Model.Name (fst (CreateModel Map_unicode_ToLower config)) = ModelConfig.Name config.
Proof.
  rewrite CreateModel_model. simpl.
  now destruct (anthropicName Map_unicode_ToLower (ModelConfig.Name config)).
Qed.

(** [AddModel] on a new name, step by step. *)
Lemma AddModel_new (name url apiKey : string) (defaultEnabled : bool)
  (chatOptions : option ChatOptions.t) (m : ModelManager.t) (w : World) :
  gomap.lookup name (ModelManager.configs m) = None ->
  let config := {| ModelConfig.Name := name; ModelConfig.URL := url;
                   ModelConfig.APIKey := apiKey;
                   ModelConfig.DefaultEnabled := defaultEnabled;
                   ModelConfig.DefaultChatOptions := chatOptions |} in
  let m' := {| ModelManager.models :=
                 gomap.insert name (fst (CreateModel Map_unicode_ToLower config))
                   (ModelManager.models m);
               ModelManager.configs := gomap.insert name config (ModelManager.configs m);
               ModelManager.defaultModel :=
                 if match ModelManager.configs m with [] => true | _ => false end
                    || defaultEnabled
                 then name else ModelManager.defaultModel m;
               ModelManager.configFile := ModelManager.configFile m |} in
  ModelManager.AddModel Map_unicode_ToLower World yaml_Marshal os_WriteFile
    name url apiKey defaultEnabled chatOptions m w
  = (fst (ModelManager.saveConfig World yaml_Marshal os_WriteFile m' w), m',
     snd (ModelManager.saveConfig World yaml_Marshal os_WriteFile m' w)).
Proof.
  intros Hnew config m'. unfold ModelManager.AddModel. rewrite Hnew.
  fold config. rewrite (CreateModel_model Map_unicode_ToLower config).
  cbv iota beta. rewrite (gomap_len_insert _ _ _ _ Hnew).
  subst m'. rewrite (CreateModel_model Map_unicode_ToLower config). simpl fst.
  now destruct (ModelManager.saveConfig World yaml_Marshal os_WriteFile _ w).
Qed.

End ManagerFacts.

Section ManagerSteps.

Variable Map_unicode_ToLower : string -> string.
Variable World : Type.
Variable yaml_Marshal : gomap.t ModelConfig.t -> result string.
Variable os_WriteFile : string -> string -> World -> option error * World.

(** [RemoveModel] on a name the manager knows, step by step. *)
Lemma RemoveModel_known (name : string) (m : ModelManager.t) (w : World) :
  gomap.lookup name (ModelManager.configs m) <> None ->
  let m' := {| ModelManager.models := gomap.delete name (ModelManager.models m);
               ModelManager.configs := gomap.delete name (ModelManager.configs m);
               ModelManager.defaultModel := ModelManager.defaultModel m;
               ModelManager.configFile := ModelManager.configFile m |} in
  ModelManager.RemoveModel World yaml_Marshal os_WriteFile name m w
  = (fst (ModelManager.saveConfig World yaml_Marshal os_WriteFile m' w), m',
     snd (ModelManager.saveConfig World yaml_Marshal os_WriteFile m' w)).
Proof.
  intros Hknown m'. unfold ModelManager.RemoveModel.
  destruct (gomap.lookup name (ModelManager.configs m)); [|contradiction].
  fold m'. now destruct (ModelManager.saveConfig World yaml_Marshal os_WriteFile m' w).
Qed.

(** [SetDefaultModel] on a name the manager knows, step by step. *)
Lemma SetDefaultModel_known (name : string) (m : ModelManager.t) (w : World) :
  gomap.lookup name (ModelManager.configs m) <> None ->
  let m' := {| ModelManager.models := ModelManager.models m;
               ModelManager.configs := ModelManager.configs m;
               ModelManager.defaultModel := name;
               ModelManager.configFile := ModelManager.configFile m |} in
  ModelManager.SetDefaultModel World yaml_Marshal os_WriteFile name m w
  = (fst (ModelManager.saveConfig World yaml_Marshal os_WriteFile m w), m',
     snd (ModelManager.saveConfig World yaml_Marshal os_WriteFile m w)).
Proof.
  intros Hknown m'. unfold ModelManager.SetDefaultModel.
  destruct (gomap.lookup name (ModelManager.configs m)); [|contradiction].
  fold m'. rewrite (saveConfig_configs World yaml_Marshal os_WriteFile m' m w)
    by reflexivity.
  now destruct (ModelManager.saveConfig World yaml_Marshal os_WriteFile m w).
Qed.

(** [UpdateModelConfig] on a name the manager knows, step by step. *)
Lemma UpdateModelConfig_known (name : string) (config : ModelConfig.t)
  (m : ModelManager.t) (w : World) :
  gomap.lookup name (ModelManager.configs m) <> None ->
  let m' := {| ModelManager.models :=
                 gomap.insert name (fst (CreateModel Map_unicode_ToLower config))
                   (ModelManager.models m);
               ModelManager.configs := gomap.insert name config (ModelManager.configs m);
               ModelManager.defaultModel :=
                 if ModelConfig.DefaultEnabled config then name
                 else ModelManager.defaultModel m;
               ModelManager.configFile := ModelManager.configFile m |} in
  ModelManager.UpdateModelConfig Map_unicode_ToLower World yaml_Marshal os_WriteFile
    name config m w
  = (fst (ModelManager.saveConfig World yaml_Marshal os_WriteFile m' w), m',
     snd (ModelManager.saveConfig World yaml_Marshal os_WriteFile m' w)).
Proof.
  intros Hknown m'. unfold ModelManager.UpdateModelConfig.
  destruct (gomap.lookup name (ModelManager.configs m)); [|contradiction].
  subst m'. rewrite (CreateModel_model Map_unicode_ToLower config). simpl fst.
  now destruct (ModelManager.saveConfig World yaml_Marshal os_WriteFile _ w).
Qed.

(** A step on a name that it refuses leaves the manager as it was. *)
Lemma AddModel_known (name url apiKey : string) (defaultEnabled : bool)
  (chatOptions : option ChatOptions.t) (m : ModelManager.t) (w : World) :
  gomap.lookup name (ModelManager.configs m) <> None ->
  ModelManager.AddModel Map_unicode_ToLower World yaml_Marshal os_WriteFile
    name url apiKey defaultEnabled chatOptions m w
  = (Some ErrModelExists, m, w).
Proof.
  intros Hknown. unfold ModelManager.AddModel.
  now destruct (gomap.lookup name (ModelManager.configs m)).
Qed.

Lemma models_built_insert (name : string) (config : ModelConfig.t)
  (m : ModelManager.t) (d f : string) :
  models_built Map_unicode_ToLower m ->
  models_built Map_unicode_ToLower
    {| ModelManager.models :=
         gomap.insert name (fst (CreateModel Map_unicode_ToLower config))
           (ModelManager.models m);
       ModelManager.configs := gomap.insert name config (ModelManager.configs m);
       ModelManager.defaultModel := d; ModelManager.configFile := f |}.
Proof.
  intros H k. cbn [ModelManager.models ModelManager.configs ModelManager.defaultModel].
  destruct (String.eqb_spec name k) as [->|Hne].
  - now rewrite !gomap_lookup_insert_eq.
  - rewrite !gomap_lookup_insert_ne by assumption. apply H.
Qed.

Lemma models_built_delete (name : string) (m : ModelManager.t) (d f : string) :
  models_built Map_unicode_ToLower m ->
  models_built Map_unicode_ToLower
    {| ModelManager.models := gomap.delete name (ModelManager.models m);
       ModelManager.configs := gomap.delete name (ModelManager.configs m);
       ModelManager.defaultModel := d; ModelManager.configFile := f |}.
Proof.
  intros H k. cbn [ModelManager.models ModelManager.configs ModelManager.defaultModel].
  destruct (String.eqb_spec name k) as [->|Hne].
  - now rewrite !gomap_lookup_delete_eq.
  - rewrite !gomap_lookup_delete_ne by assumption. apply H.
Qed.

(** With every model built from its configuration, a name has a model
    exactly when it has a configuration. *)
Lemma models_built_same_names (m : ModelManager.t) (name : string) :
  models_built Map_unicode_ToLower m ->
  (fst (ModelManager.GetModel m name) = None
   <-> fst (ModelManager.GetModelConfig m name) = None).
Proof.
  intros H. unfold ModelManager.GetModel, ModelManager.GetModelConfig. rewrite (H name).
  destruct (gomap.lookup name (ModelManager.configs m)); simpl; split; congruence.
Qed.

(** X14.  [AddModel] registers before it saves.  For a name the manager
    does not know, the model and its configuration are in the manager when
    [AddModel] returns, whether or not the configuration file could be
    written: [GetModel] finds a model that carries the name, [GetModelConfig]
    the configuration, the new model is the default when it is the first one
    or was added with the default flag, and adding the name again is refused
    with [ErrModelExists] and changes nothing. *)
Theorem AddModel_registers_before_saving
  (name url apiKey : string) (defaultEnabled : bool) (chatOptions : option ChatOptions.t)
  (m : ModelManager.t) (w : World) :
  gomap.lookup name (ModelManager.configs m) = None ->
  let '(err, m', w') :=
    ModelManager.AddModel Map_unicode_ToLower World yaml_Marshal os_WriteFile
      name url apiKey defaultEnabled chatOptions m w in
  (exists model, ModelManager.GetModel m' name = (Some model, None)
                 /\ Model.Name model = name)
  /\ ModelManager.GetModelConfig m' name
     = (Some {| ModelConfig.Name := name; ModelConfig.URL := url;
                ModelConfig.APIKey := apiKey;
                ModelConfig.DefaultEnabled := defaultEnabled;
                ModelConfig.DefaultChatOptions := chatOptions |}, None)
  /\ ModelManager.GetDefaultModelName m'
     = (if match ModelManager.configs m with [] => true | _ => false end || defaultEnabled
        then name else ModelManager.GetDefaultModelName m)
  /\ forall url' apiKey' defaultEnabled' chatOptions',
       ModelManager.AddModel Map_unicode_ToLower World yaml_Marshal os_WriteFile
         name url' apiKey' defaultEnabled' chatOptions' m' w'
       = (Some ErrModelExists, m', w').
Proof.
  intros Hnew. rewrite (AddModel_new _ _ _ _ _ _ _ _ _ _ _ Hnew).
  split; [|split; [|split]].
  - eexists. unfold ModelManager.GetModel. cbn [ModelManager.models ModelManager.configs ModelManager.defaultModel].
    rewrite gomap_lookup_insert_eq. split; [reflexivity|].
    now rewrite CreateModel_Name.
  - unfold ModelManager.GetModelConfig. cbn [ModelManager.models ModelManager.configs ModelManager.defaultModel].
    now rewrite gomap_lookup_insert_eq.
  - reflexivity.
  - intros. apply AddModel_known. cbn [ModelManager.models ModelManager.configs ModelManager.defaultModel].
    rewrite gomap_lookup_insert_eq. discriminate.
Qed.

(** X15.  [RemoveModel] forgets the model and nothing else; the default
    is not reset.  After the removal of a name the manager knows, the name is
    not found, every other name is found as before, and the name of the
    default model is unchanged: when the model removed was the default,
    [GetDefaultModel] fails with [ErrModelNotFound], whatever other models are
    left. *)
Theorem RemoveModel_keeps_the_default_name
  (name : string) (m : ModelManager.t) (w : World) :
  gomap.lookup name (ModelManager.configs m) <> None ->
  let '(err, m', w') :=
    ModelManager.RemoveModel World yaml_Marshal os_WriteFile name m w in
  ModelManager.GetModel m' name = (None, Some ErrModelNotFound)
  /\ ModelManager.GetModelConfig m' name = (None, Some ErrModelNotFound)
  /\ (forall other, other <> name ->
        ModelManager.GetModel m' other = ModelManager.GetModel m other
        /\ ModelManager.GetModelConfig m' other = ModelManager.GetModelConfig m other)
  /\ ModelManager.GetDefaultModelName m' = ModelManager.GetDefaultModelName m
  /\ (ModelManager.GetDefaultModelName m = name -> name <> EmptyString ->
      ModelManager.GetDefaultModel m' = (None, Some ErrModelNotFound)).
Proof.
  intros Hknown. rewrite (RemoveModel_known _ _ _ Hknown).
  unfold ModelManager.GetModel, ModelManager.GetModelConfig,
    ModelManager.GetDefaultModelName, ModelManager.GetDefaultModel.
  cbn [ModelManager.models ModelManager.configs ModelManager.defaultModel].
  rewrite !gomap_lookup_delete_eq.
  split; [reflexivity | split; [reflexivity | split; [|split; [reflexivity|]]]].
  - intros other Hne. rewrite !gomap_lookup_delete_ne by congruence. now split.
  - intros Hd Hne. rewrite Hd.
    destruct (String.eqb_spec name EmptyString); [contradiction|].
    now rewrite gomap_lookup_delete_eq.
Qed.

(** X16.  The models follow the configurations.  When every model of a
    manager is the one the factory builds from the configuration of the same
    name, and there is no other model, this is still so after [AddModel],
    [RemoveModel], [SetDefaultModel] and [UpdateModelConfig], whatever they
    are called with and whether or not the file could be written; and then
    [GetModel] finds a name exactly when [GetModelConfig] does. *)
Theorem manager_keeps_models_built (m : ModelManager.t) (w : World) :
  models_built Map_unicode_ToLower m ->
  (forall name url apiKey defaultEnabled chatOptions,
     let '(_, m', _) :=
       ModelManager.AddModel Map_unicode_ToLower World yaml_Marshal os_WriteFile
         name url apiKey defaultEnabled chatOptions m w in
     models_built Map_unicode_ToLower m')
  /\ (forall name,
        let '(_, m', _) :=
          ModelManager.RemoveModel World yaml_Marshal os_WriteFile name m w in
        models_built Map_unicode_ToLower m')
  /\ (forall name,
        let '(_, m', _) :=
          ModelManager.SetDefaultModel World yaml_Marshal os_WriteFile name m w in
        models_built Map_unicode_ToLower m')
  /\ (forall name config,
        let '(_, m', _) :=
          ModelManager.UpdateModelConfig Map_unicode_ToLower World yaml_Marshal
            os_WriteFile name config m w in
        models_built Map_unicode_ToLower m')
  /\ (forall name,
        fst (ModelManager.GetModel m name) = None
        <-> fst (ModelManager.GetModelConfig m name) = None).
Proof.
  intros H. split; [|split; [|split; [|split]]].
  - intros. destruct (gomap.lookup name (ModelManager.configs m)) eqn:E.
    + rewrite AddModel_known by congruence. exact H.
    + rewrite (AddModel_new _ _ _ _ _ _ _ _ _ _ _ E). now apply models_built_insert.
  - intros. destruct (gomap.lookup name (ModelManager.configs m)) eqn:E.
    + rewrite RemoveModel_known by congruence. now apply models_built_delete.
    + unfold ModelManager.RemoveModel. rewrite E. exact H.
  - intros. destruct (gomap.lookup name (ModelManager.configs m)) eqn:E.
    + rewrite SetDefaultModel_known by congruence. exact H.
    + unfold ModelManager.SetDefaultModel. rewrite E. exact H.
  - intros. destruct (gomap.lookup name (ModelManager.configs m)) eqn:E.
    + rewrite UpdateModelConfig_known by congruence. now apply models_built_insert.
    + unfold ModelManager.UpdateModelConfig. rewrite E. exact H.
  - intros name. now apply models_built_same_names.
Qed.

(** X17.  The choice of the default model is not written.  For two names
    the manager knows, [SetDefaultModel] returns the same error and leaves the
    same world whichever of the two it is given: the error and the world of
    [saveConfig] on the manager as it was; the configurations are
    unchanged. *)
Theorem SetDefaultModel_is_not_written
  (name name' : string) (m : ModelManager.t) (w : World) :
  gomap.lookup name (ModelManager.configs m) <> None ->
  gomap.lookup name' (ModelManager.configs m) <> None ->
  let '(err, m1, w1) :=
    ModelManager.SetDefaultModel World yaml_Marshal os_WriteFile name m w in
  let '(err', m2, w2) :=
    ModelManager.SetDefaultModel World yaml_Marshal os_WriteFile name' m w in
  ModelManager.GetDefaultModelName m1 = name
  /\ ModelManager.GetDefaultModelName m2 = name'
  /\ (err, w1) = (err', w2)
  /\ (err, w1) = ModelManager.saveConfig World yaml_Marshal os_WriteFile m w
  /\ ModelManager.ListModels m1 = ModelManager.ListModels m
  /\ ModelManager.ListModels m2 = ModelManager.ListModels m.
Proof.
  intros H H'.
  rewrite (SetDefaultModel_known _ _ _ H), (SetDefaultModel_known _ _ _ H').
  repeat split.
  now destruct (ModelManager.saveConfig World yaml_Marshal os_WriteFile m w).
Qed.

(** X18.  [UpdateModelConfig] stores what it is given under the name it
    is given: afterwards [GetModelConfig] returns the new configuration and
    [GetModel] the model the factory builds from it, which carries the name
    written in the configuration, not the name it is stored under; the name
    becomes the default when the configuration has the default flag, and a
    configuration without the flag leaves the default where it was. *)
Theorem UpdateModelConfig_stores_new_model
  (name : string) (config : ModelConfig.t) (m : ModelManager.t) (w : World) :
  gomap.lookup name (ModelManager.configs m) <> None ->
  let '(err, m', w') :=
    ModelManager.UpdateModelConfig Map_unicode_ToLower World yaml_Marshal os_WriteFile
      name config m w in
  ModelManager.GetModelConfig m' name = (Some config, None)
  /\ ModelManager.GetModel m' name
     = (Some (fst (CreateModel Map_unicode_ToLower config)), None)
  /\ Model.Name (fst (CreateModel Map_unicode_ToLower config)) = ModelConfig.Name config
  /\ ModelManager.GetDefaultModelName m'
     = (if ModelConfig.DefaultEnabled config then name
        else ModelManager.GetDefaultModelName m)
  /\ (forall other, other <> name ->
        ModelManager.GetModel m' other = ModelManager.GetModel m other
        /\ ModelManager.GetModelConfig m' other = ModelManager.GetModelConfig m other).
Proof.
  intros Hknown. rewrite (UpdateModelConfig_known _ _ _ _ Hknown).
  unfold ModelManager.GetModel, ModelManager.GetModelConfig,
    ModelManager.GetDefaultModelName.
  cbn [ModelManager.models ModelManager.configs ModelManager.defaultModel].
  rewrite !gomap_lookup_insert_eq.
  split; [reflexivity | split; [reflexivity | split; [apply CreateModel_Name | split]]].
  - reflexivity.
  - intros other Hne. rewrite !gomap_lookup_insert_ne by congruence. now split.
Qed.

End ManagerSteps.

(** The disk is full: the error is returned, and the model is there. *)
Lemma AddModel_registers_before_saving_witness :
  gomap.lookup "gpt-4" (ModelManager.configs emptyManager) = None
  /\ fst (fst (ModelManager.AddModel exampleToLower exampleWorld exampleYAML failingWriteFile
                 "gpt-4" "https://api.openai.com" "sk-test-0001" false None emptyManager []))
     = Some (ErrWriteConfigFile (io_failure "no space left on device"))
  /\ exists model,
       ModelManager.GetModel
         (snd (fst (ModelManager.AddModel exampleToLower exampleWorld exampleYAML
                      failingWriteFile "gpt-4" "https://api.openai.com" "sk-test-0001"
                      false None emptyManager [])))
         "gpt-4" = (Some model, None)
       /\ Model.Name model = "gpt-4".
Proof.
  assert (H : gomap.lookup "gpt-4" (ModelManager.configs emptyManager) = None)
    by reflexivity.
  split; [exact H | split; [reflexivity |]].
  exact (proj1 (AddModel_registers_before_saving exampleToLower exampleWorld exampleYAML
                  failingWriteFile "gpt-4" "https://api.openai.com" "sk-test-0001"
                  false None emptyManager [] H)).
Defined.

(** The first model added is the default; once it is removed, no default
    model is found, although another model is left. *)
Lemma RemoveModel_keeps_the_default_name_witness :
  gomap.lookup "gpt-4" (ModelManager.configs twoModels) <> None
  /\ ModelManager.GetDefaultModelName twoModels = "gpt-4"
  /\ ModelManager.GetDefaultModel
       (snd (fst (ModelManager.RemoveModel exampleWorld exampleYAML exampleWriteFile
                    "gpt-4" twoModels [])))
     = (None, Some ErrModelNotFound)
  /\ ModelManager.GetModel
       (snd (fst (ModelManager.RemoveModel exampleWorld exampleYAML exampleWriteFile
                    "gpt-4" twoModels [])))
       "claude-3"
     = ModelManager.GetModel twoModels "claude-3".
Proof.
  assert (H : gomap.lookup "gpt-4" (ModelManager.configs twoModels) <> None)
    by (vm_compute; discriminate).
  assert (Hd : ModelManager.GetDefaultModelName twoModels = "gpt-4")
    by (vm_compute; reflexivity).
  assert (Hne : "gpt-4" <> EmptyString) by discriminate.
  assert (Hother : "claude-3" <> "gpt-4") by discriminate.
  pose proof (RemoveModel_keeps_the_default_name exampleWorld exampleYAML exampleWriteFile
                "gpt-4" twoModels [] H) as T.
  split; [exact H | split; [exact Hd | split]].
  - exact (proj2 (proj2 (proj2 (proj2 T))) Hd Hne).
  - exact (proj1 (proj1 (proj2 (proj2 T)) "claude-3" Hother)).
Defined.

Lemma manager_keeps_models_built_witness :
  models_built exampleToLower emptyManager
  /\ forall name url apiKey defaultEnabled chatOptions,
       models_built exampleToLower
         (snd (fst (ModelManager.AddModel exampleToLower exampleWorld exampleYAML
                      failingWriteFile name url apiKey defaultEnabled chatOptions
                      emptyManager []))).
Proof.
  assert (H : models_built exampleToLower emptyManager) by (intros name; reflexivity).
  split; [exact H |].
  intros name url apiKey defaultEnabled chatOptions.
  pose proof (proj1 (manager_keeps_models_built exampleToLower exampleWorld exampleYAML
                       failingWriteFile emptyManager [] H)
                name url apiKey defaultEnabled chatOptions) as T.
  destruct (ModelManager.AddModel exampleToLower exampleWorld exampleYAML failingWriteFile
              name url apiKey defaultEnabled chatOptions emptyManager [])
    as [[err m'] w'].
  exact T.
Defined.

(** The file written is the same whichever model is made the default. *)
Lemma SetDefaultModel_is_not_written_witness :
  gomap.lookup "gpt-4" (ModelManager.configs twoModels) <> None
  /\ gomap.lookup "claude-3" (ModelManager.configs twoModels) <> None
  /\ snd (ModelManager.SetDefaultModel exampleWorld exampleYAML exampleWriteFile
            "gpt-4" twoModels [])
     = snd (ModelManager.SetDefaultModel exampleWorld exampleYAML exampleWriteFile
              "claude-3" twoModels []).
Proof.
  assert (H : gomap.lookup "gpt-4" (ModelManager.configs twoModels) <> None)
    by (vm_compute; discriminate).
  assert (H' : gomap.lookup "claude-3" (ModelManager.configs twoModels) <> None)
    by (vm_compute; discriminate).
  split; [exact H | split; [exact H' |]].
  exact (f_equal snd
           (proj1 (proj2 (proj2
              (SetDefaultModel_is_not_written exampleWorld exampleYAML exampleWriteFile
                 "gpt-4" "claude-3" twoModels [] H H'))))).
Defined.

(** The model stored under [gpt-4] is then the Anthropic stand-in, and
    calls itself [claude-3-haiku]. *)
Lemma UpdateModelConfig_stores_new_model_witness :
  gomap.lookup "gpt-4" (ModelManager.configs twoModels) <> None
  /\ ModelManager.GetModel
       (snd (fst (ModelManager.UpdateModelConfig exampleToLower exampleWorld exampleYAML
                    exampleWriteFile "gpt-4"
                    {| ModelConfig.Name := "claude-3-haiku";
                       ModelConfig.URL := "https://api.openai.com";
                       ModelConfig.APIKey := "sk-test-0001";
                       ModelConfig.DefaultEnabled := false;
                       ModelConfig.DefaultChatOptions := None |}
                    twoModels [])))
       "gpt-4"
     = (Some (fst (CreateModel exampleToLower
                     {| ModelConfig.Name := "claude-3-haiku";
                        ModelConfig.URL := "https://api.openai.com";
                        ModelConfig.APIKey := "sk-test-0001";
                        ModelConfig.DefaultEnabled := false;
                        ModelConfig.DefaultChatOptions := None |})), None)
  /\ Model.Name (fst (CreateModel exampleToLower
                        {| ModelConfig.Name := "claude-3-haiku";
                           ModelConfig.URL := "https://api.openai.com";
                           ModelConfig.APIKey := "sk-test-0001";
                           ModelConfig.DefaultEnabled := false;
                           ModelConfig.DefaultChatOptions := None |}))
     = "claude-3-haiku".
Proof.
  assert (H : gomap.lookup "gpt-4" (ModelManager.configs twoModels) <> None)
    by (vm_compute; discriminate).
  pose proof (UpdateModelConfig_stores_new_model exampleToLower exampleWorld exampleYAML
                exampleWriteFile "gpt-4"
                {| ModelConfig.Name := "claude-3-haiku";
                   ModelConfig.URL := "https://api.openai.com";
                   ModelConfig.APIKey := "sk-test-0001";
                   ModelConfig.DefaultEnabled := false;
                   ModelConfig.DefaultChatOptions := None |}
                twoModels [] H) as T.
  split; [exact H | split].
  - exact (proj1 (proj2 T)).
  - exact (proj1 (proj2 (proj2 T))).
Defined.

(** ** Package [util] *)

Lemma gomap_lookup_In (V : Type) (k : string) (v : V) (m : gomap.t V) :
  gomap.lookup k m = Some v -> In (k, v) m.
Proof.
  induction m as [|[k' v'] m IH]; simpl; [discriminate|].
  destruct (String.eqb_spec k' k) as [->|Hne].
  - intros H. inversion H. now left.
  - intros H. right. now apply IH.
Qed.

(** No extension of the table of text files is given the language SQL. *)
Lemma text_extension_language (ext : string) :
  gomap.lookup ext util.textExtensions = Some true ->
  match gomap.lookup ext util.langMap with None => "Text" | Some lang => lang end <> "SQL".
Proof.
  intros H. apply gomap_lookup_In in H. unfold util.textExtensions in H.
  repeat (destruct H as [H | H];
          [inversion H; subst ext; vm_compute; discriminate |]).
  contradiction.
Qed.

Section FileFacts.

Variable Map_unicode_ToLower : string -> string.
Variable os_Stat : string -> option error.
Variable os_IsNotExist : error -> bool.
Variable os_ReadFile : string -> result string.

(** A file that is not a text file by its extension is refused before the
    file system is asked. *)
Lemma ReadTextFile_unsupported (filename : string) :
  util.IsTextFile Map_unicode_ToLower filename = false ->
  util.ReadTextFile Map_unicode_ToLower os_Stat os_IsNotExist os_ReadFile filename
  = (EmptyString, Some (util.ErrUnsupportedFileType filename)).
Proof. intros H. unfold util.ReadTextFile. now rewrite H. Qed.

(** What a successful read is. *)
Lemma ReadTextFile_success (filename content : string) :
  util.ReadTextFile Map_unicode_ToLower os_Stat os_IsNotExist os_ReadFile filename
  = (content, None) ->
  util.IsTextFile Map_unicode_ToLower filename = true /\ os_ReadFile filename = Ok content.
Proof.
  unfold util.ReadTextFile.
  destruct (util.IsTextFile Map_unicode_ToLower filename); [|discriminate]. simpl.
  destruct (os_Stat filename) as [err|].
  - destruct (os_IsNotExist err); [discriminate|].
    destruct (os_ReadFile filename); [|discriminate]. intros H. inversion H. now split.
  - destruct (os_ReadFile filename); [|discriminate]. intros H. inversion H. now split.
Qed.

(** X19.  [GetFileInfo] never reports the language SQL.  When it
    succeeds, the file has an extension of the table of text files, the content
    is what [os.ReadFile] returned, the language is the one [detectLanguage]
    gives, and that language is not SQL: the entry [.sql] of the language
    table is out of reach, as [.sql] is not in the table of text files. *)
Theorem GetFileInfo_never_reports_SQL (filename content language : string) :
  util.GetFileInfo Map_unicode_ToLower os_Stat os_IsNotExist os_ReadFile filename
  = (content, language, None) ->
  util.IsTextFile Map_unicode_ToLower filename = true
  /\ os_ReadFile filename = Ok content
  /\ language = util.detectLanguage Map_unicode_ToLower filename
  /\ language <> "SQL".
Proof.
  unfold util.GetFileInfo.
  destruct (util.ReadTextFile Map_unicode_ToLower os_Stat os_IsNotExist os_ReadFile filename)
    as [c [err|]] eqn:E; [discriminate|].
  intros H. inversion H. subst c language.
  destruct (ReadTextFile_success _ _ E) as [Ht Hr].
  split; [exact Ht | split; [exact Hr | split; [reflexivity|]]].
  unfold util.detectLanguage. apply text_extension_language.
  unfold util.IsTextFile in Ht.
  destruct (gomap.lookup _ util.textExtensions) as [[|]|]; [reflexivity | discriminate..].
Qed.

End FileFacts.

Lemma GetFileInfo_never_reports_SQL_witness :
  util.GetFileInfo exampleToLower (fun _ => None) (fun _ => false)
    (fun _ => Ok "package main") "cmd/ai/Root.GO"
  = ("package main", "Go", None)
  /\ util.IsTextFile exampleToLower "cmd/ai/Root.GO" = true
  /\ "Go" = util.detectLanguage exampleToLower "cmd/ai/Root.GO"
  /\ "Go" <> "SQL".
Proof.
  assert (H : util.GetFileInfo exampleToLower (fun _ => None) (fun _ => false)
                (fun _ => Ok "package main") "cmd/ai/Root.GO"
              = ("package main", "Go", None)) by (vm_compute; reflexivity).
  pose proof (GetFileInfo_never_reports_SQL exampleToLower (fun _ => None)
                (fun _ => false) (fun _ => Ok "package main")
                "cmd/ai/Root.GO" "package main" "Go" H) as T.
  split; [exact H | split; [exact (proj1 T) | split]].
  - exact (proj1 (proj2 (proj2 T))).
  - exact (proj2 (proj2 (proj2 T))).
Defined.

(** ** Package [ai]: the helpers of the commands *)

Lemma length_drop (n : nat) (s : string) :
  String.length (drop n s) = (String.length s - n)%nat.
Proof.
  revert s. induction n as [|n IH]; intros s; [simpl; lia|].
  destruct s as [|c s]; [reflexivity|]. simpl. apply IH.
Qed.

Lemma length_Repeat_byte (c : ascii) (n : nat) :
  String.length (strings_Repeat (String c EmptyString) n) = n.
Proof. induction n as [|n IH]; simpl; [reflexivity | now rewrite IH]. Qed.

Lemma get_Repeat_byte (c : ascii) (n i : nat) :
  (i < n)%nat -> String.get i (strings_Repeat (String c EmptyString) n) = Some c.
Proof.
  revert i. induction n as [|n IH]; intros i H; [lia|].
  destruct i as [|i]; [reflexivity|]. simpl. apply IH. lia.
Qed.

Lemma get_take (n i : nat) (s : string) :
  (i < n)%nat -> String.get i (take n s) = String.get i s.
Proof.
  revert i s. induction n as [|n IH]; intros i s H; [lia|].
  destruct s as [|c s]; [reflexivity|].
  destruct i as [|i]; [reflexivity|]. simpl. apply IH. lia.
Qed.

Lemma get_drop (n i : nat) (s : string) :
  String.get i (drop n s) = String.get (n + i) s.
Proof.
  revert s. induction n as [|n IH]; intros s; [reflexivity|].
  destruct s as [|c s]; [now destruct i|]. simpl. apply IH.
Qed.

Lemma get_append_left (a b : string) (i : nat) :
  (i < String.length a)%nat -> String.get i (a ++ b) = String.get i a.
Proof. intros H. symmetry. now apply append_correct1. Qed.

Lemma get_append_right (a b : string) (i : nat) :
  (String.length a <= i)%nat -> String.get i (a ++ b) = String.get (i - String.length a) b.
Proof.
  intros H. rewrite (append_correct2 a b (i - String.length a)).
  f_equal. lia.
Qed.

Lemma take_append_length (n : nat) (a b : string) :
  String.length a = n -> take n (a ++ b) = a.
Proof. intros <-. apply take_append. Qed.

Lemma drop_append_length (n : nat) (a b : string) :
  String.length a = n -> drop n (a ++ b) = b.
Proof. intros <-. apply drop_append. Qed.

(** The key behind the mask, when it is longer than eight bytes. *)
Lemma maskAPIKey_long (apiKey : string) :
  (8 < String.length apiKey)%nat ->
  ai.maskAPIKey apiKey
  = take 4 apiKey ++ strings_Repeat "*" (String.length apiKey - 8)
    ++ drop (String.length apiKey - 4) apiKey.
Proof.
  intros H. unfold ai.maskAPIKey.
  destruct (Nat.leb_spec (String.length apiKey) 8); [lia | reflexivity].
Qed.

Lemma maskAPIKey_short (apiKey : string) :
  (String.length apiKey <= 8)%nat ->
  ai.maskAPIKey apiKey = strings_Repeat "*" (String.length apiKey).
Proof.
  intros H. unfold ai.maskAPIKey.
  destruct (Nat.leb_spec (String.length apiKey) 8); [reflexivity | lia].
Qed.

Lemma maskAPIKey_length (apiKey : string) :
  String.length (ai.maskAPIKey apiKey) = String.length apiKey.
Proof.
  destruct (Nat.leb_spec (String.length apiKey) 8) as [H|H].
  - rewrite (maskAPIKey_short _ H). apply length_Repeat_byte.
  - rewrite (maskAPIKey_long _ H).
    rewrite !length_append, length_take, length_Repeat_byte, length_drop. lia.
Qed.

(** X20.  The mask of a key has the length of the key and shows its ends
    only: of a key longer than eight bytes the first four and the last four
    bytes are shown and every byte between them is a star; of a shorter key
    every byte is a star.  Masking a mask changes nothing. *)
Theorem maskAPIKey_shows_the_ends_only (apiKey : string) :
  String.length (ai.maskAPIKey apiKey) = String.length apiKey
  /\ (forall i, (i < String.length apiKey)%nat ->
        String.get i (ai.maskAPIKey apiKey)
        = if (8 <? String.length apiKey)%nat
             && ((i <? 4)%nat || (String.length apiKey - 4 <=? i)%nat)
          then String.get i apiKey
          else Some "*"%char)
  /\ ai.maskAPIKey (ai.maskAPIKey apiKey) = ai.maskAPIKey apiKey.
Proof.
  split; [apply maskAPIKey_length | split].
  - intros i Hi.
    destruct (Nat.ltb_spec 8 (String.length apiKey)) as [H|H].
    + rewrite (maskAPIKey_long _ H). simpl andb.
      assert (Hp : String.length (take 4 apiKey) = 4%nat) by (rewrite length_take; lia).
      destruct (Nat.ltb_spec i 4) as [H4|H4].
      * simpl orb. rewrite get_append_left by lia. now apply get_take.
      * simpl orb. rewrite get_append_right by lia. rewrite Hp.
        destruct (Nat.leb_spec (String.length apiKey - 4) i) as [He|He].
        -- rewrite get_append_right by (rewrite length_Repeat_byte; lia).
           rewrite length_Repeat_byte, get_drop. f_equal. lia.
        -- rewrite get_append_left by (rewrite length_Repeat_byte; lia).
           apply get_Repeat_byte. lia.
    + rewrite (maskAPIKey_short _ H). simpl andb. apply get_Repeat_byte. exact Hi.
  - destruct (Nat.leb_spec (String.length apiKey) 8) as [H|H].
    + rewrite (maskAPIKey_short (ai.maskAPIKey apiKey)) by (rewrite maskAPIKey_length; lia).
      rewrite maskAPIKey_length. symmetry. now apply maskAPIKey_short.
    + rewrite (maskAPIKey_long (ai.maskAPIKey apiKey)) by (rewrite maskAPIKey_length; lia).
      rewrite maskAPIKey_length, (maskAPIKey_long _ H).
      set (p := take 4 apiKey).
      set (stars := strings_Repeat "*" (String.length apiKey - 8)).
      set (q := drop (String.length apiKey - 4) apiKey).
      assert (Hp : String.length p = 4%nat) by (subst p; rewrite length_take; lia).
      assert (Hs : String.length stars = (String.length apiKey - 8)%nat)
        by (subst stars; apply length_Repeat_byte).
      rewrite (take_append_length 4 p (stars ++ q) Hp).
      rewrite <- (append_assoc p stars q) at 1.
      rewrite (drop_append_length (String.length apiKey - 4) (p ++ stars) q)
        by (rewrite length_append; lia).
      reflexivity.
Qed.

(** X21.  [truncateString] keeps a text within the width: for a width of
    three or more the result has at most that many bytes; a text that fits is
    returned as it is, and a longer one is cut to the width, its last three
    bytes replaced by dots.  Truncating twice is truncating once. *)
Theorem truncateString_keeps_the_width (maxLen : Z) (str : string) :
  (3 <= maxLen)%Z ->
  exists r,
    ai.truncateString maxLen str = Some r
    /\ (Z.of_nat (String.length r) <= maxLen)%Z
    /\ ((Z.of_nat (String.length str) <= maxLen)%Z -> r = str)
    /\ ((maxLen < Z.of_nat (String.length str))%Z ->
        r = take (Z.to_nat (maxLen - 3)) str ++ "..."
        /\ Z.of_nat (String.length r) = maxLen)
    /\ ai.truncateString maxLen r = Some r.
Proof.
  intros H3. unfold ai.truncateString at 1.
  destruct (Z.leb_spec (Z.of_nat (String.length str)) maxLen) as [H|H].
  - exists str. split; [reflexivity | split; [exact H | split; [reflexivity | split]]].
    + lia.
    + unfold ai.truncateString. destruct (Z.leb_spec (Z.of_nat (String.length str)) maxLen);
        [reflexivity | lia].
  - destruct (Z.ltb_spec (maxLen - 3) 0) as [H0|H0]; [lia|].
    assert (Hlen : Z.of_nat (String.length (take (Z.to_nat (maxLen - 3)) str ++ "..."))
                   = maxLen).
    { rewrite length_append, length_take. simpl String.length. lia. }
    eexists. split; [reflexivity | split; [lia | split; [lia | split]]].
    + intros _. split; [reflexivity | exact Hlen].
    + unfold ai.truncateString. rewrite Hlen.
      destruct (Z.leb_spec maxLen maxLen); [reflexivity | lia].
Qed.

(** The width of the column of the keys in the table of the models. *)
Lemma truncateString_keeps_the_width_witness :
  (3 <= 20)%Z
  /\ exists r,
       ai.truncateString 20 "sk-p**************************wxyz" = Some r
       /\ (Z.of_nat (String.length r) <= 20)%Z
       /\ ((Z.of_nat (String.length "sk-p**************************wxyz") <= 20)%Z ->
           r = "sk-p**************************wxyz")
       /\ ((20 < Z.of_nat (String.length "sk-p**************************wxyz"))%Z ->
           r = take (Z.to_nat (20 - 3)) "sk-p**************************wxyz" ++ "..."
           /\ Z.of_nat (String.length r) = 20%Z)
       /\ ai.truncateString 20 r = Some r.
Proof.
  assert (H : (3 <= 20)%Z) by lia.
  split; [exact H |].
  exact (truncateString_keeps_the_width 20 "sk-p**************************wxyz" H).
Defined.

(** ** Package [ai]: the root command and [askWithFile] *)

Section CommandFacts.

Variable Error : error -> string.
Variable client_Chat : OpenAIClient.t -> list Message.t -> ChatOptions.t -> string * option error.
Variable World : Type.
Variable time_Now : World -> Z * World.
Variable filepath_Join : list string -> string.
Variable os_MkdirAll : string -> World -> option error * World.
Variable os_ReadFile : string -> World -> result string.
Variable os_WriteFile : string -> string -> World -> option error * World.
Variable json_MarshalIndent : option history.Session -> result string.
Variable json_Unmarshal : string -> history.Session -> result history.Session.
Variable generateSessionID : World -> string * World.

Local Abbreviation Run :=
  (ai.Run Error client_Chat World time_Now filepath_Join os_WriteFile json_MarshalIndent).
Local Abbreviation NewManager :=
  (history.NewManager World time_Now filepath_Join os_MkdirAll os_ReadFile os_WriteFile
     json_MarshalIndent json_Unmarshal generateSessionID).
Local Abbreviation AddUserMessage :=
  (history.AddUserMessage World time_Now filepath_Join os_WriteFile json_MarshalIndent).
Local Abbreviation AddAssistantMessage :=
  (history.AddAssistantMessage World time_Now filepath_Join os_WriteFile json_MarshalIndent).

(** The two methods that add a message append it to the current session
    and keep the rest of the session. *)
Lemma AddUserMessage_appends (content : string) (m : history.Manager)
  (session : history.Session) (w : World) :
  history.currentSession m = Some session ->
  exists t t' w',
    AddUserMessage content m w
    = Some ({| history.currentSession :=
                 Some {| history.ID := history.ID session;
                         history.Messages :=
                           (history.Messages session
                            ++ [ {| history.Role := "user"; history.Content := content;
                                    history.Timestamp := t |} ])%list;
                         history.CreatedAt := history.CreatedAt session;
                         history.UpdatedAt := t' |};
               history.storagePath := history.storagePath m |}, w').
Proof.
  intros H. unfold history.AddUserMessage. rewrite H.
  destruct (time_Now w) as [t w1]. destruct (time_Now w1) as [t' w2].
  destruct (history.saveCurrentSession _ _ _ _ _ w2) as [e3 w3].
  destruct (history.saveSessionToFile _ _ _ _ _ _ w3) as [e4 w4].
  now exists t, t', w4.
Qed.

Lemma AddAssistantMessage_appends (content : string) (m : history.Manager)
  (session : history.Session) (w : World) :
  history.currentSession m = Some session ->
  exists t t' w',
    AddAssistantMessage content m w
    = Some ({| history.currentSession :=
                 Some {| history.ID := history.ID session;
                         history.Messages :=
                           (history.Messages session
                            ++ [ {| history.Role := "assistant"; history.Content := content;
                                    history.Timestamp := t |} ])%list;
                         history.CreatedAt := history.CreatedAt session;
                         history.UpdatedAt := t' |};
               history.storagePath := history.storagePath m |}, w').
Proof.
  intros H. unfold history.AddAssistantMessage. rewrite H.
  destruct (time_Now w) as [t w1]. destruct (time_Now w1) as [t' w2].
  destruct (history.saveCurrentSession _ _ _ _ _ w2) as [e3 w3].
  destruct (history.saveSessionToFile _ _ _ _ _ _ w3) as [e4 w4].
  now exists t, t', w4.
Qed.

(** A manager that [NewManager] returns has a current session. *)
Lemma NewManager_has_session (storagePath : string) (w w' : World)
  (m : history.Manager) (err : option error) :
  NewManager storagePath w = (Some m, err, w') ->
  exists session, history.currentSession m = Some session.
Proof.
  unfold history.NewManager.
  destruct (os_MkdirAll storagePath w) as [[e1|] w1]; [discriminate|].
  destruct (os_MkdirAll (filepath_Join [storagePath; "sessions"]) w1) as [[e2|] w2];
    [discriminate|].
  unfold history.loadCurrentSession. cbn [history.storagePath].
  destruct (os_ReadFile _ w2) as [data|e3].
  - destruct (json_Unmarshal data history.zeroSession) as [session|e4].
    + intros H. inversion H. now exists session.
    + unfold history.New. destruct (generateSessionID w2) as [id w3].
      destruct (time_Now w3) as [t w4]. destruct (time_Now w4) as [t' w5].
      destruct (history.saveCurrentSession _ _ _ _ _ w5) as [e5 w6].
      intros H. inversion H. eexists. reflexivity.
  - unfold history.New. destruct (generateSessionID w2) as [id w3].
    destruct (time_Now w3) as [t w4]. destruct (time_Now w4) as [t' w5].
    destruct (history.saveCurrentSession _ _ _ _ _ w5) as [e5 w6].
    intros H. inversion H. eexists. reflexivity.
Qed.

(** [GetDefaultModel] returns a model or an error. *)
Lemma GetDefaultModel_cases (mm : ModelManager.t) :
  (exists model, ModelManager.GetDefaultModel mm = (Some model, None))
  \/ (exists err, ModelManager.GetDefaultModel mm = (None, Some err)).
Proof.
  unfold ModelManager.GetDefaultModel.
  destruct (String.eqb (ModelManager.defaultModel mm) EmptyString); [right; eauto|].
  destruct (gomap.lookup _ (ModelManager.models mm)); [left | right]; eauto.
Qed.

(** What [Chat] of an OpenAI model hands the transport when it is given
    the history [h] as its one option, or no option and [h] is empty. *)
Lemma OpenAIModel_Chat_history (m : OpenAIModel.t) (question : string)
  (h : list Message.t) :
  OpenAIModel.Chat client_Chat m question [WithHistory h]
  = client_Chat (clientOf m) (h ++ [userMessage question])%list
      (WithHistory h DefaultChatOptions)
  /\ OpenAIModel.Chat client_Chat m question []
     = client_Chat (clientOf m) [userMessage question] (WithHistory [] DefaultChatOptions).
Proof.
  split; [|reflexivity].
  unfold OpenAIModel.Chat. simpl. now destruct h.
Qed.

(** What [Run] gives the model as options. *)
Lemma Run_with_session (question : string) (noHistory : bool) (mm : ModelManager.t)
  (model : Model.t) (hm : history.Manager) (session : history.Session) (w : World) :
  ModelManager.GetDefaultModel mm = (Some model, None) ->
  history.currentSession hm = Some session ->
  Run question noHistory mm (Some hm) w
  = match Model.Chat client_Chat model question
            (if noHistory then []
             else match history.Messages session with
                  | [] => []
                  | _ => [WithHistory (ai.convertToModelMessages (history.Messages session))]
                  end) with
    | (_, Some err) => Some (Some hm, w, "Error: " ++ Error err ++ NL)
    | (response, None) =>
        match AddUserMessage question hm w with
        | None => None
        | Some (hm, w) =>
            match AddAssistantMessage response hm w with
            | None => None
            | Some (hm, w) => Some (Some hm, w, EmptyString)
            end
        end
    end.
Proof.
  intros Hd Hs. unfold ai.Run. rewrite Hd.
  unfold history.IsEmpty, history.GetMessages. rewrite Hs.
  destruct noHistory; [reflexivity|]. cbn [negb].
  now destruct (history.Messages session).
Qed.

(** X22.  A question to an OpenAI model is sent after the conversation,
    and the exchange is recorded only when the answer comes without an error.
    With a current session, [Run] calls the transport once, with the messages
    of the session in their order followed by the question as a message of
    role [user] (the question alone under [--no-history]) and with the global
    default options.  When the transport returns an error, [Run] reports it
    and leaves the history and the world as they were, whatever text came with
    the error.  When it returns an answer, the session afterwards holds its
    earlier messages followed by the question and the answer, under
    [--no-history] too, and keeps its identifier. *)
Theorem Run_sends_history_and_records_exchange
  (question : string) (noHistory : bool) (mm : ModelManager.t) (m : OpenAIModel.t)
  (hm : history.Manager) (session : history.Session) (w : World) :
  ModelManager.GetDefaultModel mm = (Some (Model.OpenAI m), None) ->
  history.currentSession hm = Some session ->
  let sent :=
    if noHistory then [] else ai.convertToModelMessages (history.Messages session) in
  match client_Chat (clientOf m) (sent ++ [userMessage question])%list
          (WithHistory sent DefaultChatOptions) with
  | (_, Some err) =>
      Run question noHistory mm (Some hm) w
      = Some (Some hm, w, "Error: " ++ Error err ++ NL)
  | (response, None) =>
      exists hm' w',
        Run question noHistory mm (Some hm) w = Some (Some hm', w', EmptyString)
        /\ option_map ai.convertToModelMessages (history.GetMessages hm')
           = Some (ai.convertToModelMessages (history.Messages session)
                   ++ [userMessage question; assistantMessage response])%list
        /\ history.GetCurrentSessionID hm' = history.GetCurrentSessionID hm
  end.
Proof.
  intros Hd Hs sent. rewrite (Run_with_session _ _ _ _ _ _ _ Hd Hs).
  cbn [Model.Chat].
  assert (Hchat :
    OpenAIModel.Chat client_Chat m question
      (if noHistory then []
       else match history.Messages session with
            | [] => []
            | _ => [WithHistory (ai.convertToModelMessages (history.Messages session))]
            end)
    = client_Chat (clientOf m) (sent ++ [userMessage question])%list
        (WithHistory sent DefaultChatOptions)).
  { subst sent. destruct noHistory.
    - apply (proj2 (OpenAIModel_Chat_history m question [])).
    - destruct (history.Messages session) as [|x l].
      + apply (proj2 (OpenAIModel_Chat_history m question [])).
      + apply (proj1 (OpenAIModel_Chat_history m question _)). }
  rewrite Hchat.
  destruct (client_Chat (clientOf m) (sent ++ [userMessage question])%list
              (WithHistory sent DefaultChatOptions)) as [response [err|]]; [reflexivity|].
  destruct (AddUserMessage_appends question hm session w Hs) as (t1 & t1' & w1 & H1).
  rewrite H1.
  match type of H1 with
  | _ = Some (?hm1, _) =>
      destruct (AddAssistantMessage_appends response hm1 _ w1 eq_refl)
        as (t2 & t2' & w2 & H2)
  end.
  rewrite H2. eexists. eexists. split; [reflexivity|].
  unfold history.GetMessages, history.GetCurrentSessionID, ai.convertToModelMessages.
  cbn -[map]. rewrite Hs. split; [|reflexivity].
  rewrite <- app_assoc, map_app. reflexivity.
Qed.

(** X23.  Without a history manager a question is not answered.  When
    [history.NewManager] returned no manager at the start of the program and
    there is a default model, [Run] panics: before anything is sent when the
    history is wanted, and under [--no-history] after the answer has been
    received, so that the answer is lost. *)
Theorem Run_panics_without_history_manager
  (storagePath question : string) (w0 w1 w : World) (err : option error)
  (mm : ModelManager.t) (model : Model.t) :
  NewManager storagePath w0 = (None, err, w1) ->
  ModelManager.GetDefaultModel mm = (Some model, None) ->
  Run question false mm (fst (fst (NewManager storagePath w0))) w = None
  /\ forall response,
       Model.Chat client_Chat model question [] = (response, None) ->
       Run question true mm (fst (fst (NewManager storagePath w0))) w = None.
Proof.
  intros Hn Hd. rewrite Hn. cbn [fst]. unfold ai.Run. rewrite Hd. cbn [negb].
  split; [reflexivity|]. intros response Hc. now rewrite Hc.
Qed.

(** X24.  With the history manager that [history.NewManager] returned,
    [Run] does not panic, whatever the question, the flag, the models, the
    transport and the world are. *)
Theorem Run_returns_with_history_manager
  (storagePath question : string) (w0 w1 w : World) (err : option error)
  (hm : history.Manager) (noHistory : bool) (mm : ModelManager.t) :
  NewManager storagePath w0 = (Some hm, err, w1) ->
  exists r, Run question noHistory mm (Some hm) w = Some r.
Proof.
  intros Hn. destruct (NewManager_has_session _ _ _ _ _ Hn) as [session Hs].
  destruct (GetDefaultModel_cases mm) as [[model Hd] | [e Hd]].
  - rewrite (Run_with_session _ _ _ _ _ _ _ Hd Hs).
    destruct (Model.Chat client_Chat model question _) as [response [e|]]; [eauto|].
    destruct (AddUserMessage_appends question hm session w Hs) as (t1 & t1' & w1' & H1).
    rewrite H1.
    match type of H1 with
    | _ = Some (?hm1, _) =>
        destruct (AddAssistantMessage_appends response hm1 _ w1' eq_refl)
          as (t2 & t2' & w2 & H2)
    end.
    rewrite H2. eauto.
  - unfold ai.Run. rewrite Hd. eauto.
Qed.

(** X30.  A new session starts the conversation afresh.  After
    [history.New], which the command [ai new] calls, the manager has a current
    session without messages, whatever it held before; a question to an
    OpenAI default model is then sent alone, as the one message of role
    [user], with the global default options; and when the answer comes
    without an error the session holds the question and the answer and nothing
    else. *)
Theorem new_session_starts_afresh
  (question : string) (noHistory : bool) (mm : ModelManager.t) (m : OpenAIModel.t)
  (hm : history.Manager) (w w1 : World) :
  ModelManager.GetDefaultModel mm = (Some (Model.OpenAI m), None) ->
  let '(hm', _) :=
    history.New World time_Now filepath_Join os_WriteFile json_MarshalIndent
      generateSessionID hm w in
  history.IsEmpty hm' = true
  /\ history.GetMessages hm' = Some []
  /\ match client_Chat (clientOf m) [userMessage question] DefaultChatOptions with
     | (_, Some err) =>
         Run question noHistory mm (Some hm') w1
         = Some (Some hm', w1, "Error: " ++ Error err ++ NL)
     | (response, None) =>
         exists hm'' w2,
           Run question noHistory mm (Some hm') w1 = Some (Some hm'', w2, EmptyString)
           /\ option_map ai.convertToModelMessages (history.GetMessages hm'')
              = Some [userMessage question; assistantMessage response]
     end.
Proof.
  intros Hd. unfold history.New.
  destruct (generateSessionID w) as [id w2]. destruct (time_Now w2) as [t w3].
  destruct (time_Now w3) as [t' w4].
  destruct (history.saveCurrentSession _ _ _ _ _ w4) as [e w5].
  match goal with
  | |- history.IsEmpty ?h = true /\ _ => set (hm' := h)
  end.
  split; [reflexivity | split; [reflexivity|]].
  rewrite (Run_with_session question noHistory mm _ hm' _ w1 Hd eq_refl).
  cbn [Model.Chat history.Messages].
  assert (Hchat : OpenAIModel.Chat client_Chat m question (if noHistory then [] else [])
                  = client_Chat (clientOf m) [userMessage question] DefaultChatOptions).
  { destruct noHistory; apply (proj2 (OpenAIModel_Chat_history m question [])). }
  rewrite Hchat.
  destruct (client_Chat (clientOf m) [userMessage question] DefaultChatOptions)
    as [response [err|]]; [reflexivity|].
  destruct (AddUserMessage_appends question hm' _ w1 eq_refl) as (t1 & t1' & w6 & H1).
  rewrite H1.
  match type of H1 with
  | _ = Some (?hm1, _) =>
      destruct (AddAssistantMessage_appends response hm1 _ w6 eq_refl)
        as (t2 & t2' & w7 & H2)
  end.
  rewrite H2. eexists. eexists. split; reflexivity.
Qed.

Variable Map_unicode_ToLower : string -> string.
Variable os_Stat : string -> option error.
Variable os_IsNotExist : error -> bool.
Variable util_ReadFile : string -> result string.

Local Abbreviation askWithFile :=
  (ai.askWithFile Error client_Chat Map_unicode_ToLower os_Stat os_IsNotExist util_ReadFile).
Local Abbreviation GetFileInfo :=
  (util.GetFileInfo Map_unicode_ToLower os_Stat os_IsNotExist util_ReadFile).

(** X25.  A file that is not a text file by its extension is not read and
    not sent: [askWithFile] writes that the type is not supported to the
    standard error and nothing to the standard output, whatever the file
    system holds, whatever the models are and whatever the transport would
    answer. *)
Theorem askWithFile_refuses_other_files
  (filePath question : string) (mm : ModelManager.t) :
  util.IsTextFile Map_unicode_ToLower filePath = false ->
  askWithFile filePath question mm
  = Some (EmptyString,
          "Failed to read file: unsupported file type: " ++ filePath ++ NL).
Proof.
  intros H. unfold ai.askWithFile, util.GetFileInfo.
  rewrite (ReadTextFile_unsupported _ _ _ _ _ H). reflexivity.
Qed.


End CommandFacts.

(** A question in the middle of a conversation, answered by the stream of
    the tests. *)
Lemma Run_sends_history_and_records_exchange_witness :
  ModelManager.GetDefaultModel twoModels = (Some (Model.OpenAI gpt4Model), None)
  /\ history.currentSession exampleHistory
     = Some {| history.ID := "20250301-101500-abcdef";
               history.Messages :=
                 [ {| history.Role := "user"; history.Content := "earlier question";
                      history.Timestamp := 1 |};
                   {| history.Role := "assistant"; history.Content := "earlier answer";
                      history.Timestamp := 2 |} ];
               history.CreatedAt := 1;
               history.UpdatedAt := 2 |}
  /\ exists hm' w',
       ai.Run exampleError (exampleChat 200 sseResponse) exampleWorld exampleNow
         exampleJoin exampleWriteFile exampleMarshalIndent
         "next question" false twoModels (Some exampleHistory) []
       = Some (Some hm', w', EmptyString)
       /\ option_map ai.convertToModelMessages (history.GetMessages hm')
          = Some [ userMessage "earlier question"; assistantMessage "earlier answer";
                   userMessage "next question"; assistantMessage "这是一个流式响应测试" ]
       /\ history.GetCurrentSessionID hm' = "20250301-101500-abcdef".
Proof.
  assert (H1 : ModelManager.GetDefaultModel twoModels
               = (Some (Model.OpenAI gpt4Model), None)) by (vm_compute; reflexivity).
  assert (H2 : history.currentSession exampleHistory
               = Some {| history.ID := "20250301-101500-abcdef";
                         history.Messages :=
                           [ {| history.Role := "user";
                                history.Content := "earlier question";
                                history.Timestamp := 1 |};
                             {| history.Role := "assistant";
                                history.Content := "earlier answer";
                                history.Timestamp := 2 |} ];
                         history.CreatedAt := 1;
                         history.UpdatedAt := 2 |}) by reflexivity.
  split; [exact H1 | split; [exact H2 |]].
  pose proof (Run_sends_history_and_records_exchange exampleError
                (exampleChat 200 sseResponse) exampleWorld exampleNow exampleJoin
                exampleWriteFile exampleMarshalIndent
                "next question" false twoModels gpt4Model exampleHistory _ [] H1 H2) as T.
  exact T.
Defined.

(** The directory of the history cannot be made. *)
Lemma Run_panics_without_history_manager_witness :
  history.NewManager exampleWorld exampleNow exampleJoin failingMkdirAll missingFile
    exampleWriteFile exampleMarshalIndent exampleUnmarshalSession exampleSessionID
    "/home/user/.ai/history" []
  = (None, Some (io_failure "permission denied"), [])
  /\ ModelManager.GetDefaultModel twoModels = (Some (Model.OpenAI gpt4Model), None)
  /\ ai.Run exampleError (exampleChat 200 sseResponse) exampleWorld exampleNow
       exampleJoin exampleWriteFile exampleMarshalIndent
       "question" false twoModels
       (fst (fst (history.NewManager exampleWorld exampleNow exampleJoin failingMkdirAll
                    missingFile exampleWriteFile exampleMarshalIndent
                    exampleUnmarshalSession exampleSessionID
                    "/home/user/.ai/history" [])))
       []
     = None
  /\ ai.Run exampleError (exampleChat 200 sseResponse) exampleWorld exampleNow
       exampleJoin exampleWriteFile exampleMarshalIndent
       "question" true twoModels
       (fst (fst (history.NewManager exampleWorld exampleNow exampleJoin failingMkdirAll
                    missingFile exampleWriteFile exampleMarshalIndent
                    exampleUnmarshalSession exampleSessionID
                    "/home/user/.ai/history" [])))
       []
     = None.
Proof.
  assert (H1 : history.NewManager exampleWorld exampleNow exampleJoin failingMkdirAll
                 missingFile exampleWriteFile exampleMarshalIndent exampleUnmarshalSession
                 exampleSessionID "/home/user/.ai/history" []
               = (None, Some (io_failure "permission denied"), [])) by reflexivity.
  assert (H2 : ModelManager.GetDefaultModel twoModels
               = (Some (Model.OpenAI gpt4Model), None)) by (vm_compute; reflexivity).
  assert (H3 : Model.Chat (exampleChat 200 sseResponse) (Model.OpenAI gpt4Model)
                 "question" []
               = ("这是一个流式响应测试", None)) by (vm_compute; reflexivity).
  pose proof (Run_panics_without_history_manager exampleError
                (exampleChat 200 sseResponse) exampleWorld exampleNow exampleJoin
                failingMkdirAll missingFile exampleWriteFile exampleMarshalIndent
                exampleUnmarshalSession exampleSessionID
                "/home/user/.ai/history" "question" [] [] []
                (Some (io_failure "permission denied")) twoModels
                (Model.OpenAI gpt4Model) H1 H2) as T.
  split; [exact H1 | split; [exact H2 | split]].
  - exact (proj1 T).
  - exact (proj2 T _ H3).
Defined.

(** The first start of the program: no session is stored, and a new one
    is made. *)
Lemma Run_returns_with_history_manager_witness :
  history.NewManager exampleWorld exampleNow exampleJoin exampleMkdirAll missingFile
    exampleWriteFile exampleMarshalIndent exampleUnmarshalSession exampleSessionID
    "/home/user/.ai/history" []
  = (Some {| history.currentSession :=
               Some {| history.ID := "20250301-101500-abcdef";
                       history.Messages := [];
                       history.CreatedAt := 0;
                       history.UpdatedAt := 0 |};
             history.storagePath := "/home/user/.ai/history" |},
     None,
     [ ("/home/user/.ai/history/current_session.json",
        jq "{'id': '20250301-101500-abcdef'}") ])
  /\ exists r,
       ai.Run exampleError (exampleChat 200 sseResponse) exampleWorld exampleNow
         exampleJoin exampleWriteFile exampleMarshalIndent
         "question" false twoModels
         (Some {| history.currentSession :=
                    Some {| history.ID := "20250301-101500-abcdef";
                            history.Messages := [];
                            history.CreatedAt := 0;
                            history.UpdatedAt := 0 |};
                  history.storagePath := "/home/user/.ai/history" |})
         []
       = Some r.
Proof.
  assert (H : history.NewManager exampleWorld exampleNow exampleJoin exampleMkdirAll
                missingFile exampleWriteFile exampleMarshalIndent exampleUnmarshalSession
                exampleSessionID "/home/user/.ai/history" []
              = (Some {| history.currentSession :=
                           Some {| history.ID := "20250301-101500-abcdef";
                                   history.Messages := [];
                                   history.CreatedAt := 0;
                                   history.UpdatedAt := 0 |};
                         history.storagePath := "/home/user/.ai/history" |},
                 None,
                 [ ("/home/user/.ai/history/current_session.json",
                    jq "{'id': '20250301-101500-abcdef'}") ]))
    by (vm_compute; reflexivity).
  split; [exact H |].
  exact (Run_returns_with_history_manager exampleError (exampleChat 200 sseResponse)
           exampleWorld exampleNow exampleJoin exampleMkdirAll missingFile
           exampleWriteFile exampleMarshalIndent exampleUnmarshalSession exampleSessionID
           "/home/user/.ai/history" "question" [] _ [] None _ false twoModels H).
Defined.

(** A file of SQL is not a text file for the program. *)
Lemma askWithFile_refuses_other_files_witness :
  util.IsTextFile exampleToLower "db/schema.sql" = false
  /\ ai.askWithFile exampleError (exampleChat 200 sseResponse) exampleToLower
       exampleStat exampleIsNotExist exampleReadFile
       "db/schema.sql" "what does it do" twoModels
     = Some (EmptyString,
             "Failed to read file: unsupported file type: db/schema.sql" ++ NL).
Proof.
  assert (H : util.IsTextFile exampleToLower "db/schema.sql" = false)
    by (vm_compute; reflexivity).
  split; [exact H |].
  exact (askWithFile_refuses_other_files exampleError (exampleChat 200 sseResponse)
           exampleToLower exampleStat exampleIsNotExist exampleReadFile
           "db/schema.sql" "what does it do" twoModels H).
Defined.


(** A new session in the middle of a conversation. *)
Lemma new_session_starts_afresh_witness :
  ModelManager.GetDefaultModel twoModels = (Some (Model.OpenAI gpt4Model), None)
  /\ history.IsEmpty exampleHistory = false
  /\ history.IsEmpty
       (fst (history.New exampleWorld exampleNow exampleJoin exampleWriteFile
               exampleMarshalIndent exampleSessionID exampleHistory []))
     = true
  /\ exists hm'' w2,
       ai.Run exampleError (exampleChat 200 sseResponse) exampleWorld exampleNow
         exampleJoin exampleWriteFile exampleMarshalIndent
         "next question" false twoModels
         (Some (fst (history.New exampleWorld exampleNow exampleJoin exampleWriteFile
                       exampleMarshalIndent exampleSessionID exampleHistory [])))
         []
       = Some (Some hm'', w2, EmptyString)
       /\ option_map ai.convertToModelMessages (history.GetMessages hm'')
          = Some [userMessage "next question"; assistantMessage "这是一个流式响应测试"].
Proof.
  assert (H : ModelManager.GetDefaultModel twoModels
              = (Some (Model.OpenAI gpt4Model), None)) by (vm_compute; reflexivity).
  pose proof (new_session_starts_afresh exampleError (exampleChat 200 sseResponse)
                exampleWorld exampleNow exampleJoin exampleWriteFile exampleMarshalIndent
                exampleSessionID "next question" false twoModels gpt4Model
                exampleHistory [] [] H) as T.
  split; [exact H | split; [reflexivity | split]].
  - exact (proj1 T).
  - exact (proj2 (proj2 T)).
Defined.

(** ** The start of the model manager *)

Section MapOrder.

Variable V : Type.

Lemma gomap_In_lookup (k : string) (v : V) (m : gomap.t V) :
  gomap.wf m -> In (k, v) m -> gomap.lookup k m = Some v.
Proof.
  unfold gomap.wf, gomap.keys.
  induction m as [|[k' v'] m IH]; simpl; [contradiction|].
  intros Hnd Hin. inversion Hnd as [|? ? Hnot Hnd']; subst.
  destruct Hin as [Heq | Hin].
  - inversion Heq; subst. now rewrite String.eqb_refl.
  - destruct (String.eqb_spec k' k) as [->|Hne]; [|now apply IH].
    exfalso. apply Hnot. change k with (fst (k, v)). now apply in_map.
Qed.

(** Two maps with distinct keys and the same entries are read alike. *)
Lemma gomap_lookup_same_entries (a b : gomap.t V) (k : string) :
  gomap.wf a -> gomap.wf b -> (forall entry, In entry a <-> In entry b) ->
  gomap.lookup k a = gomap.lookup k b.
Proof.
  intros Ha Hb Hab.
  destruct (gomap.lookup k a) as [v|] eqn:Ea.
  - symmetry. apply gomap_In_lookup; [exact Hb|]. apply Hab. now apply gomap_lookup_In.
  - destruct (gomap.lookup k b) as [v|] eqn:Eb; [|reflexivity].
    apply gomap_lookup_In, Hab, (gomap_In_lookup _ _ _ Ha) in Eb. congruence.
Qed.

Lemma gomap_lookup_app (a b : gomap.t V) (k : string) :
  gomap.lookup k (a ++ b)%list
  = match gomap.lookup k a with Some v => Some v | None => gomap.lookup k b end.
Proof.
  induction a as [|[k' v'] a IH]; simpl; [reflexivity|].
  now destruct (String.eqb k' k).
Qed.

Lemma gomap_wf_rev (m : gomap.t V) : gomap.wf m -> gomap.wf (rev m).
Proof.
  unfold gomap.wf, gomap.keys. intros H. rewrite map_rev. now apply NoDup_rev.
Qed.

Lemma gomap_lookup_rev (m : gomap.t V) (k : string) :
  gomap.wf m -> gomap.lookup k (rev m) = gomap.lookup k m.
Proof.
  intros H. apply gomap_lookup_same_entries; [now apply gomap_wf_rev | exact H |].
  intros entry. symmetry. apply in_rev.
Qed.

End MapOrder.

(** [NewModelManager] returns a manager without models, configurations
    and default. *)
Lemma NewModelManager_fresh (World : Type)
  (os_UserHomeDir : World -> result string) (filepath_Join : list string -> string)
  (os_MkdirAll : string -> World -> option error * World) (w : World) :
  exists configFile,
    fst (ModelManager.NewModelManager World os_UserHomeDir filepath_Join os_MkdirAll w)
    = freshManager configFile.
Proof.
  unfold ModelManager.NewModelManager.
  destruct (os_MkdirAll _ w) as [e w']. eexists. reflexivity.
Qed.

Section InitFacts.

Variable Map_unicode_ToLower : string -> string.
Variable World : Type.
Variable yaml_Marshal : gomap.t ModelConfig.t -> result string.
Variable os_WriteFile : string -> string -> World -> option error * World.
Variable os_Stat : string -> World -> option error.
Variable os_IsNotExist : error -> bool.
Variable os_ReadFile : string -> World -> result string.
Variable yaml_Unmarshal : string -> result (gomap.t ModelConfig.t).
Variable range_order : forall V : Type, gomap.t V -> list (string * V).

Local Abbreviation initModel := (ModelManager.initModel Map_unicode_ToLower).
Local Abbreviation loadConfig :=
  (ModelManager.loadConfig World yaml_Marshal os_WriteFile os_Stat os_IsNotExist
     os_ReadFile yaml_Unmarshal).
Local Abbreviation Init :=
  (ModelManager.Init Map_unicode_ToLower World yaml_Marshal os_WriteFile os_Stat
     os_IsNotExist os_ReadFile yaml_Unmarshal range_order).
Local Abbreviation initialized := (afterLoad Map_unicode_ToLower range_order).

(** One turn of the first loop of [Init]. *)
Lemma initModel_step (m : ModelManager.t) (name : string) (config : ModelConfig.t) :
  initModel m (name, config)
  = {| ModelManager.models :=
         gomap.insert name (fst (CreateModel Map_unicode_ToLower config))
           (ModelManager.models m);
       ModelManager.configs := ModelManager.configs m;
       ModelManager.defaultModel :=
         if ModelConfig.DefaultEnabled config then name else ModelManager.defaultModel m;
       ModelManager.configFile := ModelManager.configFile m |}.
Proof.
  unfold ModelManager.initModel. rewrite CreateModel_model. cbn [fst].
  now destruct (ModelConfig.DefaultEnabled config).
Qed.

(** The loop leaves the configurations and the path as they are. *)
Lemma initModel_fold_configs (entries : list (string * ModelConfig.t)) :
  forall m,
    ModelManager.configs (fold_left initModel entries m) = ModelManager.configs m
    /\ ModelManager.configFile (fold_left initModel entries m) = ModelManager.configFile m.
Proof.
  induction entries as [|[name config] entries IH]; intros m; [now split|].
  cbn [fold_left]. destruct (IH (initModel m (name, config))) as [H1 H2].
  rewrite H1, H2, initModel_step. now split.
Qed.

(** The models after the loop: for every name visited, the model built
    from the configuration visited last under that name. *)
Lemma initModel_fold_models (entries : list (string * ModelConfig.t)) (k : string) :
  forall m,
    gomap.lookup k (ModelManager.models (fold_left initModel entries m))
    = match gomap.lookup k (rev entries) with
      | Some config => Some (fst (CreateModel Map_unicode_ToLower config))
      | None => gomap.lookup k (ModelManager.models m)
      end.
Proof.
  induction entries as [|[name config] entries IH]; intros m; [reflexivity|].
  cbn [fold_left rev]. rewrite IH, gomap_lookup_app, initModel_step.
  cbn [ModelManager.models].
  destruct (gomap.lookup k (rev entries)); [reflexivity|].
  cbn [gomap.lookup]. destruct (String.eqb_spec name k) as [->|Hne].
  - now rewrite gomap_lookup_insert_eq.
  - now rewrite gomap_lookup_insert_ne.
Qed.

(** The default after the loop: the name of an entry with the flag, or,
    when no entry has the flag, the default before the loop. *)
Lemma initModel_fold_default (entries : list (string * ModelConfig.t)) :
  forall m,
    (ModelManager.defaultModel (fold_left initModel entries m) = ModelManager.defaultModel m
     /\ forall entry, In entry entries -> ModelConfig.DefaultEnabled (snd entry) = false)
    \/ exists config,
         In (ModelManager.defaultModel (fold_left initModel entries m), config) entries
         /\ ModelConfig.DefaultEnabled config = true.
Proof.
  induction entries as [|[name config] entries IH]; intros m.
  - left. split; [reflexivity | contradiction].
  - cbn [fold_left].
    destruct (IH (initModel m (name, config))) as [[Hd Hall] | [c [Hin Hc]]].
    + rewrite Hd, initModel_step. cbn [ModelManager.defaultModel].
      destruct (ModelConfig.DefaultEnabled config) eqn:E.
      * right. exists config. split; [now left | exact E].
      * left. split; [reflexivity|]. intros entry [<- | Hin]; [exact E | now apply Hall].
    + right. exists c. split; [now right | exact Hc].
Qed.

Lemma initModel_fold_wf (entries : list (string * ModelConfig.t)) :
  forall m,
    gomap.wf (ModelManager.models m) ->
    gomap.wf (ModelManager.models (fold_left initModel entries m)).
Proof.
  induction entries as [|[name config] entries IH]; intros m H; [exact H|].
  cbn [fold_left]. apply IH. rewrite initModel_step. cbn [ModelManager.models].
  now apply gomap_insert_wf.
Qed.

(** [loadConfig] changes the configurations only. *)
Lemma loadConfig_keeps (m : ModelManager.t) (w : World) :
  let '(_, m', _) := loadConfig m w in
  ModelManager.models m' = ModelManager.models m
  /\ ModelManager.defaultModel m' = ModelManager.defaultModel m
  /\ ModelManager.configFile m' = ModelManager.configFile m.
Proof.
  unfold ModelManager.loadConfig.
  destruct (match os_Stat (ModelManager.configFile m) w with
            | Some err => os_IsNotExist err
            | None => false
            end).
  - now destruct (ModelManager.saveConfig World yaml_Marshal os_WriteFile m w).
  - destruct (os_ReadFile (ModelManager.configFile m) w) as [data|e]; [|easy].
    now destruct (yaml_Unmarshal data).
Qed.

(** What [Init] returns after [loadConfig] has succeeded. *)
Lemma Init_loaded (m m1 : ModelManager.t) (w w1 : World) :
  loadConfig m w = (None, m1, w1) ->
  let m2 := fold_left initModel (range_order ModelConfig.t (ModelManager.configs m1)) m1 in
  Init m w
  = (None,
     if String.eqb (ModelManager.defaultModel m2) EmptyString
        && (0 <? gomap.len (ModelManager.models m2))%Z
     then match range_order Model.t (ModelManager.models m2) with
          | (name, _) :: _ =>
              {| ModelManager.models := ModelManager.models m2;
                 ModelManager.configs := ModelManager.configs m2;
                 ModelManager.defaultModel := name;
                 ModelManager.configFile := ModelManager.configFile m2 |}
          | [] => m2
          end
     else m2,
     w1).
Proof. intros H m2. unfold ModelManager.Init. now rewrite H. Qed.

Hypothesis range_visits : visits_each_entry_once range_order.

(** The models after the loop of [Init] over the configurations of a
    manager that had no model. *)
Lemma initModel_fold_built (m1 : ModelManager.t) :
  ModelManager.models m1 = gomap.make ->
  gomap.wf (ModelManager.configs m1) ->
  models_built Map_unicode_ToLower
    (fold_left initModel (range_order ModelConfig.t (ModelManager.configs m1)) m1).
Proof.
  intros Hm Hwf k. destruct (range_visits _ _ Hwf) as [Hrw Hre].
  rewrite initModel_fold_models, (proj1 (initModel_fold_configs _ m1)), Hm.
  rewrite (gomap_lookup_rev _ _ _ Hrw).
  rewrite (gomap_lookup_same_entries _ _ _ k Hrw Hwf Hre).
  now destruct (gomap.lookup k (ModelManager.configs m1)).
Qed.

Lemma initialized_default (m1 : ModelManager.t) :
  ModelManager.models m1 = gomap.make ->
  ModelManager.defaultModel m1 = EmptyString ->
  gomap.wf (ModelManager.configs m1) ->
  gomap.lookup EmptyString (ModelManager.configs m1) = None ->
  ModelManager.configs (initialized m1) = ModelManager.configs m1
  /\ models_built Map_unicode_ToLower (initialized m1)
  /\ ((exists name, flagged (ModelManager.configs m1) name) ->
      flagged (ModelManager.configs m1) (ModelManager.defaultModel (initialized m1)))
  /\ ((forall name, ~ flagged (ModelManager.configs m1) name) ->
      ModelManager.configs m1 <> [] ->
      gomap.lookup (ModelManager.defaultModel (initialized m1)) (ModelManager.configs m1)
      <> None)
  /\ (ModelManager.configs m1 = [] ->
      ModelManager.defaultModel (initialized m1) = EmptyString).
Proof.
  intros Hm1 Hd1 Hwf Hempty. unfold afterLoad.
  set (m2 := fold_left initModel (range_order ModelConfig.t (ModelManager.configs m1)) m1).
  assert (Hc2 : ModelManager.configs m2 = ModelManager.configs m1)
    by apply initModel_fold_configs.
  set (m3 := if String.eqb (ModelManager.defaultModel m2) EmptyString
                && (0 <? gomap.len (ModelManager.models m2))%Z
             then match range_order Model.t (ModelManager.models m2) with
                  | (name, _) :: _ =>
                      {| ModelManager.models := ModelManager.models m2;
                         ModelManager.configs := ModelManager.configs m2;
                         ModelManager.defaultModel := name;
                         ModelManager.configFile := ModelManager.configFile m2 |}
                  | [] => m2
                  end
             else m2).
  assert (Hsame : ModelManager.models m3 = ModelManager.models m2
                  /\ ModelManager.configs m3 = ModelManager.configs m1).
  { subst m3. destruct (_ && _); [|now split].
    destruct (range_order Model.t (ModelManager.models m2)) as [|[name model] rest];
      now split. }
  destruct Hsame as [Hm3 Hc3].
  assert (Hbuilt2 : models_built Map_unicode_ToLower m2)
    by now apply initModel_fold_built.
  assert (Hbuilt : models_built Map_unicode_ToLower m3).
  { intros k. rewrite Hm3, Hc3, <- Hc2. apply Hbuilt2. }
  split; [exact Hc3 | split; [exact Hbuilt|]].
  destruct (range_visits _ _ Hwf) as [Hrw Hre].
  destruct (initModel_fold_default (range_order ModelConfig.t (ModelManager.configs m1)) m1)
    as [[Hd2 Hall] | [config [Hin Hflag]]]; fold m2 in Hd2 || fold m2 in Hin.
  - (* no entry has the flag *)
    rewrite Hd1 in Hd2.
    assert (Hnone : forall name, ~ flagged (ModelManager.configs m1) name).
    { intros name (c & Hl & Hf). apply gomap_lookup_In, Hre, Hall in Hl.
      cbn [snd] in Hl. congruence. }
    split; [intros [name H]; now destruct (Hnone name) | split].
    + intros _ Hne.
      assert (Hex : exists k0 c0, gomap.lookup k0 (ModelManager.configs m1) = Some c0).
      { destruct (ModelManager.configs m1) as [|[k0 c0] rest]; [contradiction|].
        exists k0, c0. cbn [gomap.lookup]. now rewrite String.eqb_refl. }
      destruct Hex as (k0 & c0 & Hl0).
      assert (Hk0 : gomap.lookup k0 (ModelManager.models m2) <> None).
      { rewrite (Hbuilt2 k0), Hc2, Hl0. discriminate. }
      assert (Hwf2 : gomap.wf (ModelManager.models m2)).
      { apply initModel_fold_wf. rewrite Hm1. constructor. }
      destruct (range_visits _ _ Hwf2) as [_ Hre2].
      assert (Hlen : (0 <? gomap.len (ModelManager.models m2))%Z = true).
      { unfold gomap.len. destruct (ModelManager.models m2); [now contradiction Hk0|].
        apply Z.ltb_lt. simpl List.length. lia. }
      subst m3. rewrite Hd2, Hlen. cbn [String.eqb andb].
      destruct (range_order Model.t (ModelManager.models m2)) as [|[name model] rest'] eqn:Er.
      * exfalso. destruct (gomap.lookup k0 (ModelManager.models m2)) as [model|] eqn:El;
          [|now contradiction Hk0].
        apply gomap_lookup_In, Hre2 in El. contradiction.
      * cbn [ModelManager.defaultModel].
        assert (Hin : In (name, model) (ModelManager.models m2)).
        { apply Hre2. now left. }
        apply (gomap_In_lookup _ _ _ _ Hwf2) in Hin.
        rewrite (Hbuilt2 name), Hc2 in Hin.
        intros Hcontra. rewrite Hcontra in Hin. discriminate.
    + intros Hnil.
      assert (Hr : range_order ModelConfig.t (ModelManager.configs m1) = []).
      { destruct (range_order ModelConfig.t (ModelManager.configs m1)) as [|x l] eqn:Er;
          [reflexivity|].
        exfalso. assert (Hx : In x (ModelManager.configs m1)) by (apply Hre; now left).
        now rewrite Hnil in Hx. }
      assert (Hm2 : m2 = m1) by (subst m2; now rewrite Hr).
      subst m3. rewrite Hm2, Hm1, Hd1. simpl. exact Hd1.
  - (* the default is an entry with the flag *)
    apply Hre, (gomap_In_lookup _ _ _ _ Hwf) in Hin.
    assert (Hne : String.eqb (ModelManager.defaultModel m2) EmptyString = false).
    { apply String.eqb_neq. intros Hcontra. rewrite Hcontra in Hin. congruence. }
    assert (Hd3 : ModelManager.defaultModel m3 = ModelManager.defaultModel m2).
    { subst m3. now rewrite Hne. }
    rewrite Hd3.
    split; [intros _; now exists config | split].
    + intros _ _. congruence.
    + intros Hnil. rewrite Hnil in Hin. discriminate.
Qed.

Lemma Init_initialized (m m1 : ModelManager.t) (w w1 : World) :
  loadConfig m w = (None, m1, w1) -> Init m w = (None, initialized m1, w1).
Proof. intros H. unfold ModelManager.Init, afterLoad. now rewrite H. Qed.

(** X27.  [Init] builds a model for every configuration of the file and
    takes the default from the default flags.  On a manager without models
    and without a default, when [Init] succeeds and the configurations have
    distinct names, none of them empty, then, in whatever order the [range]
    loops visit the maps: every model is the one the factory builds from the
    configuration of the same name; when some configuration has the default
    flag, the default is a configuration with the flag; when none has it and
    there are configurations, the default is one of them; and without
    configurations there is no default. *)
Theorem Init_builds_models_and_takes_flagged_default (m : ModelManager.t) (w : World) :
  ModelManager.models m = gomap.make ->
  ModelManager.defaultModel m = EmptyString ->
  let '(err, m', w') := Init m w in
  err = None ->
  gomap.wf (ModelManager.configs m') ->
  gomap.lookup EmptyString (ModelManager.configs m') = None ->
  models_built Map_unicode_ToLower m'
  /\ ((exists name, flagged (ModelManager.configs m') name) ->
      flagged (ModelManager.configs m') (ModelManager.GetDefaultModelName m'))
  /\ ((forall name, ~ flagged (ModelManager.configs m') name) ->
      ModelManager.configs m' <> [] ->
      gomap.lookup (ModelManager.GetDefaultModelName m') (ModelManager.configs m') <> None)
  /\ (ModelManager.configs m' = [] -> ModelManager.GetDefaultModelName m' = EmptyString).
Proof.
  intros Hm Hd. pose proof (loadConfig_keeps m w) as Hkeep.
  destruct (loadConfig m w) as [[[e|] m1] w1] eqn:Hload.
  { unfold ModelManager.Init. rewrite Hload. discriminate. }
  destruct Hkeep as (Hm1 & Hd1 & _). rewrite Hm in Hm1. rewrite Hd in Hd1.
  rewrite (Init_initialized _ _ _ _ Hload).
  intros _ Hwf Hempty. unfold ModelManager.GetDefaultModelName.
  assert (Hc : ModelManager.configs (initialized m1) = ModelManager.configs m1).
  { unfold afterLoad. destruct (_ && _); [|apply initModel_fold_configs].
    destruct (range_order Model.t _) as [|[name model] rest];
      apply initModel_fold_configs. }
  rewrite Hc in Hwf, Hempty |- *.
  now destruct (initialized_default m1 Hm1 Hd1 Hwf Hempty) as (_ & H).
Qed.

(** X28.  The choice of the default model does not survive a restart.
    Let [SetDefaultModel] succeed for a name whose configuration is without
    the default flag, while some configuration has the flag.  When the file
    is then there, holds what was written and is decoded to the
    configurations written, [Init] on a new manager for the same file makes a
    configuration with the flag the default, and not the name chosen, in
    whatever order the [range] loops visit the maps. *)
Theorem default_choice_is_lost_on_restart
  (m : ModelManager.t) (w : World) (name other data : string) :
  gomap.wf (ModelManager.configs m) ->
  gomap.lookup EmptyString (ModelManager.configs m) = None ->
  gomap.lookup name (ModelManager.configs m) <> None ->
  ~ flagged (ModelManager.configs m) name ->
  flagged (ModelManager.configs m) other ->
  let '(err, m1, w1) :=
    ModelManager.SetDefaultModel World yaml_Marshal os_WriteFile name m w in
  err = None ->
  os_Stat (ModelManager.configFile m) w1 = None ->
  yaml_Marshal (ModelManager.configs m) = Ok data ->
  os_ReadFile (ModelManager.configFile m) w1 = Ok data ->
  yaml_Unmarshal data = Ok (ModelManager.configs m) ->
  let '(err', m2, _) := Init (freshManager (ModelManager.configFile m)) w1 in
  ModelManager.GetDefaultModelName m1 = name
  /\ err' = None
  /\ ModelManager.ListModels m2 = ModelManager.ListModels m
  /\ flagged (ModelManager.configs m) (ModelManager.GetDefaultModelName m2)
  /\ ModelManager.GetDefaultModelName m2 <> name.
Proof.
  intros Hwf Hempty Hknown Hname Hother.
  rewrite (SetDefaultModel_known _ _ _ _ _ _ Hknown).
  intros _ Hstat Hdata Hread Hyaml.
  assert (Hload : loadConfig (freshManager (ModelManager.configFile m))
                    (snd (ModelManager.saveConfig World yaml_Marshal os_WriteFile m w))
                  = (None,
                     {| ModelManager.models := gomap.make;
                        ModelManager.configs := ModelManager.configs m;
                        ModelManager.defaultModel := EmptyString;
                        ModelManager.configFile := ModelManager.configFile m |},
                     snd (ModelManager.saveConfig World yaml_Marshal os_WriteFile m w))).
  { unfold ModelManager.loadConfig, freshManager. cbn [ModelManager.configFile].
    now rewrite Hstat, Hread, Hyaml. }
  rewrite (Init_initialized _ _ _ _ Hload).
  match type of Hload with
  | _ = (None, ?m1, _) =>
      destruct (initialized_default m1 eq_refl eq_refl Hwf Hempty) as (Hc & _ & Hflag & _)
  end.
  cbn [ModelManager.configs] in Hc, Hflag.
  unfold ModelManager.GetDefaultModelName, ModelManager.ListModels.
  split; [reflexivity | split; [reflexivity | split; [now rewrite Hc | split]]].
  - apply Hflag. now exists other.
  - intros Heq. apply Hname. rewrite <- Heq. apply Hflag. now exists other.
Qed.

End InitFacts.

Lemma reverseOrder_visits_each_entry_once : visits_each_entry_once reverseOrder.
Proof.
  intros V m Hwf. unfold reverseOrder. split; [now apply gomap_wf_rev|].
  intros entry. symmetry. apply in_rev.
Qed.

(** A start with the file of [flaggedModels]. *)
Lemma Init_builds_models_and_takes_flagged_default_witness :
  visits_each_entry_once reverseOrder
  /\ ModelManager.models (freshManager "/home/user/.ai/config.yaml") = gomap.make
  /\ ModelManager.defaultModel (freshManager "/home/user/.ai/config.yaml") = EmptyString
  /\ fst (fst (ModelManager.Init exampleToLower exampleWorld exampleYAML exampleWriteFile
                 exampleStatWritten exampleIsMissing exampleReadWritten
                 (exampleDecode (ModelManager.configs flaggedModels)) reverseOrder
                 (freshManager "/home/user/.ai/config.yaml")
                 [("/home/user/.ai/config.yaml", "gpt-4:" ++ NL ++ "claude-3:" ++ NL)]))
     = None
  /\ flagged (ModelManager.configs flaggedModels) "gpt-4"
  /\ flagged (ModelManager.configs flaggedModels)
       (ModelManager.GetDefaultModelName
          (snd (fst (ModelManager.Init exampleToLower exampleWorld exampleYAML
                       exampleWriteFile exampleStatWritten exampleIsMissing
                       exampleReadWritten
                       (exampleDecode (ModelManager.configs flaggedModels)) reverseOrder
                       (freshManager "/home/user/.ai/config.yaml")
                       [("/home/user/.ai/config.yaml",
                         "gpt-4:" ++ NL ++ "claude-3:" ++ NL)])))).
Proof.
  assert (Hwf : gomap.wf (ModelManager.configs flaggedModels)).
  { unfold gomap.wf. vm_compute.
    repeat constructor; simpl; intuition discriminate. }
  assert (Hflag : flagged (ModelManager.configs flaggedModels) "gpt-4").
  { eexists. split; [vm_compute; reflexivity | reflexivity]. }
  pose proof (Init_builds_models_and_takes_flagged_default exampleToLower exampleWorld
                exampleYAML exampleWriteFile exampleStatWritten exampleIsMissing
                exampleReadWritten (exampleDecode (ModelManager.configs flaggedModels))
                reverseOrder reverseOrder_visits_each_entry_once
                (freshManager "/home/user/.ai/config.yaml")
                [("/home/user/.ai/config.yaml", "gpt-4:" ++ NL ++ "claude-3:" ++ NL)]
                eq_refl eq_refl eq_refl Hwf eq_refl) as T.
  split; [exact reverseOrder_visits_each_entry_once |].
  split; [reflexivity | split; [reflexivity | split; [reflexivity | split]]].
  - exact Hflag.
  - exact (proj1 (proj2 T) (ex_intro _ "gpt-4" Hflag)).
Defined.

(** The default is set to [claude-3], and after the restart it is
    [gpt-4] again. *)
Lemma default_choice_is_lost_on_restart_witness :
  visits_each_entry_once reverseOrder
  /\ gomap.wf (ModelManager.configs flaggedModels)
  /\ gomap.lookup "claude-3" (ModelManager.configs flaggedModels) <> None
  /\ ~ flagged (ModelManager.configs flaggedModels) "claude-3"
  /\ flagged (ModelManager.configs flaggedModels) "gpt-4"
  /\ ModelManager.SetDefaultModel exampleWorld exampleYAML exampleWriteFile
       "claude-3" flaggedModels []
     = (None,
        {| ModelManager.models := ModelManager.models flaggedModels;
           ModelManager.configs := ModelManager.configs flaggedModels;
           ModelManager.defaultModel := "claude-3";
           ModelManager.configFile := "/home/user/.ai/config.yaml" |},
        [("/home/user/.ai/config.yaml", "claude-3:" ++ NL ++ "gpt-4:" ++ NL)])
  /\ ModelManager.GetDefaultModelName
       (snd (fst (ModelManager.Init exampleToLower exampleWorld exampleYAML
                    exampleWriteFile exampleStatWritten exampleIsMissing
                    exampleReadWritten
                    (exampleDecode (ModelManager.configs flaggedModels)) reverseOrder
                    (freshManager "/home/user/.ai/config.yaml")
                    [("/home/user/.ai/config.yaml",
                      "claude-3:" ++ NL ++ "gpt-4:" ++ NL)])))
     <> "claude-3".
Proof.
  assert (Hwf : gomap.wf (ModelManager.configs flaggedModels)).
  { unfold gomap.wf. vm_compute.
    repeat constructor; simpl; intuition discriminate. }
  assert (Hknown : gomap.lookup "claude-3" (ModelManager.configs flaggedModels) <> None)
    by (vm_compute; discriminate).
  assert (Hname : ~ flagged (ModelManager.configs flaggedModels) "claude-3").
  { intros (config & Hl & Hf). vm_compute in Hl. inversion Hl; subst config.
    discriminate. }
  assert (Hflag : flagged (ModelManager.configs flaggedModels) "gpt-4").
  { eexists. split; [vm_compute; reflexivity | reflexivity]. }
  assert (Hset : ModelManager.SetDefaultModel exampleWorld exampleYAML exampleWriteFile
                   "claude-3" flaggedModels []
                 = (None,
                    {| ModelManager.models := ModelManager.models flaggedModels;
                       ModelManager.configs := ModelManager.configs flaggedModels;
                       ModelManager.defaultModel := "claude-3";
                       ModelManager.configFile := "/home/user/.ai/config.yaml" |},
                    [("/home/user/.ai/config.yaml",
                      "claude-3:" ++ NL ++ "gpt-4:" ++ NL)]))
    by (vm_compute; reflexivity).
  pose proof (default_choice_is_lost_on_restart exampleToLower exampleWorld exampleYAML
                exampleWriteFile exampleStatWritten exampleIsMissing exampleReadWritten
                (exampleDecode (ModelManager.configs flaggedModels)) reverseOrder
                reverseOrder_visits_each_entry_once flaggedModels []
                "claude-3" "gpt-4" ("claude-3:" ++ NL ++ "gpt-4:" ++ NL)
                Hwf eq_refl Hknown Hname Hflag eq_refl eq_refl eq_refl eq_refl eq_refl) as T.
  split; [exact reverseOrder_visits_each_entry_once |].
  split; [exact Hwf | split; [exact Hknown | split; [exact Hname | split; [exact Hflag |]]]].
  split; [exact Hset |].
  exact (proj2 (proj2 (proj2 (proj2 T)))).
Defined.

(** ** The command [model options] and a plain question *)

Section OptionsFacts.

Variable Map_unicode_ToLower : string -> string.
Variable ConfigWorld : Type.
Variable yaml_Marshal : gomap.t ModelConfig.t -> result string.
Variable config_WriteFile : string -> string -> ConfigWorld -> option error * ConfigWorld.
Variable Error : error -> string.
Variable client_Chat : OpenAIClient.t -> list Message.t -> ChatOptions.t -> string * option error.
Variable World : Type.
Variable time_Now : World -> Z * World.
Variable filepath_Join : list string -> string.
Variable os_WriteFile : string -> string -> World -> option error * World.
Variable json_MarshalIndent : option history.Session -> result string.

Local Abbreviation Run :=
  (ai.Run Error client_Chat World time_Now filepath_Join os_WriteFile json_MarshalIndent).
Local Abbreviation optionsCmd_Run :=
  (ai.optionsCmd_Run Map_unicode_ToLower ConfigWorld yaml_Marshal config_WriteFile).

(** [Run] reads the model manager through [GetDefaultModel] alone, and the
    model through [Chat] alone. *)
Lemma Run_same_default (question : string) (noHistory : bool) (mm mm' : ModelManager.t)
  (hm : option history.Manager) (w : World) :
  ModelManager.GetDefaultModel mm = ModelManager.GetDefaultModel mm' ->
  Run question noHistory mm hm w = Run question noHistory mm' hm w.
Proof. intros H. unfold ai.Run. now rewrite H. Qed.

Lemma Run_same_Chat (question : string) (noHistory : bool) (mm mm' : ModelManager.t)
  (model model' : Model.t) (hm : option history.Manager) (w : World) :
  ModelManager.GetDefaultModel mm = (Some model, None) ->
  ModelManager.GetDefaultModel mm' = (Some model', None) ->
  (forall options, Model.Chat client_Chat model question options
                   = Model.Chat client_Chat model' question options) ->
  Run question noHistory mm hm w = Run question noHistory mm' hm w.
Proof.
  intros H H' Hchat. unfold ai.Run. rewrite H, H'.
  destruct (if negb noHistory then _ else _) as [chatOptions|]; [|reflexivity].
  now rewrite Hchat.
Qed.

(** X29.  The options stored with [ai model options] do not reach a plain
    question.  For a model whose configuration is without the default flag,
    in a manager where every model is built from its configuration, the
    command without the flag [--default] does not panic and stores the values
    of the flags given in the options of the model; and the root command
    [Run] does with the manager afterwards exactly what it does with the
    manager before, for every question, history and world, whether or not the
    file could be written. *)
Theorem options_do_not_reach_a_plain_question
  (name : string) (temperature : option float) (maxTokens : option Z)
  (stream : option bool) (mm : ModelManager.t) (cw : ConfigWorld) (config : ModelConfig.t) :
  models_built Map_unicode_ToLower mm ->
  gomap.lookup name (ModelManager.configs mm) = Some config ->
  ModelConfig.DefaultEnabled config = false ->
  exists err mm' cw' options,
    optionsCmd_Run name temperature maxTokens stream None mm cw = Some (err, mm', cw')
    /\ ModelManager.GetModelConfig mm' name
       = (Some {| ModelConfig.Name := ModelConfig.Name config;
                  ModelConfig.URL := ModelConfig.URL config;
                  ModelConfig.APIKey := ModelConfig.APIKey config;
                  ModelConfig.DefaultEnabled := false;
                  ModelConfig.DefaultChatOptions := Some options |}, None)
    /\ (forall t, temperature = Some t -> ChatOptions.Temperature options = t)
    /\ (forall n, maxTokens = Some n -> ChatOptions.MaxTokens options = n)
    /\ (forall b, stream = Some b -> ChatOptions.Stream options = b)
    /\ forall question noHistory hm w,
         Run question noHistory mm' hm w = Run question noHistory mm hm w.
Proof.
  intros Hbuilt Hconfig Hflag.
  assert (Hknown : gomap.lookup name (ModelManager.configs mm) <> None) by congruence.
  unfold ai.optionsCmd_Run, ModelManager.GetModelConfig at 1. rewrite Hconfig, Hflag.
  match goal with
  | |- context [ModelManager.UpdateModelConfig _ _ _ _ name ?c mm cw] => set (config' := c)
  end.
  rewrite (UpdateModelConfig_known Map_unicode_ToLower ConfigWorld yaml_Marshal
             config_WriteFile name config' mm cw Hknown).
  match goal with
  | |- context [Some (_, ?m, _)] => set (mm' := m)
  end.
  eexists. exists mm'. eexists.
  match eval cbv delta [config'] in config' with
  | {| ModelConfig.DefaultChatOptions := Some ?o |} => exists o
  end.
  split; [reflexivity | split; [|split; [|split; [|split]]]].
  - unfold ModelManager.GetModelConfig. subst mm'. cbn [ModelManager.configs].
    now rewrite gomap_lookup_insert_eq.
  - intros t ->. now destruct maxTokens, stream.
  - intros n ->. now destruct stream.
  - now intros b ->.
  - intros question noHistory hm w.
    assert (Hd : ModelManager.defaultModel mm' = ModelManager.defaultModel mm) by reflexivity.
    destruct (String.eqb_spec (ModelManager.defaultModel mm) name) as [Heq | Hne].
    + destruct (String.eqb_spec name EmptyString) as [Hempty | Hnonempty].
      * apply Run_same_default. unfold ModelManager.GetDefaultModel.
        now rewrite Hd, Heq, Hempty.
      * apply (Run_same_Chat question noHistory mm' mm
                 (fst (CreateModel Map_unicode_ToLower config'))
                 (fst (CreateModel Map_unicode_ToLower config))).
        -- unfold ModelManager.GetDefaultModel. rewrite Hd, Heq.
           destruct (String.eqb_spec name EmptyString); [contradiction|].
           subst mm'. cbn [ModelManager.models]. now rewrite gomap_lookup_insert_eq.
        -- unfold ModelManager.GetDefaultModel. rewrite Heq.
           destruct (String.eqb_spec name EmptyString); [contradiction|].
           now rewrite (Hbuilt name), Hconfig.
        -- intros options. now apply Model_Chat_by_identity.
    + apply Run_same_default. unfold ModelManager.GetDefaultModel. rewrite Hd.
      subst mm'. cbn [ModelManager.models].
      now rewrite gomap_lookup_insert_ne by congruence.
Qed.

End OptionsFacts.

(** The options of [gpt-4] are changed, and the question is sent as
    before. *)
Lemma options_do_not_reach_a_plain_question_witness :
  models_built exampleToLower twoModels
  /\ gomap.lookup "gpt-4" (ModelManager.configs twoModels)
     = Some {| ModelConfig.Name := "gpt-4";
               ModelConfig.URL := "https://api.openai.com";
               ModelConfig.APIKey := "sk-test-0001";
               ModelConfig.DefaultEnabled := false;
               ModelConfig.DefaultChatOptions := None |}
  /\ exists err mm' cw' options,
       ai.optionsCmd_Run exampleToLower exampleWorld exampleYAML exampleWriteFile
         "gpt-4" None (Some 16%Z) (Some false) None twoModels []
       = Some (err, mm', cw')
       /\ ChatOptions.MaxTokens options = 16%Z
       /\ ChatOptions.Stream options = false
       /\ ModelManager.GetModelConfig mm' "gpt-4"
          = (Some {| ModelConfig.Name := "gpt-4";
                     ModelConfig.URL := "https://api.openai.com";
                     ModelConfig.APIKey := "sk-test-0001";
                     ModelConfig.DefaultEnabled := false;
                     ModelConfig.DefaultChatOptions := Some options |}, None)
       /\ ai.Run exampleError (exampleChat 200 sseResponse) exampleWorld exampleNow
            exampleJoin exampleWriteFile exampleMarshalIndent
            "next question" false mm' (Some exampleHistory) []
          = ai.Run exampleError (exampleChat 200 sseResponse) exampleWorld exampleNow
              exampleJoin exampleWriteFile exampleMarshalIndent
              "next question" false twoModels (Some exampleHistory) [].
Proof.
  assert (H1 : models_built exampleToLower twoModels).
  { intros name.
    set (models := ModelManager.models twoModels). vm_compute in models.
    set (configs := ModelManager.configs twoModels). vm_compute in configs.
    subst models configs. cbn [gomap.lookup].
    destruct (String.eqb _ name); [vm_compute; reflexivity|].
    destruct (String.eqb _ name); vm_compute; reflexivity. }
  assert (H2 : gomap.lookup "gpt-4" (ModelManager.configs twoModels)
               = Some {| ModelConfig.Name := "gpt-4";
                         ModelConfig.URL := "https://api.openai.com";
                         ModelConfig.APIKey := "sk-test-0001";
                         ModelConfig.DefaultEnabled := false;
                         ModelConfig.DefaultChatOptions := None |})
    by (vm_compute; reflexivity).
  split; [exact H1 | split; [exact H2 |]].
  destruct (options_do_not_reach_a_plain_question exampleToLower exampleWorld exampleYAML
              exampleWriteFile exampleError (exampleChat 200 sseResponse) exampleWorld
              exampleNow exampleJoin exampleWriteFile exampleMarshalIndent
              "gpt-4" None (Some 16%Z) (Some false) twoModels [] _ H1 H2 eq_refl)
    as (err & mm' & cw' & options & Hrun & Hconfig & _ & Hmax & Hstream & Hsame).
  exists err, mm', cw', options.
  split; [exact Hrun | split; [exact (Hmax _ eq_refl) | split; [exact (Hstream _ eq_refl) |]]].
  split; [exact Hconfig | apply Hsame].
Defined.
